(** * XDAA client handshake: wire messages, protocol engine and backends

    A shallow embedding of the Python package [xaptum] (message codec,
    finite-state-machine framework, XDAA handshake engine, synchronous crypto
    and socket backends, key provisioning) together with the properties of
    its specification. *)

From Stdlib Require Import ZArith List Bool Lia String Ascii.
From coqutil Require Import Byte.
Import ListNotations.
Local Open Scope Z_scope.

(** ** Python values shared by all modules *)

(** A byte string ([bytes], and the native [str] of Python 2). *)
Definition bytes := list byte.

(** A bytes literal written with its ASCII characters. *)
Definition bstr (s : string) : bytes := list_byte_of_string s.

(** [len(x)] *)
Definition len {A} (x : list A) : Z := Z.of_nat (List.length x).

(** [x[i:j]] for non-negative indices. *)
Definition slice {A} (x : list A) (i j : Z) : list A :=
  firstn (Z.to_nat (j - i)) (skipn (Z.to_nat i) x).

(** [x[::-1]] *)
Definition reversed {A} (x : list A) : list A := rev x.

(** [x != y] on integers. *)
Definition ne (x y : Z) : bool := negb (x =? y).

Definition byte_eqb (x y : byte) : bool := Byte.eqb x y.

(** [x == y] on byte strings. *)
Fixpoint bytes_eqb (x y : bytes) : bool :=
  match x, y with
  | [], [] => true
  | c :: x', d :: y' => byte_eqb c d && bytes_eqb x' y'
  | _, _ => false
  end.

(** The exceptions the package raises or lets through.  [OutOfFuel] is not
    a Python exception: it is the outcome of a model function whose bound on
    loop iterations or on call depth was reached. *)
Inductive exn : Type :=
  (* xaptum.xdaa.exceptions *)
  | XDAAError
  | InvalidMessageError
  | IncorrectGroupError
  | InvalidSignatureError
  | UnsupportedVersionError
  (* xaptum.fsm.exceptions *)
  | FSMError
  | TerminatedError
  | UnsupportedEventError
  (* struct.error, socket.error, cryptography.exceptions.InvalidSignature *)
  | struct_error
  | socket_error
  | InvalidSignature
  (* builtins *)
  | NameError
  | TypeError
  | AttributeError
  | AssertionError
  | NotImplementedError
  | ReferenceError
  | UnicodeEncodeError
  | ValueError
  | Exception
  | OutOfFuel.

Scheme Equality for exn.

Definition exn_eqb (x y : exn) : bool := exn_beq x y.

(** The direct base class of each exception class ([None] at [Exception]). *)
Definition base (e : exn) : option exn :=
  match e with
  | XDAAError => Some Exception
  | InvalidMessageError => Some XDAAError
  | IncorrectGroupError => Some XDAAError
  | InvalidSignatureError => Some XDAAError
  | UnsupportedVersionError => Some InvalidMessageError
  | FSMError => Some ValueError
  | TerminatedError => Some FSMError
  | UnsupportedEventError => Some FSMError
  | UnicodeEncodeError => Some ValueError
  | Exception => None
  | OutOfFuel => None
  | _ => Some Exception
  end.

(** [isinstance(e, cls)]: [cls] is the class of [e] or one of its bases.
    The hierarchy is at most four classes deep. *)
Fixpoint issubclass_upto (n : nat) (e cls : exn) : bool :=
  exn_eqb e cls ||
  match n with
  | O => false
  | S n' => match base e with
            | Some e' => issubclass_upto n' e' cls
            | None => false
            end
  end.

Definition isinstance (e cls : exn) : bool := issubclass_upto 4 e cls.

(** ** Fallible computations *)

(** A call either raises ([inl]) or returns ([inr]). *)
Definition result (A : Type) : Type := (exn + A)%type.

Abbreviation raise e := (@inl exn _ e).
Abbreviation ok x := (@inr exn _ x).

Definition bind_result {A B} (m : result A) (k : A -> result B) : result B :=
  match m with
  | inl e => inl e
  | inr x => k x
  end.

(** [try: m except cls: raise e'] *)
Definition reraise {A} (cls e' : exn) (m : result A) : result A :=
  match m with
  | inl e => if isinstance e cls then inl e' else inl e
  | inr x => inr x
  end.

Declare Scope result_scope.
Delimit Scope result_scope with result.
Notation "x <- m ;; k" := (bind_result m (fun x => k))
  (at level 61, m at next level, right associativity) : result_scope.
Notation "' pat <- m ;; k" := (bind_result m (fun x => match x with pat => k end))
  (at level 61, pat pattern, m at next level, right associativity) : result_scope.
Notation "m ;; k" := (bind_result m (fun _ => k))
  (at level 61, right associativity) : result_scope.
Local Open Scope result_scope.

(** ** The [struct] module, for the formats the package uses

    Every format string of the package starts with ['!'] (network byte order,
    standard sizes, no padding) and is made of [B] (unsigned char), [H]
    (unsigned short) and [<count>s] (a byte string of [count] bytes) codes. *)
Module struct.

Inductive code : Type :=
  | B
  | H
  | s (count : Z).

(** The format ['!%ds%ds' % (m, n)] is [[s m; s n]]: a negative number
    prints with a minus sign, which is not a format character. *)
Definition format := list code.

(** A Python value given to [pack] or returned by [unpack]. *)
Inductive value : Type :=
  | Int (v : Z)
  | Bytes (v : bytes).

Definition code_ok (c : code) : bool :=
  match c with
  | s n => 0 <=? n
  | _ => true
  end.

Definition size_of (c : code) : Z :=
  match c with
  | B => 1
  | H => 2
  | s n => n
  end.

(** [struct.calcsize] *)
Definition calcsize (f : format) : result Z :=
  if forallb code_ok f then ok (fold_right (fun c n => size_of c + n) 0 f)
  else raise struct_error.

(** Big-endian unsigned short. *)
Definition pack_H (v : Z) : bytes := [byte.of_Z (v / 256); byte.of_Z v].

Definition unpack_H (hi lo : byte) : Z :=
  256 * byte.unsigned hi + byte.unsigned lo.

(** For [s], the value is truncated or padded with null bytes to fit. *)
Definition pack_s (count : Z) (v : bytes) : bytes :=
  firstn (Z.to_nat count) (v ++ repeat Byte.x00 (Z.to_nat count - List.length v)).

Definition pack_one (c : code) (v : value) : result bytes :=
  match c, v with
  | B, Int v => if (0 <=? v) && (v <=? 255) then ok [byte.of_Z v]
                else raise struct_error
  | H, Int v => if (0 <=? v) && (v <=? 65535) then ok (pack_H v)
                else raise struct_error
  | s n, Bytes v => if 0 <=? n then ok (pack_s n v) else raise struct_error
  | _, _ => raise struct_error
  end.

(** [struct.pack(format, *values)] *)
Fixpoint pack (f : format) (values : list value) : result bytes :=
  match f, values with
  | [], [] => ok []
  | c :: f', v :: values' =>
      x <- pack_one c v ;;
      rest <- pack f' values' ;;
      ok (x ++ rest)
  | _, _ => raise struct_error
  end.

(** Decoding of a buffer already known to have the size of the format. *)
Fixpoint unpack_from (f : format) (data : bytes) : list value :=
  match f with
  | [] => []
  | B :: f' =>
      match data with
      | x :: data' => Int (byte.unsigned x) :: unpack_from f' data'
      | _ => []
      end
  | H :: f' =>
      match data with
      | hi :: lo :: data' => Int (unpack_H hi lo) :: unpack_from f' data'
      | _ => []
      end
  | s n :: f' =>
      Bytes (firstn (Z.to_nat n) data) :: unpack_from f' (skipn (Z.to_nat n) data)
  end.

(** [struct.unpack(format, buffer)]: the buffer's size must be exactly the
    size of the format. *)
Definition unpack (f : format) (data : bytes) : result (list value) :=
  size <- calcsize f ;;
  if len data =? size then ok (unpack_from f data) else raise struct_error.

End struct.

(** ** Name resolution inside a function of [message.py]

  A name read in a function body is looked up in the function's local
  variables, then in the module's globals, then in the builtins; a name
  bound in none of them raises [NameError]. *)
Module scope.

(** What a name can be bound to. *)
Inductive object : Type :=
  | Format (f : struct.format)       (* a [str] holding a struct format *)
  | Data (v : bytes)
  | Other.                           (* a module, class or function *)

Definition locals := list (string * object).

(** The names [message.py] binds at module level. *)
Definition module_globals : list string :=
  ["absolute_import"; "print_function"; "struct"; "InvalidMessageError";
   "Message"; "ClientHelloMessage"; "ServerKeyExchangeMessage";
   "ClientKeyExchangeMessage"]%string.

(** The built-in functions and constants. *)
Definition builtins : list string :=
  ["abs"; "all"; "any"; "ascii"; "bin"; "bool"; "bytearray"; "bytes";
   "callable"; "chr"; "classmethod"; "compile"; "complex"; "delattr";
   "dict"; "dir"; "divmod"; "enumerate"; "eval"; "exec"; "filter"; "float";
   "format"; "frozenset"; "getattr"; "globals"; "hasattr"; "hash"; "help";
   "hex"; "id"; "input"; "int"; "isinstance"; "issubclass"; "iter"; "len";
   "list"; "locals"; "map"; "max"; "memoryview"; "min"; "next"; "object";
   "oct"; "open"; "ord"; "pow"; "print"; "property"; "range"; "repr";
   "reversed"; "round"; "set"; "setattr"; "slice"; "sorted"; "staticmethod";
   "str"; "sum"; "super"; "tuple"; "type"; "vars"; "zip"; "__import__";
   "True"; "False"; "None"]%string.

Fixpoint lookup (name : string) (l : locals) : option object :=
  match l with
  | [] => None
  | (n, v) :: l' => if String.eqb n name then Some v else lookup name l'
  end.

(** The assignment [name = v] in a function body. *)
Definition store (name : string) (v : object) (l : locals) : locals :=
  (name, v) :: l.

Definition mem (name : string) (names : list string) : bool :=
  existsb (String.eqb name) names.

(** Reading the name [name]. *)
Definition load (name : string) (l : locals) : result object :=
  match lookup name l with
  | Some v => ok v
  | None => if mem name module_globals || mem name builtins then ok Other
            else raise NameError
  end.

(** [struct.pack(fmt, x, y)] where [fmt] is whatever the name resolved to:
    anything but a format string is a [TypeError] of [struct.pack]. *)
Definition pack_with (fmt : object) (values : list struct.value) : result bytes :=
  match fmt with
  | Format f => struct.pack f values
  | _ => raise TypeError
  end.

End scope.

(** ** [xaptum/xdaa/message.py] *)

(** What the three message classes have in common, as the handshake and the
  tests' [decode_message] use them. *)
Class MessageClass (T : Type) : Type := {
  header_len : Z;
  parse_header : bytes -> result (T * Z);
  parse_body : T -> bytes -> result T;
  serialize : T -> result bytes
}.

Module ClientHelloMessage.

Record t : Type := {
  version : Z;
  client_group_id_len : Z;
  client_nonce_len : Z;
  client_group_id : bytes;
  client_nonce : bytes
}.

(** [ClientHelloMessage(client_group_id, client_nonce)] *)
Definition __init__ (client_group_id client_nonce : bytes) : t :=
  {| version := 0;
     client_group_id_len := len client_group_id;
     client_nonce_len := len client_nonce;
     client_group_id := client_group_id;
     client_nonce := client_nonce |}.

Definition header_len : Z := 5.

Definition parse_header (header : bytes) : result (t * Z) :=
  fields <- reraise struct_error InvalidMessageError
              (struct.unpack [struct.B; struct.H; struct.H] header) ;;
  match fields with
  | [struct.Int version; struct.Int client_group_id_len;
     struct.Int client_nonce_len] =>
      if ne version 0 then raise InvalidMessageError
      else
        let message := __init__ [] [] in
        let message :=
          {| version := ClientHelloMessage.version message;
             client_group_id_len := client_group_id_len;
             client_nonce_len := client_nonce_len;
             client_group_id := ClientHelloMessage.client_group_id message;
             client_nonce := ClientHelloMessage.client_nonce message |} in
        let length := client_group_id_len + client_nonce_len in
        ok (message, length)
  | _ => raise TypeError
  end.

Definition parse_body (self : t) (data : bytes) : result t :=
  fields <- reraise struct_error InvalidMessageError
              (struct.unpack [struct.s self.(client_group_id_len);
                              struct.s self.(client_nonce_len)] data) ;;
  match fields with
  | [struct.Bytes f0; struct.Bytes f1] =>
      ok {| version := self.(version);
            client_group_id_len := self.(client_group_id_len);
            client_nonce_len := self.(client_nonce_len);
            client_group_id := f0;
            client_nonce := f1 |}
  | _ => raise TypeError
  end.

Definition serialize (self : t) : result bytes :=
  header <- struct.pack [struct.B; struct.H; struct.H]
              [struct.Int self.(version);
               struct.Int self.(client_group_id_len);
               struct.Int self.(client_nonce_len)] ;;
  body <- struct.pack [struct.s self.(client_group_id_len);
                       struct.s self.(client_nonce_len)]
            [struct.Bytes self.(client_group_id);
             struct.Bytes self.(client_nonce)] ;;
  ok (header ++ body).

End ClientHelloMessage.

#[export] Instance ClientHello_class : MessageClass ClientHelloMessage.t := {
  header_len := ClientHelloMessage.header_len;
  parse_header := ClientHelloMessage.parse_header;
  parse_body := ClientHelloMessage.parse_body;
  serialize := ClientHelloMessage.serialize
}.

Module ServerKeyExchangeMessage.

Record t : Type := {
  version : Z;
  server_group_id_len : Z;
  server_nonce_len : Z;
  server_ecdhe_public_key_len : Z;
  signature_len : Z;
  server_group_id : bytes;
  server_nonce : bytes;
  server_ecdhe_public_key : bytes;
  signature : bytes
}.

Definition __init__
  (server_group_id server_nonce server_ecdhe_public_key signature : bytes) : t :=
  {| version := 0;
     server_group_id_len := len server_group_id;
     server_nonce_len := len server_nonce;
     server_ecdhe_public_key_len := len server_ecdhe_public_key;
     signature_len := len signature;
     server_group_id := server_group_id;
     server_nonce := server_nonce;
     server_ecdhe_public_key := server_ecdhe_public_key;
     signature := signature |}.

(** [msg.version = v], as the test server does. *)
Definition set_version (v : Z) (self : t) : t :=
  {| version := v;
     server_group_id_len := self.(server_group_id_len);
     server_nonce_len := self.(server_nonce_len);
     server_ecdhe_public_key_len := self.(server_ecdhe_public_key_len);
     signature_len := self.(signature_len);
     server_group_id := self.(server_group_id);
     server_nonce := self.(server_nonce);
     server_ecdhe_public_key := self.(server_ecdhe_public_key);
     signature := self.(signature) |}.

Definition header_len : Z := 9.

Definition serialize_for_signature
  (server_ecdhe_public_key client_nonce : bytes) : result bytes :=
  let l := [("server_ecdhe_public_key", scope.Data server_ecdhe_public_key);
            ("client_nonce", scope.Data client_nonce)]%string in
  let l := scope.store "sig_format"
             (scope.Format [struct.s (len server_ecdhe_public_key);
                            struct.s (len client_nonce)]) l in
  fmt <- scope.load "sig_format" l ;;
  scope.pack_with fmt [struct.Bytes server_ecdhe_public_key;
                       struct.Bytes client_nonce].

Definition parse_header (header : bytes) : result (t * Z) :=
  fields <- reraise struct_error InvalidMessageError
              (struct.unpack
                 [struct.B; struct.H; struct.H; struct.H; struct.H] header) ;;
  match fields with
  | [struct.Int version; struct.Int server_group_id_len;
     struct.Int server_nonce_len; struct.Int server_ecdhe_public_key_len;
     struct.Int signature_len] =>
      if ne version 0 then raise InvalidMessageError
      else
        let message := __init__ [] [] [] [] in
        let message :=
          {| version := ServerKeyExchangeMessage.version message;
             server_group_id_len := server_group_id_len;
             server_nonce_len := server_nonce_len;
             server_ecdhe_public_key_len := server_ecdhe_public_key_len;
             signature_len := signature_len;
             server_group_id := ServerKeyExchangeMessage.server_group_id message;
             server_nonce := ServerKeyExchangeMessage.server_nonce message;
             server_ecdhe_public_key := ServerKeyExchangeMessage.server_ecdhe_public_key message;
             signature := ServerKeyExchangeMessage.signature message |} in
        let length := server_group_id_len + server_nonce_len +
                      server_ecdhe_public_key_len + signature_len in
        ok (message, length)
  | _ => raise TypeError
  end.

Definition parse_body (self : t) (data : bytes) : result t :=
  fields <- reraise struct_error InvalidMessageError
              (struct.unpack [struct.s self.(server_group_id_len);
                              struct.s self.(server_nonce_len);
                              struct.s self.(server_ecdhe_public_key_len);
                              struct.s self.(signature_len)] data) ;;
  match fields with
  | [struct.Bytes f0; struct.Bytes f1; struct.Bytes f2; struct.Bytes f3] =>
      ok {| version := self.(version);
            server_group_id_len := self.(server_group_id_len);
            server_nonce_len := self.(server_nonce_len);
            server_ecdhe_public_key_len := self.(server_ecdhe_public_key_len);
            signature_len := self.(signature_len);
            server_group_id := f0;
            server_nonce := f1;
            server_ecdhe_public_key := f2;
            signature := f3 |}
  | _ => raise TypeError
  end.

Definition serialize (self : t) : result bytes :=
  header <- struct.pack [struct.B; struct.H; struct.H; struct.H; struct.H]
              [struct.Int self.(version);
               struct.Int self.(server_group_id_len);
               struct.Int self.(server_nonce_len);
               struct.Int self.(server_ecdhe_public_key_len);
               struct.Int self.(signature_len)] ;;
  body <- struct.pack [struct.s self.(server_group_id_len);
                       struct.s self.(server_nonce_len);
                       struct.s self.(server_ecdhe_public_key_len);
                       struct.s self.(signature_len)]
            [struct.Bytes self.(server_group_id);
             struct.Bytes self.(server_nonce);
             struct.Bytes self.(server_ecdhe_public_key);
             struct.Bytes self.(signature)] ;;
  ok (header ++ body).

End ServerKeyExchangeMessage.

#[export] Instance ServerKeyExchange_class : MessageClass ServerKeyExchangeMessage.t := {
  header_len := ServerKeyExchangeMessage.header_len;
  parse_header := ServerKeyExchangeMessage.parse_header;
  parse_body := ServerKeyExchangeMessage.parse_body;
  serialize := ServerKeyExchangeMessage.serialize
}.

Module ClientKeyExchangeMessage.

Record t : Type := {
  version : Z;
  client_ecdhe_public_key_len : Z;
  signature_len : Z;
  client_ecdhe_public_key : bytes;
  signature : bytes
}.

Definition __init__ (client_ecdhe_public_key signature : bytes) : t :=
  {| version := 0;
     client_ecdhe_public_key_len := len client_ecdhe_public_key;
     signature_len := len signature;
     client_ecdhe_public_key := client_ecdhe_public_key;
     signature := signature |}.

Definition header_len : Z := 5.

(** The body assigns the format to the local [format] and then reads the
    name [sig_format]. *)
Definition serialize_for_signature
  (client_ecdhe_public_key server_nonce : bytes) : result bytes :=
  let l := [("client_ecdhe_public_key", scope.Data client_ecdhe_public_key);
            ("server_nonce", scope.Data server_nonce)]%string in
  let l := scope.store "format"
             (scope.Format [struct.s (len client_ecdhe_public_key);
                            struct.s (len server_nonce)]) l in
  fmt <- scope.load "sig_format" l ;;
  scope.pack_with fmt [struct.Bytes client_ecdhe_public_key;
                       struct.Bytes server_nonce].

Definition parse_header (header : bytes) : result (t * Z) :=
  fields <- reraise struct_error InvalidMessageError
              (struct.unpack [struct.B; struct.H; struct.H] header) ;;
  match fields with
  | [struct.Int version; struct.Int client_ecdhe_public_key_len;
     struct.Int signature_len] =>
      if ne version 0 then raise InvalidMessageError
      else
        let message := __init__ [] [] in
        let message :=
          {| version := ClientKeyExchangeMessage.version message;
             client_ecdhe_public_key_len := client_ecdhe_public_key_len;
             signature_len := signature_len;
             client_ecdhe_public_key := ClientKeyExchangeMessage.client_ecdhe_public_key message;
             signature := ClientKeyExchangeMessage.signature message |} in
        let length := client_ecdhe_public_key_len + signature_len in
        ok (message, length)
  | _ => raise TypeError
  end.

(** The three [print] calls write to standard output only. *)
Definition parse_body (self : t) (data : bytes) : result t :=
  fields <- reraise struct_error InvalidMessageError
              (struct.unpack [struct.s self.(client_ecdhe_public_key_len);
                              struct.s self.(signature_len)] data) ;;
  match fields with
  | [struct.Bytes f0; struct.Bytes f1] =>
      ok {| version := self.(version);
            client_ecdhe_public_key_len := self.(client_ecdhe_public_key_len);
            signature_len := self.(signature_len);
            client_ecdhe_public_key := f0;
            signature := f1 |}
  | _ => raise TypeError
  end.

Definition serialize (self : t) : result bytes :=
  header <- struct.pack [struct.B; struct.H; struct.H]
              [struct.Int self.(version);
               struct.Int self.(client_ecdhe_public_key_len);
               struct.Int self.(signature_len)] ;;
  body <- struct.pack [struct.s self.(client_ecdhe_public_key_len);
                       struct.s self.(signature_len)]
            [struct.Bytes self.(client_ecdhe_public_key);
             struct.Bytes self.(signature)] ;;
  ok (header ++ body).

End ClientKeyExchangeMessage.

#[export] Instance ClientKeyExchange_class : MessageClass ClientKeyExchangeMessage.t := {
  header_len := ClientKeyExchangeMessage.header_len;
  parse_header := ClientKeyExchangeMessage.parse_header;
  parse_body := ClientKeyExchangeMessage.parse_body;
  serialize := ClientKeyExchangeMessage.serialize
}.

(** [decode_message(message_cls, message_data)] of the test modules: the
  header is parsed from the first [header_len] bytes, the body from the
  [length] bytes after it, and the two must make up all of the data. *)
Definition decode_message (T : Type) `{MessageClass T} (message_data : bytes)
  : result T :=
  let header_len := header_len (T := T) in
  '(m, length) <- parse_header (slice message_data 0 header_len) ;;
  m <- parse_body m (slice message_data header_len (header_len + length)) ;;
  if header_len + length =? len message_data then ok m
  else raise AssertionError.

(** ** Computations on mutable objects

  A method that reads and updates objects is a function of the store
  [S] holding them; it raises or returns a value and the updated store. *)
Section Stateful.

Context {S : Type}.

Definition M (A : Type) : Type := S -> result (A * S).

Definition ret {A} (x : A) : M A := fun st => inr (x, st).

Definition bind {A B} (m : M A) (k : A -> M B) : M B :=
  fun st => match m st with
            | inl e => inl e
            | inr (x, st') => k x st'
            end.

Definition throw {A} (e : exn) : M A := fun _ => inl e.

Definition get : M S := fun st => inr (st, st).

Definition put (st : S) : M unit := fun _ => inr (tt, st).

Definition modify (f : S -> S) : M unit := fun st => inr (tt, f st).

(** A call that touches no object. *)
Definition lift {A} (r : result A) : M A :=
  fun st => match r with
            | inl e => inl e
            | inr x => inr (x, st)
            end.

End Stateful.

Arguments M : clear implicits.

Declare Scope M_scope.
Delimit Scope M_scope with M.
Notation "x <- m ;; k" := (bind m (fun x => k))
  (at level 61, m at next level, right associativity) : M_scope.
Notation "' pat <- m ;; k" := (bind m (fun x => match x with pat => k end))
  (at level 61, pat pattern, m at next level, right associativity) : M_scope.
Notation "m ;; k" := (bind m (fun _ => k))
  (at level 61, right associativity) : M_scope.

(** ** The libraries and the platform under the package

  The elliptic-curve primitives ([cryptography], [donna25519]), the hex
  decoders of the standard library, the operating system's random bytes
  and the socket are not part of the package: the model takes them as
  given. *)
Class Platform : Type := {
  (** the randomness of [os.urandom] and of the key generators *)
  Entropy : Type;
  urandom : Z -> Entropy -> bytes * Entropy;
  (** [codecs.decode(x, 'hex_codec')] and [int(x, 16)] *)
  hex_decode : bytes -> result bytes;
  int_base16 : bytes -> result Z;
  (** [donna25519.keys]: [PublicKey(raw)], its [public] attribute,
      [PrivateKey()], [get_public()] and [do_exchange(public)] *)
  donna_PrivateKey : Type;
  donna_PublicKey : Type;
  donna_PublicKey_of_bytes : bytes -> result donna_PublicKey;
  donna_public : donna_PublicKey -> bytes;
  donna_PrivateKey_new : Entropy -> donna_PrivateKey * Entropy;
  donna_get_public : donna_PrivateKey -> donna_PublicKey;
  donna_do_exchange : donna_PrivateKey -> donna_PublicKey -> bytes;
  (** [cryptography]'s [ec] on SECP256R1 with ECDSA over SHA-256:
      [EllipticCurvePublicNumbers.from_encoded_point(..).public_key(..)],
      [derive_private_key], [verify(signature, message, hash)], which
      raises [InvalidSignature], and [sign(message, hash)] *)
  ec_PublicKey : Type;
  ec_PrivateKey : Type;
  ec_public_key_of_point : bytes -> result ec_PublicKey;
  ec_derive_private_key : Z -> result ec_PrivateKey;
  ec_verify : ec_PublicKey -> bytes -> bytes -> result unit;
  ec_sign : ec_PrivateKey -> bytes -> Entropy -> result bytes * Entropy;
  (** [socket.socket]: [recv_into(buffer, nbytes, flags)], as the bytes it
      stores in the buffer, and [sendall(data)] *)
  socket : Type;
  recv_into : Z -> Z -> socket -> result (bytes * socket);
  sendall : bytes -> socket -> result socket
}.

(** ** [xaptum/crypto/x25519.py] *)
Module x25519.
Section x25519.
Context {P : Platform}.

Record public_key : Type := { _public : donna_PublicKey }.

Definition public_key_from_bytes_le (bytes_le : bytes) : result public_key :=
  raw <- donna_PublicKey_of_bytes bytes_le ;;
  ok {| _public := raw |}.

Definition public_key_from_bytes_be (bytes_be : bytes) : result public_key :=
  let bytes_le := reversed bytes_be in
  public_key_from_bytes_le bytes_le.

Definition to_bytes_le (self : public_key) : bytes :=
  donna_public self.(_public).

Definition to_bytes_be (self : public_key) : bytes :=
  reversed (to_bytes_le self).

Record key_pair : Type := {
  kp_private : donna_PrivateKey;
  kp_public : donna_PublicKey
}.

(** [key_pair()] *)
Definition key_pair__init__ (e : Entropy) : key_pair * Entropy :=
  let '(private, e') := donna_PrivateKey_new e in
  ({| kp_private := private; kp_public := donna_get_public private |}, e').

(** the [public] property *)
Definition public (self : key_pair) : public_key :=
  {| _public := self.(kp_public) |}.

Definition compute_shared (self : key_pair) (peer_public : public_key) : bytes :=
  donna_do_exchange self.(kp_private) peer_public.(_public).

End x25519.
End x25519.

(** ** [xaptum/crypto/secp256r1.py] *)
Module secp256r1.
Section secp256r1.
Context {P : Platform}.

Record public_key : Type := { _public : ec_PublicKey }.
Record private_key : Type := { _private : ec_PrivateKey }.

Definition public_key_from_encoded_point (point : bytes) : result public_key :=
  raw <- ec_public_key_of_point point ;;
  ok {| _public := raw |}.

Definition public_key_from_encoded_point_hex (point : bytes) : result public_key :=
  decoded <- hex_decode point ;;
  public_key_from_encoded_point decoded.

Definition private_key_from_int (value : Z) : result private_key :=
  raw <- ec_derive_private_key value ;;
  ok {| _private := raw |}.

Definition private_key_from_int_hex (value : bytes) : result private_key :=
  n <- int_base16 value ;;
  private_key_from_int n.

(** [try: verify(..); return True; except InvalidSignature: return False] *)
Definition _verify (self : public_key) (signature message : bytes) : result bool :=
  match ec_verify self.(_public) signature message with
  | inr _ => ok true
  | inl e => if isinstance e InvalidSignature then ok false else raise e
  end.

Definition verify_sha256 (self : public_key) (signature message : bytes)
  : result bool :=
  _verify self signature message.

Definition _sign (self : private_key) (message : bytes) (e : Entropy)
  : result bytes * Entropy :=
  ec_sign self.(_private) message e.

Definition sign_sha256 (self : private_key) (message : bytes) (e : Entropy)
  : result bytes * Entropy :=
  _sign self message e.

End secp256r1.
End secp256r1.

(** ** [xaptum/fsm/events.py] and [xaptum/xdaa/events.py] *)

(** The members of the two [Events] enumerations.  They are [IntEnum]s, so
    a member of one equals the member of the other with the same number. *)
Inductive Events : Type :=
  | START | TERMINATED | ENTRY | EXIT
  | DATA_WRITE | DATA_WRITE_RESULT | DATA_READ | DATA_READ_RESULT
  | CREATE_NONCE | CREATE_NONCE_RESULT
  | EPHEMERAL_CREATE_KEY | EPHEMERAL_CREATE_KEY_RESULT
  | EPHEMERAL_COMPUTE_SHARED_SECRET | EPHEMERAL_COMPUTE_SHARED_SECRET_RESULT
  | EPHEMERAL_DECODE_PUBLIC_KEY | EPHEMERAL_DECODE_PUBLIC_KEY_RESULT
  | EPHEMERAL_ENCODE_PUBLIC_KEY | EPHEMERAL_ENCODE_PUBLIC_KEY_RESULT
  | GROUP_DECODE_PUBLIC_KEY | GROUP_DECODE_PUBLIC_KEY_RESULT
  | GROUP_DECODE_PRIVATE_KEY | GROUP_DECODE_PRIVATE_KEY_RESULT
  | GROUP_SHA256_SIGN_DATA | GROUP_SHA256_SIGN_DATA_RESULT
  | GROUP_SHA256_VERIFY_SIGNATURE | GROUP_SHA256_VERIFY_SIGNATURE_RESULT.

Definition value (k : Events) : Z :=
  match k with
  | START => 1 | TERMINATED => 2 | ENTRY => 3 | EXIT => 4
  | DATA_WRITE => 20 | DATA_WRITE_RESULT => 21
  | DATA_READ => 22 | DATA_READ_RESULT => 23
  | CREATE_NONCE => 30 | CREATE_NONCE_RESULT => 31
  | EPHEMERAL_CREATE_KEY => 40 | EPHEMERAL_CREATE_KEY_RESULT => 41
  | EPHEMERAL_COMPUTE_SHARED_SECRET => 42
  | EPHEMERAL_COMPUTE_SHARED_SECRET_RESULT => 43
  | EPHEMERAL_DECODE_PUBLIC_KEY => 44 | EPHEMERAL_DECODE_PUBLIC_KEY_RESULT => 45
  | EPHEMERAL_ENCODE_PUBLIC_KEY => 46 | EPHEMERAL_ENCODE_PUBLIC_KEY_RESULT => 47
  | GROUP_DECODE_PUBLIC_KEY => 50 | GROUP_DECODE_PUBLIC_KEY_RESULT => 51
  | GROUP_DECODE_PRIVATE_KEY => 52 | GROUP_DECODE_PRIVATE_KEY_RESULT => 53
  | GROUP_SHA256_SIGN_DATA => 54 | GROUP_SHA256_SIGN_DATA_RESULT => 55
  | GROUP_SHA256_VERIFY_SIGNATURE => 56
  | GROUP_SHA256_VERIFY_SIGNATURE_RESULT => 57
  end.

(** [k1 == k2] *)
Definition kind_eqb (k1 k2 : Events) : bool := value k1 =? value k2.

Section Events.
Context {P : Platform}.

(** The event classes with their attributes.  The handshake context starts
    with its two ephemeral keys set to [None], and the requests built from
    them carry whatever it holds. *)
Inductive Event : Type :=
  | Start
  | Terminated
  | Entry
  | Exit
  | DataWrite (data : bytes)
  | DataWriteResult
  | DataRead (size : Z)
  | DataReadResult (data : bytes)
  | CreateNonce (size : Z)
  | CreateNonceResult (nonce : bytes)
  | EphemeralCreateKey
  | EphemeralCreateKeyResult (key : x25519.key_pair)
  | EphemeralComputeSharedSecret
      (private_key : option x25519.key_pair) (public_key : option x25519.public_key)
  | EphemeralComputeSharedSecretResult (secret : bytes)
  | EphemeralDecodePublicKey (encoded_public_key : bytes)
  | EphemeralDecodePublicKeyResult (public_key : x25519.public_key)
  | EphemeralEncodePublicKey (key : option x25519.key_pair)
  | EphemeralEncodePublicKeyResult (public_key_encoded : bytes)
  | GroupDecodePublicKey (encoded_public_key : bytes)
  | GroupDecodePublicKeyResult (public_key : secp256r1.public_key)
  | GroupDecodePrivateKey (encoded_private_key : bytes)
  | GroupDecodePrivateKeyResult (private_key : secp256r1.private_key)
  | GroupSHA256SignData (private_key : secp256r1.private_key) (data : bytes)
  | GroupSHA256SignDataResult (signature : bytes)
  | GroupSHA256VerifySignature
      (public_key : secp256r1.public_key) (data : bytes) (signature : bytes)
  | GroupSHA256VerifySignatureResult (verified : bool).

(** The class attribute [kind]. *)
Definition kind (event : Event) : Events :=
  match event with
  | Start => START
  | Terminated => TERMINATED
  | Entry => ENTRY
  | Exit => EXIT
  | DataWrite _ => DATA_WRITE
  | DataWriteResult => DATA_WRITE_RESULT
  | DataRead _ => DATA_READ
  | DataReadResult _ => DATA_READ_RESULT
  | CreateNonce _ => CREATE_NONCE
  | CreateNonceResult _ => CREATE_NONCE_RESULT
  | EphemeralCreateKey => EPHEMERAL_CREATE_KEY
  | EphemeralCreateKeyResult _ => EPHEMERAL_CREATE_KEY_RESULT
  | EphemeralComputeSharedSecret _ _ => EPHEMERAL_COMPUTE_SHARED_SECRET
  | EphemeralComputeSharedSecretResult _ => EPHEMERAL_COMPUTE_SHARED_SECRET_RESULT
  | EphemeralDecodePublicKey _ => EPHEMERAL_DECODE_PUBLIC_KEY
  | EphemeralDecodePublicKeyResult _ => EPHEMERAL_DECODE_PUBLIC_KEY_RESULT
  | EphemeralEncodePublicKey _ => EPHEMERAL_ENCODE_PUBLIC_KEY
  | EphemeralEncodePublicKeyResult _ => EPHEMERAL_ENCODE_PUBLIC_KEY_RESULT
  | GroupDecodePublicKey _ => GROUP_DECODE_PUBLIC_KEY
  | GroupDecodePublicKeyResult _ => GROUP_DECODE_PUBLIC_KEY_RESULT
  | GroupDecodePrivateKey _ => GROUP_DECODE_PRIVATE_KEY
  | GroupDecodePrivateKeyResult _ => GROUP_DECODE_PRIVATE_KEY_RESULT
  | GroupSHA256SignData _ _ => GROUP_SHA256_SIGN_DATA
  | GroupSHA256SignDataResult _ => GROUP_SHA256_SIGN_DATA_RESULT
  | GroupSHA256VerifySignature _ _ _ => GROUP_SHA256_VERIFY_SIGNATURE
  | GroupSHA256VerifySignatureResult _ => GROUP_SHA256_VERIFY_SIGNATURE_RESULT
  end.

(** Attribute reads [event.data], [event.nonce], ...: an event of a class
    without the attribute raises [AttributeError]. *)
Definition event_data (event : Event) : result bytes :=
  match event with
  | DataWrite data | DataReadResult data | GroupSHA256SignData _ data
  | GroupSHA256VerifySignature _ data _ => ok data
  | _ => raise AttributeError
  end.

Definition event_size (event : Event) : result Z :=
  match event with
  | DataRead size | CreateNonce size => ok size
  | _ => raise AttributeError
  end.

Definition event_nonce (event : Event) : result bytes :=
  match event with
  | CreateNonceResult nonce => ok nonce
  | _ => raise AttributeError
  end.

Definition event_key (event : Event) : result (option x25519.key_pair) :=
  match event with
  | EphemeralCreateKeyResult key => ok (Some key)
  | EphemeralEncodePublicKey key => ok key
  | _ => raise AttributeError
  end.

Definition event_secret (event : Event) : result bytes :=
  match event with
  | EphemeralComputeSharedSecretResult secret => ok secret
  | _ => raise AttributeError
  end.

(** [event.public_key] where an X25519 key is expected. *)
Definition event_ephemeral_public_key (event : Event)
  : result (option x25519.public_key) :=
  match event with
  | EphemeralDecodePublicKeyResult public_key => ok (Some public_key)
  | EphemeralComputeSharedSecret _ public_key => ok public_key
  | _ => raise AttributeError
  end.

(** [event.public_key] where a group key is expected. *)
Definition event_group_public_key (event : Event) : result secp256r1.public_key :=
  match event with
  | GroupDecodePublicKeyResult public_key
  | GroupSHA256VerifySignature public_key _ _ => ok public_key
  | _ => raise AttributeError
  end.

(** [event.private_key] where a group key is expected. *)
Definition event_group_private_key (event : Event) : result secp256r1.private_key :=
  match event with
  | GroupDecodePrivateKeyResult private_key
  | GroupSHA256SignData private_key _ => ok private_key
  | _ => raise AttributeError
  end.

Definition event_public_key_encoded (event : Event) : result bytes :=
  match event with
  | EphemeralEncodePublicKeyResult public_key_encoded => ok public_key_encoded
  | _ => raise AttributeError
  end.

Definition event_signature (event : Event) : result bytes :=
  match event with
  | GroupSHA256SignDataResult signature
  | GroupSHA256VerifySignature _ _ signature => ok signature
  | _ => raise AttributeError
  end.

Definition event_verified (event : Event) : result bool :=
  match event with
  | GroupSHA256VerifySignatureResult verified => ok verified
  | _ => raise AttributeError
  end.

End Events.

(** ** [xaptum/fsm/fsm.py] and [xaptum/xdaa/handshake.py]: the objects *)

(** The state methods of the five machines, as values: [current] holds one
    of them. *)
Module state.
Inductive Method : Type :=
  | initial | final                                   (* FSM *)
  | init_context | send_client_hello | receive_server_key_exchange
  | send_client_key_exchange | compute_shared_secret  (* XDAAHandshake *)
  | steps                                             (* InitContext *)
  | send                                              (* SendClientHello *)
  | receive_message | validate_message | process_message
                                                      (* ReceiveServerKeyExchange *)
  | prepare_message | send_message.                   (* SendClientKeyExchange *)
End state.

Section Objects.
Context {P : Platform}.

Record DAAGroup : Type := {
  group_id : bytes;
  server_public_key : bytes;
  client_private_key : bytes
}.

(** [XDAAContext]: the attributes of [__init__] that the handshake uses
    ([None] until a state stores a value) and the three attributes the
    states add ([server_group_public_key], [client_group_private_key],
    [shared_secret], absent until stored).  [client_daa_private_key] and
    [server_daa_public_key] are set to [None] and never touched again. *)
Record XDAAContext : Type := {
  protocol_version : Z;
  daa_group : option DAAGroup;
  client_nonce : option bytes;
  client_ephemeral_private_key : option x25519.key_pair;
  server_nonce : option bytes;
  server_ephemeral_public_key : option x25519.public_key;
  server_group_public_key : option secp256r1.public_key;
  client_group_private_key : option secp256r1.private_key;
  shared_secret : option bytes
}.

(** [XDAAContext()] *)
Definition XDAAContext__init__ : XDAAContext :=
  {| protocol_version := 0;
     daa_group := None;
     client_nonce := None;
     client_ephemeral_private_key := None;
     server_nonce := None;
     server_ephemeral_public_key := None;
     server_group_public_key := None;
     client_group_private_key := None;
     shared_secret := None |}.

Definition set_daa_group (v : DAAGroup) (c : XDAAContext) : XDAAContext :=
  {| protocol_version := c.(protocol_version);
     daa_group := Some v;
     client_nonce := c.(client_nonce);
     client_ephemeral_private_key := c.(client_ephemeral_private_key);
     server_nonce := c.(server_nonce);
     server_ephemeral_public_key := c.(server_ephemeral_public_key);
     server_group_public_key := c.(server_group_public_key);
     client_group_private_key := c.(client_group_private_key);
     shared_secret := c.(shared_secret) |}.

Definition set_client_nonce (v : bytes) (c : XDAAContext) : XDAAContext :=
  {| protocol_version := c.(protocol_version);
     daa_group := c.(daa_group);
     client_nonce := Some v;
     client_ephemeral_private_key := c.(client_ephemeral_private_key);
     server_nonce := c.(server_nonce);
     server_ephemeral_public_key := c.(server_ephemeral_public_key);
     server_group_public_key := c.(server_group_public_key);
     client_group_private_key := c.(client_group_private_key);
     shared_secret := c.(shared_secret) |}.

Definition set_client_ephemeral_private_key (v : option x25519.key_pair)
  (c : XDAAContext) : XDAAContext :=
  {| protocol_version := c.(protocol_version);
     daa_group := c.(daa_group);
     client_nonce := c.(client_nonce);
     client_ephemeral_private_key := v;
     server_nonce := c.(server_nonce);
     server_ephemeral_public_key := c.(server_ephemeral_public_key);
     server_group_public_key := c.(server_group_public_key);
     client_group_private_key := c.(client_group_private_key);
     shared_secret := c.(shared_secret) |}.

Definition set_server_nonce (v : bytes) (c : XDAAContext) : XDAAContext :=
  {| protocol_version := c.(protocol_version);
     daa_group := c.(daa_group);
     client_nonce := c.(client_nonce);
     client_ephemeral_private_key := c.(client_ephemeral_private_key);
     server_nonce := Some v;
     server_ephemeral_public_key := c.(server_ephemeral_public_key);
     server_group_public_key := c.(server_group_public_key);
     client_group_private_key := c.(client_group_private_key);
     shared_secret := c.(shared_secret) |}.

Definition set_server_ephemeral_public_key (v : option x25519.public_key)
  (c : XDAAContext) : XDAAContext :=
  {| protocol_version := c.(protocol_version);
     daa_group := c.(daa_group);
     client_nonce := c.(client_nonce);
     client_ephemeral_private_key := c.(client_ephemeral_private_key);
     server_nonce := c.(server_nonce);
     server_ephemeral_public_key := v;
     server_group_public_key := c.(server_group_public_key);
     client_group_private_key := c.(client_group_private_key);
     shared_secret := c.(shared_secret) |}.

Definition set_server_group_public_key (v : secp256r1.public_key)
  (c : XDAAContext) : XDAAContext :=
  {| protocol_version := c.(protocol_version);
     daa_group := c.(daa_group);
     client_nonce := c.(client_nonce);
     client_ephemeral_private_key := c.(client_ephemeral_private_key);
     server_nonce := c.(server_nonce);
     server_ephemeral_public_key := c.(server_ephemeral_public_key);
     server_group_public_key := Some v;
     client_group_private_key := c.(client_group_private_key);
     shared_secret := c.(shared_secret) |}.

Definition set_client_group_private_key (v : secp256r1.private_key)
  (c : XDAAContext) : XDAAContext :=
  {| protocol_version := c.(protocol_version);
     daa_group := c.(daa_group);
     client_nonce := c.(client_nonce);
     client_ephemeral_private_key := c.(client_ephemeral_private_key);
     server_nonce := c.(server_nonce);
     server_ephemeral_public_key := c.(server_ephemeral_public_key);
     server_group_public_key := c.(server_group_public_key);
     client_group_private_key := Some v;
     shared_secret := c.(shared_secret) |}.

Definition set_shared_secret (v : bytes) (c : XDAAContext) : XDAAContext :=
  {| protocol_version := c.(protocol_version);
     daa_group := c.(daa_group);
     client_nonce := c.(client_nonce);
     client_ephemeral_private_key := c.(client_ephemeral_private_key);
     server_nonce := c.(server_nonce);
     server_ephemeral_public_key := c.(server_ephemeral_public_key);
     server_group_public_key := c.(server_group_public_key);
     client_group_private_key := c.(client_group_private_key);
     shared_secret := Some v |}.

(** The classes of the child machines. *)
Inductive ChildClass : Type :=
  | InitContext
  | SendClientHello
  | ReceiveServerKeyExchange
  | SendClientKeyExchange.

(** A child machine: the attributes of [FSM] and of [StepMixin], and the
    attributes its states add ([message] of [ReceiveServerKeyExchange];
    [public_key_encoded], [signature] and [message] of
    [SendClientKeyExchange]).  Its [context] is the handshake's own context
    object and its [maybeChild] stays [None]. *)
Record Child : Type := {
  class : ChildClass;
  child_current : option state.Method;
  child_maybeParent : bool;
  _step : option Z;
  message : option ServerKeyExchangeMessage.t;
  public_key_encoded : option bytes;
  signature : option bytes;
  message_out : option ClientKeyExchangeMessage.t
}.

(** [cls(self.context)]: a child as [FSM.__init__] leaves it. *)
Definition Child__init__ (cls : ChildClass) : Child :=
  {| class := cls;
     child_current := Some state.initial;
     child_maybeParent := false;
     _step := None;
     message := None;
     public_key_encoded := None;
     signature := None;
     message_out := None |}.

Definition set_child_current (v : option state.Method) (c : Child) : Child :=
  {| class := c.(class); child_current := v;
     child_maybeParent := c.(child_maybeParent); _step := c.(_step);
     message := c.(message); public_key_encoded := c.(public_key_encoded);
     signature := c.(signature); message_out := c.(message_out) |}.

Definition set_child_maybeParent (v : bool) (c : Child) : Child :=
  {| class := c.(class); child_current := c.(child_current);
     child_maybeParent := v; _step := c.(_step);
     message := c.(message); public_key_encoded := c.(public_key_encoded);
     signature := c.(signature); message_out := c.(message_out) |}.

Definition set__step (v : Z) (c : Child) : Child :=
  {| class := c.(class); child_current := c.(child_current);
     child_maybeParent := c.(child_maybeParent); _step := Some v;
     message := c.(message); public_key_encoded := c.(public_key_encoded);
     signature := c.(signature); message_out := c.(message_out) |}.

Definition set_message (v : ServerKeyExchangeMessage.t) (c : Child) : Child :=
  {| class := c.(class); child_current := c.(child_current);
     child_maybeParent := c.(child_maybeParent); _step := c.(_step);
     message := Some v; public_key_encoded := c.(public_key_encoded);
     signature := c.(signature); message_out := c.(message_out) |}.

Definition set_public_key_encoded (v : bytes) (c : Child) : Child :=
  {| class := c.(class); child_current := c.(child_current);
     child_maybeParent := c.(child_maybeParent); _step := c.(_step);
     message := c.(message); public_key_encoded := Some v;
     signature := c.(signature); message_out := c.(message_out) |}.

Definition set_signature (v : bytes) (c : Child) : Child :=
  {| class := c.(class); child_current := c.(child_current);
     child_maybeParent := c.(child_maybeParent); _step := c.(_step);
     message := c.(message); public_key_encoded := c.(public_key_encoded);
     signature := Some v; message_out := c.(message_out) |}.

Definition set_message_out (v : ClientKeyExchangeMessage.t) (c : Child) : Child :=
  {| class := c.(class); child_current := c.(child_current);
     child_maybeParent := c.(child_maybeParent); _step := c.(_step);
     message := c.(message); public_key_encoded := c.(public_key_encoded);
     signature := c.(signature); message_out := Some v |}.

(** The handshake machine with the child it delegates to and the context
    the two share.  Its [maybeParent] stays [None]. *)
Record XDAAHandshake : Type := {
  current : option state.Method;
  maybeChild : option Child;
  context : XDAAContext
}.

(** [XDAAHandshake(daa_group)] *)
Definition XDAAHandshake__init__ (daa_group : DAAGroup) : XDAAHandshake :=
  {| current := Some state.initial;
     maybeChild := None;
     context := set_daa_group daa_group XDAAContext__init__ |}.

Definition set_current (v : option state.Method) (h : XDAAHandshake) : XDAAHandshake :=
  {| current := v; maybeChild := h.(maybeChild); context := h.(context) |}.

Definition set_maybeChild (v : option Child) (h : XDAAHandshake) : XDAAHandshake :=
  {| current := h.(current); maybeChild := v; context := h.(context) |}.

Definition set_context (v : XDAAContext) (h : XDAAHandshake) : XDAAHandshake :=
  {| current := h.(current); maybeChild := h.(maybeChild); context := v |}.

End Objects.

(** ** [xaptum/fsm/fsm.py]: the machinery of [FSM] and [StepMixin] *)
Section Machine.
Context {P : Platform}.
Local Open Scope M_scope.

(** A method of the handshake and of its child run on one store. *)
Definition Run (A : Type) : Type := M XDAAHandshake A.

(** The object a method runs on.  The child is the object in the
    handshake's [maybeChild]; a method running on a child that is no longer
    there raises [ReferenceError] (the source never touches a child it
    dropped: its pending calls only return). *)
Inductive Self : Type :=
  | TheHandshake
  | TheChild.

Definition child : Run Child :=
  fun h => match h.(maybeChild) with
           | Some c => inr (c, h)
           | None => inl ReferenceError
           end.

Definition update_child (f : Child -> Child) : Run unit :=
  c <- child ;; modify (set_maybeChild (Some (f c))).

Definition update_context (f : XDAAContext -> XDAAContext) : Run unit :=
  modify (fun h => set_context (f h.(context)) h).

(** [self.current] *)
Definition get_current (self : Self) : Run (option state.Method) :=
  match self with
  | TheHandshake => h <- get ;; ret h.(current)
  | TheChild => c <- child ;; ret c.(child_current)
  end.

(** [self.current = v] *)
Definition put_current (self : Self) (v : option state.Method) : Run unit :=
  match self with
  | TheHandshake => modify (set_current v)
  | TheChild => update_child (set_child_current v)
  end.

(** The truth value of [self.maybeChild]. *)
Definition has_child (self : Self) : Run bool :=
  match self with
  | TheHandshake => h <- get ;;
                    ret (match h.(maybeChild) with Some _ => true | None => false end)
  | TheChild => _ <- child ;; ret false
  end.

(** The truth value of [self.maybeParent]. *)
Definition has_parent (self : Self) : Run bool :=
  match self with
  | TheHandshake => ret false
  | TheChild => c <- child ;; ret c.(child_maybeParent)
  end.

(** [self.on_start], given to [FSM.__init__] by each class. *)
Definition on_start (self : Self) : Run (option state.Method) :=
  match self with
  | TheHandshake => ret (Some state.init_context)
  | TheChild =>
      c <- child ;;
      ret (Some match c.(class) with
                | InitContext => state.steps
                | SendClientHello => state.send
                | ReceiveServerKeyExchange => state.receive_message
                | SendClientKeyExchange => state.prepare_message
                end)
  end.

(** The calls whose target is found at run time: the state method held in
    [current], and [receive] of the child. *)
Inductive Call : Type :=
  | CallState (self : Self) (state : state.Method) (event : Event)
  | CallReceive (self : Self) (event : Event).

Definition Rec : Type := Call -> Run (option Event).

Section Methods.
Variable rec : Rec.

(** [self.current(event)] *)
Definition call_current (self : Self) (event : Event) : Run (option Event) :=
  cur <- get_current self ;;
  match cur with
  | Some state => rec (CallState self state event)
  | None => throw TypeError
  end.

Definition _receive_self (self : Self) (event : Event) : Run (option Event) :=
  call_current self event.

Definition _enter (self : Self) (state : state.Method) : Run (option Event) :=
  put_current self (Some state) ;;
  call_current self Entry.

Definition _exit (self : Self) : Run unit :=
  _ <- call_current self Exit ;;
  put_current self None.

(** [_abort] names [self._abort_child] without calling it. *)
Definition _abort (self : Self) : Run unit :=
  _ <- has_child self ;;
  match self with
  | TheHandshake => ret tt
  | TheChild => update_child (set_child_maybeParent false)
  end ;;
  put_current self (Some state.final).

Definition _abort_child (self : Self) : Run unit :=
  match self with
  | TheHandshake => _abort TheChild ;; modify (set_maybeChild None)
  | TheChild => throw AttributeError
  end.

Definition become (self : Self) (state : state.Method) : Run (option Event) :=
  c <- has_child self ;;
  (if c then _abort_child self else ret tt) ;;
  _exit self ;;
  _enter self state.

Definition terminate (self : Self) : Run (option Event) :=
  become self state.final.

Definition unhandled (self : Self) (event : Event) : Run (option Event) :=
  if kind_eqb (kind event) ENTRY then ret None
  else if kind_eqb (kind event) EXIT then ret None
  else
    p <- has_parent self ;;
    if p then _receive_self TheHandshake event
    else throw UnsupportedEventError.

Definition initial (self : Self) (event : Event) : Run (option Event) :=
  s <- on_start self ;;
  match s with
  | None => throw NotImplementedError
  | Some state =>
      if kind_eqb (kind event) START then become self state
      else unhandled self event
  end.

Definition final (self : Self) (event : Event) : Run (option Event) :=
  if kind_eqb (kind event) ENTRY then ret (Some Terminated)
  else throw TerminatedError.

(** [ret.kind] of a state that returned [None] is an [AttributeError]. *)
Definition _receive_child (self : Self) (event : Event) : Run (option Event) :=
  r <- rec (CallReceive TheChild event) ;;
  match r with
  | None => throw AttributeError
  | Some r =>
      if kind_eqb (kind r) TERMINATED then
        modify (set_maybeChild None) ;;
        _receive_self self r
      else ret (Some r)
  end.

Definition receive (self : Self) (event : Event) : Run (option Event) :=
  c <- has_child self ;;
  if c then _receive_child self event
  else _receive_self self event.

(** [delegate_with] of the handshake; with a child in place it calls
    [self._abortChild], which no class defines. *)
Definition delegate_with (c : Child) (event : Event) : Run (option Event) :=
  b <- has_child TheHandshake ;;
  (if b then throw AttributeError else ret tt) ;;
  modify (set_maybeChild (Some (set_child_maybeParent true c))) ;;
  rec (CallReceive TheChild event).

Definition delegate (c : Child) : Run (option Event) :=
  delegate_with c Start.

(** [StepMixin.init_step] and [StepMixin.step], on the child. *)
Definition init_step (guard : bool) : Run bool :=
  if guard then update_child (set__step 0) ;; ret true
  else ret false.

Definition step (num : Z) (guard : bool) : Run bool :=
  c <- child ;;
  match c.(_step) with
  | None => throw AttributeError
  | Some n =>
      if (num =? n + 1) && guard then
        update_child (set__step (n + 1)) ;; ret true
      else ret false
  end.

End Methods.
End Machine.

(** ** [xaptum/xdaa/handshake.py]: the states *)
Section States.
Context {P : Platform}.
Local Open Scope M_scope.
Variable rec : Rec.

(** Reading an attribute that no assignment created yet, or an attribute of
    [None], raises [AttributeError]. *)
Definition attribute {A} (v : option A) : Run A :=
  match v with
  | Some x => ret x
  | None => throw AttributeError
  end.

(** [len(None)] raises [TypeError]. *)
Definition sized {A} (v : option A) : Run A :=
  match v with
  | Some x => ret x
  | None => throw TypeError
  end.

(** [self.context] *)
Definition the_context : Run XDAAContext :=
  h <- get ;; ret h.(context).

(** [self.context.daa_group] followed by an attribute read. *)
Definition the_daa_group : Run DAAGroup :=
  c <- the_context ;; attribute c.(daa_group).

(** The [shared_secret] property of [XDAAHandshake]. *)
Definition shared_secret_property : Run bytes :=
  c <- the_context ;; attribute c.(shared_secret).

(** *** [XDAAHandshake] *)

Definition init_context (event : Event) : Run (option Event) :=
  if kind_eqb (kind event) ENTRY then
    delegate rec (Child__init__ InitContext)
  else if kind_eqb (kind event) TERMINATED then
    become rec TheHandshake state.send_client_hello
  else unhandled rec TheHandshake event.

Definition send_client_hello (event : Event) : Run (option Event) :=
  if kind_eqb (kind event) ENTRY then
    delegate rec (Child__init__ SendClientHello)
  else if kind_eqb (kind event) TERMINATED then
    become rec TheHandshake state.receive_server_key_exchange
  else unhandled rec TheHandshake event.

(** The last two delegating states have no [else] branch: any other event
    makes them return [None]. *)
Definition receive_server_key_exchange (event : Event) : Run (option Event) :=
  if kind_eqb (kind event) ENTRY then
    delegate rec (Child__init__ ReceiveServerKeyExchange)
  else if kind_eqb (kind event) TERMINATED then
    become rec TheHandshake state.send_client_key_exchange
  else ret None.

Definition send_client_key_exchange (event : Event) : Run (option Event) :=
  if kind_eqb (kind event) ENTRY then
    delegate rec (Child__init__ SendClientKeyExchange)
  else if kind_eqb (kind event) TERMINATED then
    become rec TheHandshake state.compute_shared_secret
  else ret None.

Definition compute_shared_secret (event : Event) : Run (option Event) :=
  if kind_eqb (kind event) ENTRY then
    c <- the_context ;;
    ret (Some (EphemeralComputeSharedSecret
                 c.(client_ephemeral_private_key)
                 c.(server_ephemeral_public_key)))
  else if kind_eqb (kind event) EPHEMERAL_COMPUTE_SHARED_SECRET_RESULT then
    secret <- lift (event_secret event) ;;
    update_context (set_shared_secret secret) ;;
    terminate rec TheHandshake
  else unhandled rec TheHandshake event.

(** *** [InitContext] *)

Definition steps (event : Event) : Run (option Event) :=
  s0 <- init_step (kind_eqb (kind event) ENTRY) ;;
  if s0 then
    g <- the_daa_group ;;
    ret (Some (GroupDecodePublicKey g.(server_public_key)))
  else
  s1 <- step 1 (kind_eqb (kind event) GROUP_DECODE_PUBLIC_KEY_RESULT) ;;
  if s1 then
    public_key <- lift (event_group_public_key event) ;;
    update_context (set_server_group_public_key public_key) ;;
    g <- the_daa_group ;;
    ret (Some (GroupDecodePrivateKey g.(client_private_key)))
  else
  s2 <- step 2 (kind_eqb (kind event) GROUP_DECODE_PRIVATE_KEY_RESULT) ;;
  if s2 then
    private_key <- lift (event_group_private_key event) ;;
    update_context (set_client_group_private_key private_key) ;;
    ret (Some (CreateNonce 32))
  else
  s3 <- step 3 (kind_eqb (kind event) CREATE_NONCE_RESULT) ;;
  if s3 then
    nonce <- lift (event_nonce event) ;;
    update_context (set_client_nonce nonce) ;;
    ret (Some EphemeralCreateKey)
  else
  s4 <- step 4 (kind_eqb (kind event) EPHEMERAL_CREATE_KEY_RESULT) ;;
  if s4 then
    key <- lift (event_key event) ;;
    update_context (set_client_ephemeral_private_key key) ;;
    terminate rec TheChild
  else unhandled rec TheChild event.

(** *** [SendClientHello] *)

Definition send (event : Event) : Run (option Event) :=
  if kind_eqb (kind event) ENTRY then
    g <- the_daa_group ;;
    c <- the_context ;;
    nonce <- sized c.(client_nonce) ;;
    let client_hello := ClientHelloMessage.__init__ g.(group_id) nonce in
    data <- lift (ClientHelloMessage.serialize client_hello) ;;
    ret (Some (DataWrite data))
  else if kind_eqb (kind event) DATA_WRITE_RESULT then
    terminate rec TheChild
  else unhandled rec TheChild event.

(** *** [ReceiveServerKeyExchange] *)

Definition receive_message (event : Event) : Run (option Event) :=
  s0 <- init_step (kind_eqb (kind event) ENTRY) ;;
  if s0 then
    ret (Some (DataRead ServerKeyExchangeMessage.header_len))
  else
  s1 <- step 1 (kind_eqb (kind event) DATA_READ_RESULT) ;;
  if s1 then
    data <- lift (event_data event) ;;
    '(m, remaining) <- lift (ServerKeyExchangeMessage.parse_header data) ;;
    update_child (set_message m) ;;
    ret (Some (DataRead remaining))
  else
  s2 <- step 2 (kind_eqb (kind event) DATA_READ_RESULT) ;;
  if s2 then
    c <- child ;;
    m <- attribute c.(message) ;;
    data <- lift (event_data event) ;;
    m <- lift (ServerKeyExchangeMessage.parse_body m data) ;;
    update_child (set_message m) ;;
    become rec TheChild state.validate_message
  else unhandled rec TheChild event.

Definition validate_message (event : Event) : Run (option Event) :=
  s0 <- init_step (kind_eqb (kind event) ENTRY) ;;
  if s0 then
    c <- child ;;
    m <- attribute c.(message) ;;
    ctx <- the_context ;;
    if ne m.(ServerKeyExchangeMessage.version) ctx.(protocol_version) then
      throw UnsupportedVersionError
    else
    g <- the_daa_group ;;
    if negb (bytes_eqb m.(ServerKeyExchangeMessage.server_group_id) g.(group_id)) then
      throw IncorrectGroupError
    else
    public_key <- attribute ctx.(server_group_public_key) ;;
    nonce <- sized ctx.(client_nonce) ;;
    data <- lift (ServerKeyExchangeMessage.serialize_for_signature
                    m.(ServerKeyExchangeMessage.server_ecdhe_public_key) nonce) ;;
    ret (Some (GroupSHA256VerifySignature public_key data
                 m.(ServerKeyExchangeMessage.signature)))
  else
  s1 <- step 1 (kind_eqb (kind event) GROUP_SHA256_VERIFY_SIGNATURE_RESULT) ;;
  if s1 then
    verified <- lift (event_verified event) ;;
    if Bool.eqb verified false then throw InvalidSignatureError
    else become rec TheChild state.process_message
  else unhandled rec TheChild event.

Definition process_message (event : Event) : Run (option Event) :=
  if kind_eqb (kind event) ENTRY then
    c <- child ;;
    m <- attribute c.(message) ;;
    update_context (set_server_nonce m.(ServerKeyExchangeMessage.server_nonce)) ;;
    ret (Some (EphemeralDecodePublicKey
                 m.(ServerKeyExchangeMessage.server_ecdhe_public_key)))
  else if kind_eqb (kind event) EPHEMERAL_DECODE_PUBLIC_KEY_RESULT then
    public_key <- lift (event_ephemeral_public_key event) ;;
    update_context (set_server_ephemeral_public_key public_key) ;;
    terminate rec TheChild
  else unhandled rec TheChild event.

(** *** [SendClientKeyExchange] *)

Definition prepare_message (event : Event) : Run (option Event) :=
  s0 <- init_step (kind_eqb (kind event) ENTRY) ;;
  if s0 then
    ctx <- the_context ;;
    ret (Some (EphemeralEncodePublicKey ctx.(client_ephemeral_private_key)))
  else
  s1 <- step 1 (kind_eqb (kind event) EPHEMERAL_ENCODE_PUBLIC_KEY_RESULT) ;;
  if s1 then
    encoded <- lift (event_public_key_encoded event) ;;
    update_child (set_public_key_encoded encoded) ;;
    ctx <- the_context ;;
    nonce <- sized ctx.(server_nonce) ;;
    sig_buffer <- lift (ClientKeyExchangeMessage.serialize_for_signature
                          encoded nonce) ;;
    private_key <- attribute ctx.(client_group_private_key) ;;
    ret (Some (GroupSHA256SignData private_key sig_buffer))
  else
  s2 <- step 2 (kind_eqb (kind event) GROUP_SHA256_SIGN_DATA_RESULT) ;;
  if s2 then
    sig <- lift (event_signature event) ;;
    update_child (set_signature sig) ;;
    c <- child ;;
    encoded <- attribute c.(public_key_encoded) ;;
    update_child (set_message_out (ClientKeyExchangeMessage.__init__ encoded sig)) ;;
    become rec TheChild state.send_message
  else unhandled rec TheChild event.

Definition send_message (event : Event) : Run (option Event) :=
  if kind_eqb (kind event) ENTRY then
    c <- child ;;
    m <- attribute c.(message_out) ;;
    data <- lift (ClientKeyExchangeMessage.serialize m) ;;
    ret (Some (DataWrite data))
  else if kind_eqb (kind event) DATA_WRITE_RESULT then
    terminate rec TheChild
  else unhandled rec TheChild event.

(** The state method [state] of the object [self]: a class that does not
    define it has no such attribute. *)
Definition state_method (self : Self) (state : state.Method) (event : Event)
  : Run (option Event) :=
  match state, self with
  | state.initial, _ => initial rec self event
  | state.final, _ => final self event
  | state.init_context, TheHandshake => init_context event
  | state.send_client_hello, TheHandshake => send_client_hello event
  | state.receive_server_key_exchange, TheHandshake =>
      receive_server_key_exchange event
  | state.send_client_key_exchange, TheHandshake => send_client_key_exchange event
  | state.compute_shared_secret, TheHandshake => compute_shared_secret event
  | state.steps, TheChild => steps event
  | state.send, TheChild => send event
  | state.receive_message, TheChild => receive_message event
  | state.validate_message, TheChild => validate_message event
  | state.process_message, TheChild => process_message event
  | state.prepare_message, TheChild => prepare_message event
  | state.send_message, TheChild => send_message event
  | _, _ => throw AttributeError
  end.

End States.

Section Engine.
Context {P : Platform}.
Local Open Scope M_scope.

(** The calls resolved at run time, nested at most [depth] deep. *)
Fixpoint invoke (depth : nat) (c : Call) : Run (option Event) :=
  match depth with
  | O => throw OutOfFuel
  | S d =>
      match c with
      | CallState self state event => state_method (invoke d) self state event
      | CallReceive self event => receive (invoke d) self event
      end
  end.

(** [handshake.receive(event)] of the plain [XDAAHandshake]. *)
Definition XDAAHandshake_receive (depth : nat) (event : Event)
  : Run (option Event) :=
  invoke depth (CallReceive TheHandshake event).

(** [handshake.start()] of the plain [XDAAHandshake]. *)
Definition XDAAHandshake_start (depth : nat) : Run (option Event) :=
  XDAAHandshake_receive depth Start.

End Engine.

(** ** [xaptum/xdaa/sync/crypto.py] and [xaptum/xdaa/sync/io.py] *)
Section Sync.
Context {P : Platform}.
Local Open Scope M_scope.

(** What a handshake with the synchronous mixins runs on: the handshake
    object, the operating system's randomness and the socket. *)
Record World : Type := {
  handshake : XDAAHandshake;
  entropy : Entropy;
  sock : socket
}.

(** A method of the plain handshake, run inside the world. *)
Definition on_handshake {A} (m : Run A) : M World A :=
  fun w => match m w.(handshake) with
           | inl e => inl e
           | inr (x, h) =>
               inr (x, {| handshake := h; entropy := w.(entropy); sock := w.(sock) |})
           end.

(** A call that draws randomness. *)
Definition on_entropy {A} (f : Entropy -> A * Entropy) : M World A :=
  fun w => let '(x, e) := f w.(entropy) in
           inr (x, {| handshake := w.(handshake); entropy := e; sock := w.(sock) |}).

(** A call on the socket. *)
Definition on_sock {A} (f : socket -> result (A * socket)) : M World A :=
  fun w => match f w.(sock) with
           | inl e => inl e
           | inr (x, s) =>
               inr (x, {| handshake := w.(handshake); entropy := w.(entropy); sock := s |})
           end.

(** *** [SyncCrypto] *)

Definition create_nonce (event : Event) : M World Event :=
  size <- lift (event_size event) ;;
  nonce <- on_entropy (urandom size) ;;
  ret (CreateNonceResult nonce).

Definition ephemeral_create_key (_ : Event) : M World Event :=
  key <- on_entropy x25519.key_pair__init__ ;;
  ret (EphemeralCreateKeyResult key).

Definition ephemeral_compute_shared_secret (event : Event) : M World Event :=
  match event with
  | EphemeralComputeSharedSecret (Some private_key) (Some public_key) =>
      let secret := reversed (x25519.compute_shared private_key public_key) in
      ret (EphemeralComputeSharedSecretResult secret)
  | _ => throw AttributeError
  end.

Definition ephemeral_decode_public_key (event : Event) : M World Event :=
  match event with
  | EphemeralDecodePublicKey encoded_public_key =>
      public_key <- lift (x25519.public_key_from_bytes_be encoded_public_key) ;;
      ret (EphemeralDecodePublicKeyResult public_key)
  | _ => throw AttributeError
  end.

Definition ephemeral_encode_public_key (event : Event) : M World Event :=
  match event with
  | EphemeralEncodePublicKey (Some key) =>
      let encoded_public_key := x25519.to_bytes_be (x25519.public key) in
      ret (EphemeralEncodePublicKeyResult encoded_public_key)
  | _ => throw AttributeError
  end.

Definition group_decode_public_key (event : Event) : M World Event :=
  match event with
  | GroupDecodePublicKey encoded_public_key =>
      key <- lift (secp256r1.public_key_from_encoded_point_hex encoded_public_key) ;;
      ret (GroupDecodePublicKeyResult key)
  | _ => throw AttributeError
  end.

Definition group_decode_private_key (event : Event) : M World Event :=
  match event with
  | GroupDecodePrivateKey encoded_private_key =>
      key <- lift (secp256r1.private_key_from_int_hex encoded_private_key) ;;
      ret (GroupDecodePrivateKeyResult key)
  | _ => throw AttributeError
  end.

Definition group_sha256_sign_data (event : Event) : M World Event :=
  match event with
  | GroupSHA256SignData private_key data =>
      r <- on_entropy (secp256r1.sign_sha256 private_key data) ;;
      signature <- lift r ;;
      ret (GroupSHA256SignDataResult signature)
  | _ => throw AttributeError
  end.

Definition group_sha256_verify_signature (event : Event) : M World Event :=
  match event with
  | GroupSHA256VerifySignature public_key data signature =>
      verified <- lift (secp256r1.verify_sha256 public_key signature data) ;;
      ret (GroupSHA256VerifySignatureResult verified)
  | _ => throw AttributeError
  end.

(** The dictionary [_sync_crypto_dispatch]. *)
Definition _sync_crypto_dispatch (k : Events) : option (Event -> M World Event) :=
  match k with
  | CREATE_NONCE => Some create_nonce
  | EPHEMERAL_CREATE_KEY => Some ephemeral_create_key
  | EPHEMERAL_COMPUTE_SHARED_SECRET => Some ephemeral_compute_shared_secret
  | EPHEMERAL_DECODE_PUBLIC_KEY => Some ephemeral_decode_public_key
  | EPHEMERAL_ENCODE_PUBLIC_KEY => Some ephemeral_encode_public_key
  | GROUP_DECODE_PUBLIC_KEY => Some group_decode_public_key
  | GROUP_DECODE_PRIVATE_KEY => Some group_decode_private_key
  | GROUP_SHA256_SIGN_DATA => Some group_sha256_sign_data
  | GROUP_SHA256_VERIFY_SIGNATURE => Some group_sha256_verify_signature
  | _ => None
  end.

(** [SyncCrypto.receive]: the loop runs at most [fuel] times; the
    receive it extends is the one of [FSM]. *)
Fixpoint SyncCrypto_receive (fuel depth : nat) (event : Event)
  : M World (option Event) :=
  match fuel with
  | O => throw OutOfFuel
  | S fuel' =>
      r <- on_handshake (XDAAHandshake_receive depth event) ;;
      match r with
      | None => throw AttributeError
      | Some event =>
          match _sync_crypto_dispatch (kind event) with
          | Some handler =>
              event <- handler event ;;
              SyncCrypto_receive fuel' depth event
          | None => ret (Some event)
          end
      end
  end.

(** *** [recvexactly] and [SyncSocket] *)

(** [buffer[pos:pos + len(data)] = data] *)
Definition store_at (buffer : bytes) (pos : Z) (data : bytes) : bytes :=
  firstn (Z.to_nat pos) buffer ++ data ++ skipn (Z.to_nat (pos + len data)) buffer.

(** The loop of [recvexactly]; a socket stores at most [nbytes] bytes. *)
Fixpoint recv_loop (fuel : nat) (size flags pos : Z) (buffer : bytes)
  (s : socket) : result (bytes * socket) :=
  (if pos <? size then
     match fuel with
     | O => raise OutOfFuel
     | S fuel' =>
         '(data, s) <- recv_into (size - pos) flags s ;;
         let data := firstn (Z.to_nat (size - pos)) data in
         let read := len data in
         if read =? 0 then ok ([], s)
         else recv_loop fuel' size flags (pos + read) (store_at buffer pos data) s
     end
   else ok (buffer, s))%result.

(** [recvexactly(sock, size)]: every turn of the loop reads at least one
    byte, so [size] turns are enough. *)
Definition recvexactly (s : socket) (size : Z) : result (bytes * socket) :=
  recv_loop (Z.to_nat size) size 0 0 (repeat Byte.x00 (Z.to_nat size)) s.

Definition data_write (event : Event) : M World Event :=
  data <- lift (event_data event) ;;
  on_sock (fun s => (s' <- sendall data s ;; ok (tt, s'))%result) ;;
  ret DataWriteResult.

Definition data_read (event : Event) : M World Event :=
  size <- lift (event_size event) ;;
  data <- on_sock (fun s => recvexactly s size) ;;
  if bytes_eqb data [] then throw socket_error
  else ret (DataReadResult data).

(** The dictionary [_sync_socket_dispatch]. *)
Definition _sync_socket_dispatch (k : Events) : option (Event -> M World Event) :=
  match k with
  | DATA_WRITE => Some data_write
  | DATA_READ => Some data_read
  | _ => None
  end.

(** [SyncSocket.receive], over the [receive] it extends. *)
Fixpoint SyncSocket_receive (super_receive : Event -> M World (option Event))
  (fuel : nat) (event : Event) : M World (option Event) :=
  match fuel with
  | O => throw OutOfFuel
  | S fuel' =>
      r <- super_receive event ;;
      match r with
      | None => throw AttributeError
      | Some event =>
          match _sync_socket_dispatch (kind event) with
          | Some handler =>
              event <- handler event ;;
              SyncSocket_receive super_receive fuel' event
          | None => ret (Some event)
          end
      end
  end.

(** [receive] of [XDAAHandshake(..).mixin(SyncCrypto).mixin(SyncSocket, sock)]:
    [SyncSocket] comes first in the method resolution order, then
    [SyncCrypto], then [FSM]. *)
Definition mixed_receive (fuel depth : nat) (event : Event)
  : M World (option Event) :=
  SyncSocket_receive (SyncCrypto_receive fuel depth) fuel event.

End Sync.

(** ** [xaptum/xdaa/daa.py] and [xaptum/xdaa/xdaa.py] *)

(** [x.split(sep)] for a one-character separator: the pieces between the
    occurrences of [sep], all of them. *)
Fixpoint split {A} (eqb : A -> A -> bool) (sep : A) (x : list A) : list (list A) :=
  match x with
  | [] => [[]]
  | c :: x' =>
      if eqb c sep then [] :: split eqb sep x'
      else match split eqb sep x' with
           | piece :: pieces => (c :: piece) :: pieces
           | [] => [[c]]
           end
  end.

(** A text string ([str] of Python 3, [unicode] of Python 2): its code
    points. *)
Definition str := list N.

(** A text literal written with its ASCII characters. *)
Definition text (s : string) : str :=
  map (fun c => Byte.to_N (byte_of_ascii c)) (list_ascii_of_string s).

Definition comma : N := 44.

(** [codecs.encode(x, 'ascii')] *)
Fixpoint encode_ascii (x : str) : result bytes :=
  match x with
  | [] => ok []
  | c :: x' =>
      if (c <? 128)%N then
        rest <- encode_ascii x' ;;
        ok (byte.of_Z (Z.of_N c) :: rest)
      else raise UnicodeEncodeError
  end.

Module Keys.

Record t : Type := {
  group_id : bytes;
  server_public_key : bytes;
  client_private_key : bytes
}.

(** [Keys] applied to the unpacked list [args]: the constructor takes exactly three arguments. *)
Definition __init__ (args : list str) : result t :=
  match args with
  | [group_id; server_public_key; client_private_key] =>
      g <- encode_ascii group_id ;;
      s <- encode_ascii server_public_key ;;
      c <- encode_ascii client_private_key ;;
      ok {| group_id := g; server_public_key := s; client_private_key := c |}
  | _ => raise TypeError
  end.

Definition from_csv (csv : str) : result t :=
  __init__ (split N.eqb comma csv).

End Keys.

Section Xdaa.
Context {P : Platform}.
Local Open Scope M_scope.

(** [DAAGroup] applied to the unpacked list [args] *)
Definition DAAGroup__init__ (args : list bytes) : result DAAGroup :=
  match args with
  | [group_id; server_public_key; client_private_key] =>
      ok {| group_id := group_id;
            server_public_key := server_public_key;
            client_private_key := client_private_key |}
  | _ => raise TypeError
  end.

(** [negotiate_secret(sock, group)], where [group] is a native string of
    Python 2 (a byte string); [e] is the state of the system's randomness
    when it is called. *)
Definition negotiate_secret (fuel depth : nat) (s : socket) (group : bytes)
  (e : Entropy) : result bytes :=
  (daa_group <- DAAGroup__init__ (split byte_eqb (byte.of_Z 44) group) ;;
   let w := {| handshake := XDAAHandshake__init__ daa_group;
               entropy := e; sock := s |} in
   '(_, w) <- mixed_receive fuel depth Start w ;;
   '(secret, _) <- on_handshake shared_secret_property w ;;
   ok secret)%result.

End Xdaa.

(** ** The statements of the codec round trip

    [parse(serialize(Message(a, b, ..)))] gives back the fields, with
    version 0. *)
Definition ClientHello_roundtrip (a b : bytes) : Prop :=
  exists data d,
    ClientHelloMessage.serialize (ClientHelloMessage.__init__ a b) = ok data /\
    decode_message ClientHelloMessage.t data = ok d /\
    d.(ClientHelloMessage.version) = 0 /\
    d.(ClientHelloMessage.client_group_id) = a /\
    d.(ClientHelloMessage.client_nonce) = b.

Definition ServerKeyExchange_roundtrip (a b c d : bytes) : Prop :=
  exists data m,
    ServerKeyExchangeMessage.serialize (ServerKeyExchangeMessage.__init__ a b c d) = ok data /\
    decode_message ServerKeyExchangeMessage.t data = ok m /\
    m.(ServerKeyExchangeMessage.version) = 0 /\
    m.(ServerKeyExchangeMessage.server_group_id) = a /\
    m.(ServerKeyExchangeMessage.server_nonce) = b /\
    m.(ServerKeyExchangeMessage.server_ecdhe_public_key) = c /\
    m.(ServerKeyExchangeMessage.signature) = d.

Definition ClientKeyExchange_roundtrip (a b : bytes) : Prop :=
  exists data d,
    ClientKeyExchangeMessage.serialize (ClientKeyExchangeMessage.__init__ a b) = ok data /\
    decode_message ClientKeyExchangeMessage.t data = ok d /\
    d.(ClientKeyExchangeMessage.version) = 0 /\
    d.(ClientKeyExchangeMessage.client_ecdhe_public_key) = a /\
    d.(ClientKeyExchangeMessage.signature) = b.

(** ** Driving the engine by hand *)
Section Feed.
Context {P : Platform}.
Local Open Scope M_scope.

(** The results are fed to the plain handshake one after the other; what
    it returned for each is collected. *)
Fixpoint feed (depth : nat) (results : list Event) : Run (list (option Event)) :=
  match results with
  | [] => ret []
  | r :: results' =>
      out <- XDAAHandshake_receive depth r ;;
      outs <- feed depth results' ;;
      ret (out :: outs)
  end.

(** Whether a returned value is a [DataRead] request. *)
Definition is_DataRead (out : option Event) : bool :=
  match out with
  | Some (DataRead _) => true
  | _ => false
  end.

(** The handshake while [SendClientHello] waits for its write to finish. *)
Definition awaiting_hello_written (h : XDAAHandshake) : Prop :=
  h.(current) = Some state.send_client_hello /\
  exists c,
    h.(maybeChild) = Some c /\
    c.(class) = SendClientHello /\
    c.(child_current) = Some state.send.

(** The handshake while [ReceiveServerKeyExchange] waits for the header it
    asked for. *)
Definition awaiting_header (h : XDAAHandshake) : Prop :=
  h.(current) = Some state.receive_server_key_exchange /\
  exists c,
    h.(maybeChild) = Some c /\
    c.(class) = ReceiveServerKeyExchange /\
    c.(child_current) = Some state.receive_message /\
    c.(_step) = Some 0.

(** The handshake while [ReceiveServerKeyExchange] waits for the body, the
    header having been parsed into [m]. *)
Definition awaiting_body (h : XDAAHandshake) (m : ServerKeyExchangeMessage.t) : Prop :=
  h.(current) = Some state.receive_server_key_exchange /\
  exists c,
    h.(maybeChild) = Some c /\
    c.(class) = ReceiveServerKeyExchange /\
    c.(child_current) = Some state.receive_message /\
    c.(_step) = Some 1 /\
    c.(message) = Some m.

(** The handshake while [SendClientKeyExchange] waits for the write of its
    message to finish. *)
Definition awaiting_key_exchange_written (h : XDAAHandshake) : Prop :=
  h.(current) = Some state.send_client_key_exchange /\
  exists c,
    h.(maybeChild) = Some c /\
    c.(class) = SendClientKeyExchange /\
    c.(child_current) = Some state.send_message.

End Feed.

(** ** A small platform to run the model on

    Keys and signatures are plain byte strings: a signature is the signed
    message itself and verifies on no other message; random bytes repeat a
    counter; the socket is the [MockSock] of the package's tests. *)
Module sample.

Record MockSock : Type := { to_read : bytes; written : bytes }.

Definition MockSock_recv_into (size flags : Z) (s : MockSock) : result (bytes * MockSock) :=
  let take := Z.min (len s.(to_read)) size in
  ok (firstn (Z.to_nat take) s.(to_read),
      {| to_read := skipn (Z.to_nat take) s.(to_read); written := s.(written) |}).

Definition MockSock_sendall (buf : bytes) (s : MockSock) : result MockSock :=
  ok {| to_read := s.(to_read); written := s.(written) ++ buf |}.

Definition platform : Platform := {|
  Entropy := Z;
  urandom := fun n e => (repeat (byte.of_Z e) (Z.to_nat n), e + 1);
  hex_decode := fun x => ok x;
  int_base16 := fun x => ok (len x);
  donna_PrivateKey := Z;
  donna_PublicKey := bytes;
  donna_PublicKey_of_bytes :=
    fun x => if len x =? 32 then ok x else raise ValueError;
  donna_public := fun x => x;
  donna_PrivateKey_new := fun e => (e, e + 1);
  donna_get_public := fun k => repeat (byte.of_Z k) 32;
  donna_do_exchange := fun k p => map (fun c => byte.of_Z (byte.unsigned c + k)) p;
  ec_PublicKey := bytes;
  ec_PrivateKey := Z;
  ec_public_key_of_point := fun x => ok x;
  ec_derive_private_key := fun x => ok x;
  ec_verify := fun pk sig msg =>
    if bytes_eqb sig msg then ok tt else raise InvalidSignature;
  ec_sign := fun sk msg e => (ok msg, e);
  socket := MockSock;
  recv_into := MockSock_recv_into;
  sendall := MockSock_sendall
|}.

#[local] Existing Instance platform.

Definition group : DAAGroup :=
  {| group_id := bstr "123456789";
     server_public_key := bstr "04DD";
     client_private_key := bstr "3FEA" |}.

(** The nonce and the ephemeral key the client draws from entropy [5]. *)
Definition nonce_of_client : bytes := repeat (byte.of_Z 5) 32.

Definition key_of_client : x25519.key_pair :=
  {| x25519.kp_private := 6; x25519.kp_public := repeat (byte.of_Z 6) 32 |}.

(** The decoded group keys. *)
Definition group_public_key : secp256r1.public_key :=
  {| secp256r1._public := bstr "04DD" |}.

Definition group_private_key : secp256r1.private_key :=
  {| secp256r1._private := 4 |}.

(** The server's ephemeral public key, as sent, and its nonce. *)
Definition key_of_server : bytes := repeat (byte.of_Z 9) 32.
Definition nonce_of_server : bytes := repeat (byte.of_Z 1) 32.

(** The context once [InitContext] is done. *)
Definition initialised : XDAAContext :=
  {| protocol_version := 0;
     daa_group := Some group;
     client_nonce := Some nonce_of_client;
     client_ephemeral_private_key := Some key_of_client;
     server_nonce := None;
     server_ephemeral_public_key := None;
     server_group_public_key := Some group_public_key;
     client_group_private_key := Some group_private_key;
     shared_secret := None |}.

(** The server's ephemeral public key, decoded. *)
Definition peer_key : x25519.public_key :=
  {| x25519._public := reversed key_of_server |}.

(** The server's message, signed over the nonce [signed_nonce]. *)
Definition server_key_exchange (signed_nonce : bytes) : ServerKeyExchangeMessage.t :=
  ServerKeyExchangeMessage.__init__ group.(group_id) nonce_of_server key_of_server
    (key_of_server ++ signed_nonce).

Definition wire (m : ServerKeyExchangeMessage.t) : bytes :=
  match ServerKeyExchangeMessage.serialize m with
  | inr data => data
  | inl _ => []
  end.

(** The states of a handshake at the points the properties speak of. *)
Definition hello_child : Child :=
  set_child_current (Some state.send)
    (set_child_maybeParent true (Child__init__ SendClientHello)).

Definition hello_sent : XDAAHandshake :=
  {| current := Some state.send_client_hello;
     maybeChild := Some hello_child;
     context := initialised |}.

Definition header_child : Child :=
  set__step 0
    (set_child_current (Some state.receive_message)
       (set_child_maybeParent true (Child__init__ ReceiveServerKeyExchange))).

Definition header_wanted : XDAAHandshake :=
  {| current := Some state.receive_server_key_exchange;
     maybeChild := Some header_child;
     context := initialised |}.

(** The message as [parse_header] leaves it: lengths only. *)
Definition parsed_header (m : ServerKeyExchangeMessage.t) : ServerKeyExchangeMessage.t :=
  {| ServerKeyExchangeMessage.version := 0;
     ServerKeyExchangeMessage.server_group_id_len :=
       m.(ServerKeyExchangeMessage.server_group_id_len);
     ServerKeyExchangeMessage.server_nonce_len :=
       m.(ServerKeyExchangeMessage.server_nonce_len);
     ServerKeyExchangeMessage.server_ecdhe_public_key_len :=
       m.(ServerKeyExchangeMessage.server_ecdhe_public_key_len);
     ServerKeyExchangeMessage.signature_len :=
       m.(ServerKeyExchangeMessage.signature_len);
     ServerKeyExchangeMessage.server_group_id := [];
     ServerKeyExchangeMessage.server_nonce := [];
     ServerKeyExchangeMessage.server_ecdhe_public_key := [];
     ServerKeyExchangeMessage.signature := [] |}.

Definition body_wanted (m : ServerKeyExchangeMessage.t) : XDAAHandshake :=
  {| current := Some state.receive_server_key_exchange;
     maybeChild := Some (set_message (parsed_header m) (set__step 1 header_child));
     context := initialised |}.

Definition key_exchange_child : Child :=
  set_message_out (ClientKeyExchangeMessage.__init__ (bstr "key") (bstr "sig"))
    (set_child_current (Some state.send_message)
       (set_child_maybeParent true (Child__init__ SendClientKeyExchange))).

Definition key_exchange_sent : XDAAHandshake :=
  {| current := Some state.send_client_key_exchange;
     maybeChild := Some key_exchange_child;
     context :=
       set_server_ephemeral_public_key (Some peer_key)
         (set_server_nonce nonce_of_server initialised) |}.

(** The results of the four steps of [InitContext], in order, after
    [Start]. *)
Definition initialisation : list Event :=
  [Start;
   GroupDecodePublicKeyResult group_public_key;
   GroupDecodePrivateKeyResult group_private_key;
   CreateNonceResult nonce_of_client;
   EphemeralCreateKeyResult key_of_client].

(** The message of a server that signs the client's nonce. *)
Definition honest : ServerKeyExchangeMessage.t :=
  server_key_exchange nonce_of_client.

Definition world (h : XDAAHandshake) (data : bytes) : World :=
  {| handshake := h; entropy := 7; sock := {| to_read := data; written := [] |} |}.

End sample.

(** ** Further states of the handshake *)
Section MoreStates.
Context {P : Platform}.

(** The handshake while [InitContext] waits for the decoded public key of
    the group. *)
Definition awaiting_group_public_key (h : XDAAHandshake) : Prop :=
  h.(current) = Some state.init_context /\
  exists c,
    h.(maybeChild) = Some c /\
    c.(class) = InitContext /\
    c.(child_current) = Some state.steps /\
    c.(_step) = Some 0.

(** The handshake while [ReceiveServerKeyExchange] waits for the outcome of
    the signature check on the message [m]. *)
Definition awaiting_verification (h : XDAAHandshake)
  (m : ServerKeyExchangeMessage.t) : Prop :=
  h.(current) = Some state.receive_server_key_exchange /\
  exists c,
    h.(maybeChild) = Some c /\
    c.(class) = ReceiveServerKeyExchange /\
    c.(child_current) = Some state.validate_message /\
    c.(_step) = Some 0 /\
    c.(message) = Some m.

(** The handshake while [SendClientKeyExchange] waits for the encoding of
    the client's ephemeral public key. *)
Definition awaiting_encoded_key (h : XDAAHandshake) : Prop :=
  h.(current) = Some state.send_client_key_exchange /\
  exists c,
    h.(maybeChild) = Some c /\
    c.(class) = SendClientKeyExchange /\
    c.(child_current) = Some state.prepare_message /\
    c.(_step) = Some 0.

(** The handshake in its final state. *)
Definition terminated (h : XDAAHandshake) : Prop :=
  h.(current) = Some state.final /\ h.(maybeChild) = None.

(** The child of the handshake has the handshake as its parent. *)
Definition child_has_parent (h : XDAAHandshake) : Prop :=
  exists c, h.(maybeChild) = Some c /\ c.(child_maybeParent) = true.

End MoreStates.

(** ** What a socket delivers *)
Section Delivery.
Context {P : Platform}.
Local Open Scope Z_scope.


End Delivery.

(** ** Exceptions of the platform *)
Section PlatformExceptions.
Context {P : Platform}.

(** No call of the platform raises the exception [x]. *)
Definition platform_never_raises (x : exn) : Prop :=
  (forall b, hex_decode b <> raise x) /\
  (forall b, int_base16 b <> raise x) /\
  (forall b, donna_PublicKey_of_bytes b <> raise x) /\
  (forall b, ec_public_key_of_point b <> raise x) /\
  (forall n, ec_derive_private_key n <> raise x) /\
  (forall k s m, ec_verify k s m <> raise x) /\
  (forall n f s, recv_into n f s <> raise x) /\
  (forall b s, sendall b s <> raise x).

(** The computation raises, and not for lack of turns of the model. *)
Definition fails {A} (r : result A) : Prop :=
  match r with
  | inl err => err <> OutOfFuel
  | inr _ => False
  end.

End PlatformExceptions.

(** ** Further states of the run on the small platform *)
Module sample_states.

#[local] Existing Instance sample.platform.

(** The handshake after [Start]. *)
Definition started : XDAAHandshake :=
  {| current := Some state.init_context;
     maybeChild :=
       Some (set__step 0
               (set_child_current (Some state.steps)
                  (set_child_maybeParent true (Child__init__ InitContext))));
     context := set_daa_group sample.group XDAAContext__init__ |}.

(** The message of a server of another group. *)
Definition foreign : ServerKeyExchangeMessage.t :=
  ServerKeyExchangeMessage.__init__ (bstr "987654321") sample.nonce_of_server
    sample.key_of_server (sample.key_of_server ++ sample.nonce_of_client).

(** The handshake while the signature of the honest server is checked. *)
Definition verification_wanted : XDAAHandshake :=
  {| current := Some state.receive_server_key_exchange;
     maybeChild :=
       Some (set_message sample.honest
               (set_child_current (Some state.validate_message)
                  sample.header_child));
     context := sample.initialised |}.

(** The handshake while the client's key is encoded. *)
Definition encoding_wanted : XDAAHandshake :=
  {| current := Some state.send_client_key_exchange;
     maybeChild :=
       Some (set__step 0
               (set_child_current (Some state.prepare_message)
                  (set_child_maybeParent true (Child__init__ SendClientKeyExchange))));
     context :=
       set_server_ephemeral_public_key (Some sample.peer_key)
         (set_server_nonce sample.nonce_of_server sample.initialised) |}.

(** The handshake at its end. *)
Definition finished : XDAAHandshake :=
  {| current := Some state.final;
     maybeChild := None;
     context :=
       set_shared_secret (bstr "secret")
         (set_server_ephemeral_public_key (Some sample.peer_key)
            (set_server_nonce sample.nonce_of_server sample.initialised)) |}.

(** A socket that holds [data]. *)
Definition holding (data : bytes) : sample.MockSock :=
  {| sample.to_read := data; sample.written := [] |}.

(** The world of the handshake [h] with the randomness at [e] and the
    socket holding [data]. *)
Definition at_entropy (h : XDAAHandshake) (e : Z) (data : bytes) : World :=
  {| handshake := h; entropy := e; sock := holding data |}.

End sample_states.

(** * Properties of the message codec *)
Section CodecFacts.
Local Open Scope Z_scope.

Lemma len_nonneg {A} (x : list A) : 0 <= len x.
Proof. unfold len. lia. Qed.

Lemma len_app {A} (x y : list A) : len (x ++ y) = len x + len y.
Proof. unfold len. rewrite length_app. lia. Qed.

Lemma len_cons {A} (c : A) (x : list A) : len (c :: x) = 1 + len x.
Proof. unfold len. cbn [List.length]. lia. Qed.

Lemma to_nat_len {A} (x : list A) : Z.to_nat (len x) = List.length x.
Proof. unfold len. apply Nat2Z.id. Qed.

Lemma firstn_len_app {A} (x y : list A) : firstn (Z.to_nat (len x)) (x ++ y) = x.
Proof.
  rewrite to_nat_len, firstn_app, Nat.sub_diag, firstn_all. simpl.
  apply app_nil_r.
Qed.

Lemma skipn_len_app {A} (x y : list A) : skipn (Z.to_nat (len x)) (x ++ y) = y.
Proof.
  rewrite to_nat_len, skipn_app, Nat.sub_diag, skipn_all. reflexivity.
Qed.

Lemma firstn_len {A} (x : list A) : firstn (Z.to_nat (len x)) x = x.
Proof. rewrite to_nat_len. apply firstn_all. Qed.

(** A value that fits is packed into itself. *)
Lemma pack_s_exact (v : bytes) : struct.pack_s (len v) v = v.
Proof.
  unfold struct.pack_s. rewrite to_nat_len, Nat.sub_diag. simpl.
  rewrite app_nil_r. apply firstn_all.
Qed.

(** The two bytes of an unsigned short decode to the number packed. *)
Lemma unpack_H_pack_H (v : Z) :
  0 <= v <= 65535 ->
  struct.unpack_H (byte.of_Z (v / 256)) (byte.of_Z v) = v.
Proof.
  intros Hv. unfold struct.unpack_H.
  rewrite !byte.unsigned_of_Z. unfold byte.wrap.
  change (2 ^ 8) with 256.
  rewrite (Z.mod_small (v / 256)).
  - rewrite (Z.div_mod v 256) at 3 by lia. reflexivity.
  - split.
    + apply Z.div_pos; lia.
    + apply Z.div_lt_upper_bound; lia.
Qed.

Lemma H_in_range (v : Z) :
  0 <= v <= 65535 -> (0 <=? v) && (v <=? 65535) = true.
Proof. intros Hv. apply andb_true_intro. split; apply Z.leb_le; lia. Qed.

Lemma H_out_of_range (v : Z) :
  65535 < v -> (0 <=? v) && (v <=? 65535) = false.
Proof.
  intros Hv. apply andb_false_intro2. apply Z.leb_gt. exact Hv.
Qed.

Lemma pack_H_ok (v : Z) :
  0 <= v <= 65535 -> struct.pack_one struct.H (struct.Int v) = ok (struct.pack_H v).
Proof. intros Hv. simpl. rewrite H_in_range by exact Hv. reflexivity. Qed.

Lemma pack_H_error (v : Z) :
  65535 < v -> struct.pack_one struct.H (struct.Int v) = raise struct_error.
Proof. intros Hv. simpl. rewrite H_out_of_range by exact Hv. reflexivity. Qed.

Lemma pack_s_ok (v : bytes) :
  struct.pack_one (struct.s (len v)) (struct.Bytes v) = ok v.
Proof.
  simpl. destruct (Z.leb_spec 0 (len v)) as [_ | Hneg].
  - rewrite pack_s_exact. reflexivity.
  - pose proof (len_nonneg v). lia.
Qed.

(** Unpacking byte strings laid end to end. *)
Lemma unpack_ss (x y : bytes) :
  struct.unpack [struct.s (len x); struct.s (len y)] (x ++ y)
  = ok [struct.Bytes x; struct.Bytes y].
Proof.
  unfold struct.unpack, struct.calcsize. simpl forallb.
  pose proof (len_nonneg x) as Hx. pose proof (len_nonneg y) as Hy.
  rewrite (proj2 (Z.leb_le 0 (len x)) Hx), (proj2 (Z.leb_le 0 (len y)) Hy).
  simpl. rewrite len_app, Z.add_0_r, Z.eqb_refl.
  rewrite firstn_len_app, skipn_len_app, firstn_len. reflexivity.
Qed.

Lemma unpack_ssss (x y z t : bytes) :
  struct.unpack [struct.s (len x); struct.s (len y); struct.s (len z);
                 struct.s (len t)] (x ++ y ++ z ++ t)
  = ok [struct.Bytes x; struct.Bytes y; struct.Bytes z; struct.Bytes t].
Proof.
  unfold struct.unpack, struct.calcsize. simpl forallb.
  pose proof (len_nonneg x) as Hx. pose proof (len_nonneg y) as Hy.
  pose proof (len_nonneg z) as Hz. pose proof (len_nonneg t) as Ht.
  rewrite (proj2 (Z.leb_le 0 (len x)) Hx), (proj2 (Z.leb_le 0 (len y)) Hy),
    (proj2 (Z.leb_le 0 (len z)) Hz), (proj2 (Z.leb_le 0 (len t)) Ht).
  simpl. rewrite !len_app, Z.add_0_r, Z.eqb_refl.
  repeat rewrite ?firstn_len_app, ?skipn_len_app. rewrite firstn_len. reflexivity.
Qed.

(** A buffer of the wrong size does not unpack. *)
Lemma unpack_wrong_size (f : struct.format) (data : bytes) (n : Z) :
  struct.calcsize f = ok n -> len data <> n ->
  struct.unpack f data = raise struct_error.
Proof.
  intros Hf Hn. unfold struct.unpack. rewrite Hf. simpl.
  destruct (Z.eqb_spec (len data) n) as [Heq | _]; [contradiction | reflexivity].
Qed.

Lemma calcsize_cases (f : struct.format) :
  struct.calcsize f = raise struct_error \/
  struct.calcsize f = ok (fold_right (fun c n => struct.size_of c + n) 0 f).
Proof.
  unfold struct.calcsize. destruct (forallb struct.code_ok f); auto.
Qed.

Lemma unpack_error_cases (f : struct.format) (data : bytes) :
  len data <> fold_right (fun c n => struct.size_of c + n) 0 f ->
  struct.unpack f data = raise struct_error.
Proof.
  intros Hn. destruct (calcsize_cases f) as [Hf | Hf].
  - unfold struct.unpack. rewrite Hf. reflexivity.
  - eapply unpack_wrong_size; eauto.
Qed.

End CodecFacts.

Section RoundTrip.
Local Open Scope Z_scope.

Lemma pack_BHH (v g n : Z) :
  0 <= v <= 255 -> 0 <= g <= 65535 -> 0 <= n <= 65535 ->
  struct.pack [struct.B; struct.H; struct.H]
    [struct.Int v; struct.Int g; struct.Int n]
  = ok (byte.of_Z v :: struct.pack_H g ++ struct.pack_H n).
Proof.
  intros Hv Hg Hn. cbn [struct.pack].
  rewrite (pack_H_ok g Hg), (pack_H_ok n Hn). cbn [struct.pack_one].
  replace ((0 <=? v) && (v <=? 255)) with true
    by (symmetry; apply andb_true_intro; split; apply Z.leb_le; lia).
  reflexivity.
Qed.

Lemma pack_BHHHH (v g n p s : Z) :
  0 <= v <= 255 -> 0 <= g <= 65535 -> 0 <= n <= 65535 ->
  0 <= p <= 65535 -> 0 <= s <= 65535 ->
  struct.pack [struct.B; struct.H; struct.H; struct.H; struct.H]
    [struct.Int v; struct.Int g; struct.Int n; struct.Int p; struct.Int s]
  = ok (byte.of_Z v :: struct.pack_H g ++ struct.pack_H n ++
        struct.pack_H p ++ struct.pack_H s).
Proof.
  intros Hv Hg Hn Hp Hs. cbn [struct.pack].
  rewrite (pack_H_ok g Hg), (pack_H_ok n Hn), (pack_H_ok p Hp), (pack_H_ok s Hs).
  cbn [struct.pack_one].
  replace ((0 <=? v) && (v <=? 255)) with true
    by (symmetry; apply andb_true_intro; split; apply Z.leb_le; lia).
  reflexivity.
Qed.

Lemma pack_ss (x y : bytes) :
  struct.pack [struct.s (len x); struct.s (len y)]
    [struct.Bytes x; struct.Bytes y] = ok (x ++ y).
Proof.
  cbn [struct.pack]. rewrite !pack_s_ok. simpl. rewrite app_nil_r. reflexivity.
Qed.

Lemma pack_ssss (x y z t : bytes) :
  struct.pack [struct.s (len x); struct.s (len y); struct.s (len z);
               struct.s (len t)]
    [struct.Bytes x; struct.Bytes y; struct.Bytes z; struct.Bytes t]
  = ok (x ++ y ++ z ++ t).
Proof.
  cbn [struct.pack]. rewrite !pack_s_ok. simpl. rewrite app_nil_r. reflexivity.
Qed.

Lemma unpack_BHH (v : byte) (g n : Z) :
  0 <= g <= 65535 -> 0 <= n <= 65535 ->
  struct.unpack [struct.B; struct.H; struct.H]
    (v :: struct.pack_H g ++ struct.pack_H n)
  = ok [struct.Int (byte.unsigned v); struct.Int g; struct.Int n].
Proof.
  intros Hg Hn. unfold struct.unpack, struct.pack_H. simpl.
  rewrite !unpack_H_pack_H by assumption. reflexivity.
Qed.

Lemma unpack_BHHHH (v : byte) (g n p s : Z) :
  0 <= g <= 65535 -> 0 <= n <= 65535 -> 0 <= p <= 65535 -> 0 <= s <= 65535 ->
  struct.unpack [struct.B; struct.H; struct.H; struct.H; struct.H]
    (v :: struct.pack_H g ++ struct.pack_H n ++ struct.pack_H p ++ struct.pack_H s)
  = ok [struct.Int (byte.unsigned v); struct.Int g; struct.Int n;
        struct.Int p; struct.Int s].
Proof.
  intros Hg Hn Hp Hs. unfold struct.unpack, struct.pack_H. simpl.
  rewrite !unpack_H_pack_H by assumption. reflexivity.
Qed.

Lemma slice_body {A} (header body : list A) (n m : Z) :
  n = len header -> m = len body ->
  slice (header ++ body) n (n + m) = body.
Proof.
  intros -> ->. unfold slice.
  replace (len header + len body - len header) with (len body) by lia.
  rewrite skipn_len_app. apply firstn_len.
Qed.

Lemma ClientHello_serialize_ok (a b : bytes) :
  len a <= 65535 -> len b <= 65535 ->
  ClientHelloMessage.serialize (ClientHelloMessage.__init__ a b)
  = ok ((byte.of_Z 0 :: struct.pack_H (len a) ++ struct.pack_H (len b)) ++ a ++ b).
Proof.
  intros Ha Hb. pose proof (len_nonneg a). pose proof (len_nonneg b).
  unfold ClientHelloMessage.serialize, ClientHelloMessage.__init__.
  cbn [ClientHelloMessage.version ClientHelloMessage.client_group_id_len
       ClientHelloMessage.client_nonce_len ClientHelloMessage.client_group_id
       ClientHelloMessage.client_nonce].
  rewrite pack_BHH by lia. rewrite pack_ss. reflexivity.
Qed.

Lemma ClientHello_roundtrip_bounded (a b : bytes) :
  len a <= 65535 -> len b <= 65535 -> ClientHello_roundtrip a b.
Proof.
  intros Ha Hb. pose proof (len_nonneg a). pose proof (len_nonneg b).
  eexists. eexists. split.
  - apply ClientHello_serialize_ok; assumption.
  - unfold decode_message.
    change (@header_len _ ClientHello_class) with 5.
    change (@parse_header _ ClientHello_class) with ClientHelloMessage.parse_header.
    change (@parse_body _ ClientHello_class) with ClientHelloMessage.parse_body.
    replace (slice _ 0 5)
      with (byte.of_Z 0 :: struct.pack_H (len a) ++ struct.pack_H (len b))
      by reflexivity.
    unfold ClientHelloMessage.parse_header at 1.
    rewrite unpack_BHH by lia.
    cbn [reraise bind_result]. rewrite byte.unsigned_of_Z.
    change (ne (byte.wrap 0) 0) with false. cbn [bind_result].
    rewrite (slice_body _ (a ++ b)) by (try rewrite len_app; reflexivity).
    unfold ClientHelloMessage.parse_body.
    cbn [ClientHelloMessage.client_group_id_len ClientHelloMessage.client_nonce_len].
    rewrite unpack_ss. cbn [reraise bind_result].
    rewrite len_app.
    change (len (byte.of_Z 0 :: struct.pack_H (len a) ++ struct.pack_H (len b)))
      with 5.
    rewrite len_app, Z.eqb_refl.
    split; [reflexivity | ]. cbn. auto.
Qed.

End RoundTrip.

Section RoundTripOthers.
Local Open Scope Z_scope.

Lemma ServerKeyExchange_serialize_ok (v : Z) (a b c d : bytes) :
  0 <= v <= 255 ->
  len a <= 65535 -> len b <= 65535 -> len c <= 65535 -> len d <= 65535 ->
  ServerKeyExchangeMessage.serialize
    (ServerKeyExchangeMessage.set_version v
       (ServerKeyExchangeMessage.__init__ a b c d))
  = ok ((byte.of_Z v :: struct.pack_H (len a) ++ struct.pack_H (len b) ++
         struct.pack_H (len c) ++ struct.pack_H (len d)) ++ a ++ b ++ c ++ d).
Proof.
  intros Hv Ha Hb Hc Hd.
  pose proof (len_nonneg a). pose proof (len_nonneg b).
  pose proof (len_nonneg c). pose proof (len_nonneg d).
  unfold ServerKeyExchangeMessage.serialize, ServerKeyExchangeMessage.set_version,
    ServerKeyExchangeMessage.__init__.
  cbn [ServerKeyExchangeMessage.version
       ServerKeyExchangeMessage.server_group_id_len
       ServerKeyExchangeMessage.server_nonce_len
       ServerKeyExchangeMessage.server_ecdhe_public_key_len
       ServerKeyExchangeMessage.signature_len
       ServerKeyExchangeMessage.server_group_id
       ServerKeyExchangeMessage.server_nonce
       ServerKeyExchangeMessage.server_ecdhe_public_key
       ServerKeyExchangeMessage.signature].
  rewrite pack_BHHHH by lia. rewrite pack_ssss. reflexivity.
Qed.

Lemma ServerKeyExchange_roundtrip_bounded (a b c d : bytes) :
  len a <= 65535 -> len b <= 65535 -> len c <= 65535 -> len d <= 65535 ->
  ServerKeyExchange_roundtrip a b c d.
Proof.
  intros Ha Hb Hc Hd.
  pose proof (len_nonneg a). pose proof (len_nonneg b).
  pose proof (len_nonneg c). pose proof (len_nonneg d).
  eexists. eexists. split.
  - apply (ServerKeyExchange_serialize_ok 0); (assumption || lia).
  - unfold decode_message.
    change (@header_len _ ServerKeyExchange_class) with 9.
    change (@parse_header _ ServerKeyExchange_class)
      with ServerKeyExchangeMessage.parse_header.
    change (@parse_body _ ServerKeyExchange_class)
      with ServerKeyExchangeMessage.parse_body.
    replace (slice _ 0 9)
      with (byte.of_Z 0 :: struct.pack_H (len a) ++ struct.pack_H (len b) ++
            struct.pack_H (len c) ++ struct.pack_H (len d))
      by reflexivity.
    unfold ServerKeyExchangeMessage.parse_header at 1.
    rewrite unpack_BHHHH by lia.
    cbn [reraise bind_result]. rewrite byte.unsigned_of_Z.
    change (ne (byte.wrap 0) 0) with false. cbn [bind_result].
    rewrite (slice_body _ (a ++ b ++ c ++ d))
      by (try rewrite !len_app; try reflexivity; lia).
    unfold ServerKeyExchangeMessage.parse_body.
    cbn [ServerKeyExchangeMessage.server_group_id_len
         ServerKeyExchangeMessage.server_nonce_len
         ServerKeyExchangeMessage.server_ecdhe_public_key_len
         ServerKeyExchangeMessage.signature_len].
    rewrite unpack_ssss. cbn [reraise bind_result].
    rewrite len_app.
    change (len (byte.of_Z 0 :: struct.pack_H (len a) ++ struct.pack_H (len b) ++
                 struct.pack_H (len c) ++ struct.pack_H (len d))) with 9.
    rewrite !len_app.
    replace (9 + (len a + len b + len c + len d)
             =? 9 + (len a + (len b + (len c + len d)))) with true
      by (symmetry; apply Z.eqb_eq; lia).
    split; [reflexivity | ]. cbn. auto.
Qed.

Lemma ClientKeyExchange_serialize_ok (a b : bytes) :
  len a <= 65535 -> len b <= 65535 ->
  ClientKeyExchangeMessage.serialize (ClientKeyExchangeMessage.__init__ a b)
  = ok ((byte.of_Z 0 :: struct.pack_H (len a) ++ struct.pack_H (len b)) ++ a ++ b).
Proof.
  intros Ha Hb. pose proof (len_nonneg a). pose proof (len_nonneg b).
  unfold ClientKeyExchangeMessage.serialize, ClientKeyExchangeMessage.__init__.
  cbn [ClientKeyExchangeMessage.version
       ClientKeyExchangeMessage.client_ecdhe_public_key_len
       ClientKeyExchangeMessage.signature_len
       ClientKeyExchangeMessage.client_ecdhe_public_key
       ClientKeyExchangeMessage.signature].
  rewrite pack_BHH by lia. rewrite pack_ss. reflexivity.
Qed.

Lemma ClientKeyExchange_roundtrip_bounded (a b : bytes) :
  len a <= 65535 -> len b <= 65535 -> ClientKeyExchange_roundtrip a b.
Proof.
  intros Ha Hb. pose proof (len_nonneg a). pose proof (len_nonneg b).
  eexists. eexists. split.
  - apply ClientKeyExchange_serialize_ok; assumption.
  - unfold decode_message.
    change (@header_len _ ClientKeyExchange_class) with 5.
    change (@parse_header _ ClientKeyExchange_class)
      with ClientKeyExchangeMessage.parse_header.
    change (@parse_body _ ClientKeyExchange_class)
      with ClientKeyExchangeMessage.parse_body.
    replace (slice _ 0 5)
      with (byte.of_Z 0 :: struct.pack_H (len a) ++ struct.pack_H (len b))
      by reflexivity.
    unfold ClientKeyExchangeMessage.parse_header at 1.
    rewrite unpack_BHH by lia.
    cbn [reraise bind_result]. rewrite byte.unsigned_of_Z.
    change (ne (byte.wrap 0) 0) with false. cbn [bind_result].
    rewrite (slice_body _ (a ++ b)) by (try rewrite len_app; reflexivity).
    unfold ClientKeyExchangeMessage.parse_body.
    cbn [ClientKeyExchangeMessage.client_ecdhe_public_key_len
         ClientKeyExchangeMessage.signature_len].
    rewrite unpack_ss. cbn [reraise bind_result].
    rewrite len_app.
    change (len (byte.of_Z 0 :: struct.pack_H (len a) ++ struct.pack_H (len b)))
      with 5.
    rewrite len_app, Z.eqb_refl.
    split; [reflexivity | ]. cbn. auto.
Qed.

(** A field too long for its length prefix stops [serialize]. *)
Lemma pack_BHH_error (v g n : Z) :
  0 <= v <= 255 -> 65535 < g \/ 65535 < n ->
  struct.pack [struct.B; struct.H; struct.H]
    [struct.Int v; struct.Int g; struct.Int n] = raise struct_error.
Proof.
  intros Hv Hlong. cbn [struct.pack struct.pack_one].
  replace ((0 <=? v) && (v <=? 255)) with true
    by (symmetry; apply andb_true_intro; split; apply Z.leb_le; lia).
  cbn [bind_result].
  destruct ((0 <=? g) && (g <=? 65535)) eqn:Hg; [ | reflexivity].
  cbn [bind_result].
  destruct ((0 <=? n) && (n <=? 65535)) eqn:Hn; [ | reflexivity].
  apply andb_prop in Hg, Hn. destruct Hg as [_ Hg], Hn as [_ Hn].
  apply Z.leb_le in Hg, Hn. lia.
Qed.

Lemma pack_BHHHH_error (v g n p s : Z) :
  0 <= v <= 255 -> 65535 < g \/ 65535 < n \/ 65535 < p \/ 65535 < s ->
  struct.pack [struct.B; struct.H; struct.H; struct.H; struct.H]
    [struct.Int v; struct.Int g; struct.Int n; struct.Int p; struct.Int s]
  = raise struct_error.
Proof.
  intros Hv Hlong. cbn [struct.pack struct.pack_one].
  replace ((0 <=? v) && (v <=? 255)) with true
    by (symmetry; apply andb_true_intro; split; apply Z.leb_le; lia).
  cbn [bind_result].
  destruct ((0 <=? g) && (g <=? 65535)) eqn:Hg; [ | reflexivity].
  cbn [bind_result].
  destruct ((0 <=? n) && (n <=? 65535)) eqn:Hn; [ | reflexivity].
  cbn [bind_result].
  destruct ((0 <=? p) && (p <=? 65535)) eqn:Hp; [ | reflexivity].
  cbn [bind_result].
  destruct ((0 <=? s) && (s <=? 65535)) eqn:Hs; [ | reflexivity].
  apply andb_prop in Hg, Hn, Hp, Hs.
  destruct Hg as [_ Hg], Hn as [_ Hn], Hp as [_ Hp], Hs as [_ Hs].
  apply Z.leb_le in Hg, Hn, Hp, Hs. lia.
Qed.

Lemma ClientHello_serialize_long (a b : bytes) :
  65535 < len a \/ 65535 < len b ->
  ClientHelloMessage.serialize (ClientHelloMessage.__init__ a b)
  = raise struct_error.
Proof.
  intros Hlong.
  unfold ClientHelloMessage.serialize, ClientHelloMessage.__init__.
  cbn [ClientHelloMessage.version ClientHelloMessage.client_group_id_len
       ClientHelloMessage.client_nonce_len].
  rewrite pack_BHH_error by (assumption || lia). reflexivity.
Qed.

Lemma ServerKeyExchange_serialize_long (a b c d : bytes) :
  65535 < len a \/ 65535 < len b \/ 65535 < len c \/ 65535 < len d ->
  ServerKeyExchangeMessage.serialize (ServerKeyExchangeMessage.__init__ a b c d)
  = raise struct_error.
Proof.
  intros Hlong.
  unfold ServerKeyExchangeMessage.serialize, ServerKeyExchangeMessage.__init__.
  cbn [ServerKeyExchangeMessage.version
       ServerKeyExchangeMessage.server_group_id_len
       ServerKeyExchangeMessage.server_nonce_len
       ServerKeyExchangeMessage.server_ecdhe_public_key_len
       ServerKeyExchangeMessage.signature_len].
  rewrite pack_BHHHH_error by (assumption || lia). reflexivity.
Qed.

Lemma ClientKeyExchange_serialize_long (a b : bytes) :
  65535 < len a \/ 65535 < len b ->
  ClientKeyExchangeMessage.serialize (ClientKeyExchangeMessage.__init__ a b)
  = raise struct_error.
Proof.
  intros Hlong.
  unfold ClientKeyExchangeMessage.serialize, ClientKeyExchangeMessage.__init__.
  cbn [ClientKeyExchangeMessage.version
       ClientKeyExchangeMessage.client_ecdhe_public_key_len
       ClientKeyExchangeMessage.signature_len].
  rewrite pack_BHH_error by (assumption || lia). reflexivity.
Qed.

End RoundTripOthers.

Section ParseErrors.
Local Open Scope Z_scope.

Lemma len_repeat {A} (x : A) (n : Z) : 0 <= n -> len (repeat x (Z.to_nat n)) = n.
Proof. intros Hn. unfold len. rewrite repeat_length. lia. Qed.

Lemma unsigned_nonzero (v : byte) : v <> Byte.x00 -> ne (byte.unsigned v) 0 = true.
Proof.
  intros Hv. unfold ne. apply negb_true_iff, Z.eqb_neq. intros H0. apply Hv.
  apply byte.unsigned_inj. rewrite H0. reflexivity.
Qed.

Lemma ClientHello_parse_header_wrong_size (header : bytes) :
  len header <> 5 ->
  ClientHelloMessage.parse_header header = raise InvalidMessageError.
Proof.
  intros Hn. unfold ClientHelloMessage.parse_header.
  rewrite unpack_error_cases by exact Hn. reflexivity.
Qed.

Lemma ClientKeyExchange_parse_header_wrong_size (header : bytes) :
  len header <> 5 ->
  ClientKeyExchangeMessage.parse_header header = raise InvalidMessageError.
Proof.
  intros Hn. unfold ClientKeyExchangeMessage.parse_header.
  rewrite unpack_error_cases by exact Hn. reflexivity.
Qed.

Lemma ServerKeyExchange_parse_header_wrong_size (header : bytes) :
  len header <> 9 ->
  ServerKeyExchangeMessage.parse_header header = raise InvalidMessageError.
Proof.
  intros Hn. unfold ServerKeyExchangeMessage.parse_header.
  rewrite unpack_error_cases by exact Hn. reflexivity.
Qed.

Ltac wrong_size lem :=
  apply lem; repeat rewrite len_cons;
  match goal with |- context [len ?r] => pose proof (len_nonneg r) end;
  try (change (len (@nil Init.Byte.byte)) with 0); lia.

Lemma ClientHello_parse_header_version (v : byte) (rest : bytes) :
  v <> Byte.x00 ->
  ClientHelloMessage.parse_header (v :: rest) = raise InvalidMessageError.
Proof.
  intros Hv.
  destruct rest as [ | c1 [ | c2 [ | c3 [ | c4 [ | c5 rest]]]]];
    try (wrong_size ClientHello_parse_header_wrong_size).
  unfold ClientHelloMessage.parse_header, struct.unpack. simpl.
  rewrite unsigned_nonzero by exact Hv. reflexivity.
Qed.

Lemma ClientKeyExchange_parse_header_version (v : byte) (rest : bytes) :
  v <> Byte.x00 ->
  ClientKeyExchangeMessage.parse_header (v :: rest) = raise InvalidMessageError.
Proof.
  intros Hv.
  destruct rest as [ | c1 [ | c2 [ | c3 [ | c4 [ | c5 rest]]]]];
    try (wrong_size ClientKeyExchange_parse_header_wrong_size).
  unfold ClientKeyExchangeMessage.parse_header, struct.unpack. simpl.
  rewrite unsigned_nonzero by exact Hv. reflexivity.
Qed.

Lemma ServerKeyExchange_parse_header_version (v : byte) (rest : bytes) :
  v <> Byte.x00 ->
  ServerKeyExchangeMessage.parse_header (v :: rest) = raise InvalidMessageError.
Proof.
  intros Hv.
  destruct rest
    as [ | c1 [ | c2 [ | c3 [ | c4 [ | c5 [ | c6 [ | c7 [ | c8 [ | c9 rest]]]]]]]]];
    try (wrong_size ServerKeyExchange_parse_header_wrong_size).
  unfold ServerKeyExchangeMessage.parse_header, struct.unpack. simpl.
  rewrite unsigned_nonzero by exact Hv. reflexivity.
Qed.

Lemma ClientHello_parse_body_wrong_size (self : ClientHelloMessage.t) (data : bytes) :
  len data <> self.(ClientHelloMessage.client_group_id_len) +
              self.(ClientHelloMessage.client_nonce_len) ->
  ClientHelloMessage.parse_body self data = raise InvalidMessageError.
Proof.
  intros Hn. unfold ClientHelloMessage.parse_body.
  rewrite unpack_error_cases by (simpl; lia). reflexivity.
Qed.

Lemma ClientKeyExchange_parse_body_wrong_size
  (self : ClientKeyExchangeMessage.t) (data : bytes) :
  len data <> self.(ClientKeyExchangeMessage.client_ecdhe_public_key_len) +
              self.(ClientKeyExchangeMessage.signature_len) ->
  ClientKeyExchangeMessage.parse_body self data = raise InvalidMessageError.
Proof.
  intros Hn. unfold ClientKeyExchangeMessage.parse_body.
  rewrite unpack_error_cases by (simpl; lia). reflexivity.
Qed.

Lemma ServerKeyExchange_parse_body_wrong_size
  (self : ServerKeyExchangeMessage.t) (data : bytes) :
  len data <> self.(ServerKeyExchangeMessage.server_group_id_len) +
              self.(ServerKeyExchangeMessage.server_nonce_len) +
              self.(ServerKeyExchangeMessage.server_ecdhe_public_key_len) +
              self.(ServerKeyExchangeMessage.signature_len) ->
  ServerKeyExchangeMessage.parse_body self data = raise InvalidMessageError.
Proof.
  intros Hn. unfold ServerKeyExchangeMessage.parse_body.
  rewrite unpack_error_cases by (simpl; lia). reflexivity.
Qed.

End ParseErrors.

Section CodecClaims.
Local Open Scope Z_scope.

(** C1.  [serialize_for_signature(a, b)] of [ServerKeyExchangeMessage]
    returns [a] followed by [b]; the one of [ClientKeyExchangeMessage] reads
    a name that nothing binds and raises [NameError] for all [a] and [b],
    among them [b'abcdef'] and [b'12345'], where the specification and the
    package's own test expect [b'abcdef12345']. *)
Theorem serialize_for_signature_variants :
  forall a b : bytes,
    ServerKeyExchangeMessage.serialize_for_signature a b = ok (a ++ b) /\
    ClientKeyExchangeMessage.serialize_for_signature a b = raise NameError /\
    ServerKeyExchangeMessage.serialize_for_signature (bstr "abcdef") (bstr "12345")
      = ok (bstr "abcdef12345") /\
    ClientKeyExchangeMessage.serialize_for_signature (bstr "abcdef") (bstr "12345")
      = raise NameError.
Proof.
  intros a b. split; [ | split; [ | split]]; try reflexivity.
  unfold ServerKeyExchangeMessage.serialize_for_signature. simpl scope.load.
  cbn [bind_result scope.pack_with]. apply pack_ss.
Qed.

(** C2, as stated: the round trip of a [ClientHelloMessage] whose first
    field has 65536 bytes.  [serialize] raises there, so there is nothing
    to parse. *)
Lemma roundtrip_fails_on_long_field :
  ~ ClientHello_roundtrip (repeat Byte.x00 (Z.to_nat 65536)) [].
Proof.
  intros (data & d & Hs & _).
  rewrite ClientHello_serialize_long in Hs.
  - discriminate Hs.
  - left. rewrite len_repeat; lia.
Qed.

(** C2, amended.  For each of the three message types and all field values
    of at most 65535 bytes each, parsing the serialization ([parse_header]
    on the first [header_len] bytes, then [parse_body] on the rest) gives a
    message with the original fields and version 0. *)
Theorem codec_roundtrip_bounded :
  forall a b c d : bytes,
    len a <= 65535 -> len b <= 65535 -> len c <= 65535 -> len d <= 65535 ->
    ClientHello_roundtrip a b /\
    ServerKeyExchange_roundtrip a b c d /\
    ClientKeyExchange_roundtrip a b.
Proof.
  intros a b c d Ha Hb Hc Hd. split; [ | split].
  - apply ClientHello_roundtrip_bounded; assumption.
  - apply ServerKeyExchange_roundtrip_bounded; assumption.
  - apply ClientKeyExchange_roundtrip_bounded; assumption.
Qed.

Lemma codec_roundtrip_bounded_witness :
  ClientHello_roundtrip (bstr "123456789") (bstr "nonce") /\
  ServerKeyExchange_roundtrip (bstr "123456789") (bstr "nonce") (bstr "key") [] /\
  ClientKeyExchange_roundtrip (bstr "123456789") (bstr "nonce").
Proof.
  apply (codec_roundtrip_bounded (bstr "123456789") (bstr "nonce") (bstr "key") []);
    vm_compute; discriminate.
Defined.

(** C6.  [parse_header] raises [InvalidMessageError] on a header shorter
    than the fixed header length and on a header whose version byte is not
    zero; [parse_body] raises it on a body whose length is not the sum of the
    lengths the header declared.  The four bytes [00 00 01 01] and the
    message [00 00 01 00 02 'a' 'b'] parsed as ClientHello both fail with
    [InvalidMessageError]. *)
Theorem parse_failures_are_InvalidMessageError :
  forall (header data rest : bytes) (v : byte)
         (hello : ClientHelloMessage.t) (ske : ServerKeyExchangeMessage.t)
         (cke : ClientKeyExchangeMessage.t),
    (len header < ClientHelloMessage.header_len ->
     ClientHelloMessage.parse_header header = raise InvalidMessageError) /\
    (len header < ServerKeyExchangeMessage.header_len ->
     ServerKeyExchangeMessage.parse_header header = raise InvalidMessageError) /\
    (len header < ClientKeyExchangeMessage.header_len ->
     ClientKeyExchangeMessage.parse_header header = raise InvalidMessageError) /\
    (v <> Byte.x00 ->
     ClientHelloMessage.parse_header (v :: rest) = raise InvalidMessageError /\
     ServerKeyExchangeMessage.parse_header (v :: rest) = raise InvalidMessageError /\
     ClientKeyExchangeMessage.parse_header (v :: rest) = raise InvalidMessageError) /\
    (len data <> hello.(ClientHelloMessage.client_group_id_len) +
                 hello.(ClientHelloMessage.client_nonce_len) ->
     ClientHelloMessage.parse_body hello data = raise InvalidMessageError) /\
    (len data <> ske.(ServerKeyExchangeMessage.server_group_id_len) +
                 ske.(ServerKeyExchangeMessage.server_nonce_len) +
                 ske.(ServerKeyExchangeMessage.server_ecdhe_public_key_len) +
                 ske.(ServerKeyExchangeMessage.signature_len) ->
     ServerKeyExchangeMessage.parse_body ske data = raise InvalidMessageError) /\
    (len data <> cke.(ClientKeyExchangeMessage.client_ecdhe_public_key_len) +
                 cke.(ClientKeyExchangeMessage.signature_len) ->
     ClientKeyExchangeMessage.parse_body cke data = raise InvalidMessageError) /\
    decode_message ClientHelloMessage.t [Byte.x00; Byte.x00; Byte.x01; Byte.x01]
      = raise InvalidMessageError /\
    decode_message ClientHelloMessage.t
      ([Byte.x00; Byte.x00; Byte.x01; Byte.x00; Byte.x02] ++ bstr "ab")
      = raise InvalidMessageError.
Proof.
  intros header data rest v hello ske cke.
  repeat match goal with |- _ /\ _ => split end.
  - intros Hn. apply ClientHello_parse_header_wrong_size.
    unfold ClientHelloMessage.header_len in Hn. lia.
  - intros Hn. apply ServerKeyExchange_parse_header_wrong_size.
    unfold ServerKeyExchangeMessage.header_len in Hn. lia.
  - intros Hn. apply ClientKeyExchange_parse_header_wrong_size.
    unfold ClientKeyExchangeMessage.header_len in Hn. lia.
  - intros Hv. split; [ | split].
    + apply ClientHello_parse_header_version; exact Hv.
    + apply ServerKeyExchange_parse_header_version; exact Hv.
    + apply ClientKeyExchange_parse_header_version; exact Hv.
  - apply ClientHello_parse_body_wrong_size.
  - apply ServerKeyExchange_parse_body_wrong_size.
  - apply ClientKeyExchange_parse_body_wrong_size.
  - reflexivity.
  - reflexivity.
Qed.

Lemma parse_failures_witness :
  ClientHelloMessage.parse_header [Byte.x00; Byte.x00; Byte.x01; Byte.x01]
    = raise InvalidMessageError /\
  ClientHelloMessage.parse_header
    [Byte.x01; Byte.x00; Byte.x01; Byte.x00; Byte.x01] = raise InvalidMessageError /\
  ClientHelloMessage.parse_body (ClientHelloMessage.__init__ (bstr "a") (bstr "bc"))
    (bstr "ab") = raise InvalidMessageError.
Proof.
  pose proof (parse_failures_are_InvalidMessageError
                [Byte.x00; Byte.x00; Byte.x01; Byte.x01] (bstr "ab")
                [Byte.x00; Byte.x01; Byte.x00; Byte.x01] Byte.x01
                (ClientHelloMessage.__init__ (bstr "a") (bstr "bc"))
                (ServerKeyExchangeMessage.__init__ [] [] [] [])
                (ClientKeyExchangeMessage.__init__ [] []))
    as (Hshort & _ & _ & Hversion & Hbody & _).
  split; [ | split].
  - apply Hshort. vm_compute. reflexivity.
  - apply Hversion. discriminate.
  - apply Hbody. vm_compute. discriminate.
Defined.

(** C9.  For every message type [serialize] returns a byte string when
    every field has at most 65535 bytes and raises [struct.error], which is
    not an [InvalidMessageError], as soon as one field is longer; so the
    codec round trip holds for such fields only. *)
Theorem serialize_needs_short_fields :
  forall a b c d : bytes,
    (len a <= 65535 /\ len b <= 65535 ->
     (exists data, ClientHelloMessage.serialize (ClientHelloMessage.__init__ a b)
                   = ok data) /\
     (exists data, ClientKeyExchangeMessage.serialize
                     (ClientKeyExchangeMessage.__init__ a b) = ok data)) /\
    (len a <= 65535 /\ len b <= 65535 /\ len c <= 65535 /\ len d <= 65535 ->
     exists data, ServerKeyExchangeMessage.serialize
                    (ServerKeyExchangeMessage.__init__ a b c d) = ok data) /\
    (65535 < len a \/ 65535 < len b ->
     ClientHelloMessage.serialize (ClientHelloMessage.__init__ a b)
       = raise struct_error /\
     ClientKeyExchangeMessage.serialize (ClientKeyExchangeMessage.__init__ a b)
       = raise struct_error) /\
    (65535 < len a \/ 65535 < len b \/ 65535 < len c \/ 65535 < len d ->
     ServerKeyExchangeMessage.serialize (ServerKeyExchangeMessage.__init__ a b c d)
       = raise struct_error) /\
    isinstance struct_error InvalidMessageError = false /\
    (ClientHello_roundtrip a b -> len a <= 65535 /\ len b <= 65535) /\
    (ServerKeyExchange_roundtrip a b c d ->
     len a <= 65535 /\ len b <= 65535 /\ len c <= 65535 /\ len d <= 65535) /\
    (ClientKeyExchange_roundtrip a b -> len a <= 65535 /\ len b <= 65535).
Proof.
  intros a b c d.
  repeat match goal with |- _ /\ _ => split end.
  - intros [Ha Hb]. split; eexists.
    + apply ClientHello_serialize_ok; assumption.
    + apply ClientKeyExchange_serialize_ok; assumption.
  - intros (Ha & Hb & Hc & Hd). eexists.
    apply (ServerKeyExchange_serialize_ok 0); (assumption || lia).
  - intros Hlong. split.
    + apply ClientHello_serialize_long; exact Hlong.
    + apply ClientKeyExchange_serialize_long; exact Hlong.
  - apply ServerKeyExchange_serialize_long.
  - reflexivity.
  - intros (data & m & Hs & _).
    destruct (Z_le_gt_dec (len a) 65535) as [Ha | Ha];
      destruct (Z_le_gt_dec (len b) 65535) as [Hb | Hb]; auto;
      rewrite ClientHello_serialize_long in Hs by lia; discriminate Hs.
  - intros (data & m & Hs & _).
    destruct (Z_le_gt_dec (len a) 65535) as [Ha | Ha];
      destruct (Z_le_gt_dec (len b) 65535) as [Hb | Hb];
      destruct (Z_le_gt_dec (len c) 65535) as [Hc | Hc];
      destruct (Z_le_gt_dec (len d) 65535) as [Hd | Hd]; auto;
      rewrite ServerKeyExchange_serialize_long in Hs by lia; discriminate Hs.
  - intros (data & m & Hs & _).
    destruct (Z_le_gt_dec (len a) 65535) as [Ha | Ha];
      destruct (Z_le_gt_dec (len b) 65535) as [Hb | Hb]; auto;
      rewrite ClientKeyExchange_serialize_long in Hs by lia; discriminate Hs.
Qed.

Lemma serialize_needs_short_fields_witness :
  (exists data, ClientHelloMessage.serialize
                  (ClientHelloMessage.__init__ (bstr "123456789") (bstr "nonce"))
                = ok data) /\
  ClientHelloMessage.serialize
    (ClientHelloMessage.__init__ (repeat Byte.x00 (Z.to_nat 65536)) (bstr "nonce"))
  = raise struct_error.
Proof.
  pose proof (serialize_needs_short_fields (bstr "123456789") (bstr "nonce") [] [])
    as (Hshort & _).
  pose proof (serialize_needs_short_fields
                (repeat Byte.x00 (Z.to_nat 65536)) (bstr "nonce") [] [])
    as (_ & _ & Hlong & _).
  split.
  - refine (proj1 (Hshort _)). split; vm_compute; discriminate.
  - refine (proj1 (Hlong _)). left. rewrite len_repeat; lia.
Defined.

End CodecClaims.

(** * Properties of the handshake *)

(** Symbolic runs of the machine: the methods of the engine are unfolded,
    the codec and the platform are not. *)
Ltac run_engine :=
  lazy beta iota zeta delta
    [XDAAHandshake_receive XDAAHandshake_start invoke state_method feed
     receive _receive_child _receive_self call_current become terminate
     _exit _enter _abort _abort_child unhandled initial final
     delegate delegate_with init_step step
     has_child has_parent get_current put_current on_start child
     update_child update_context the_context the_daa_group
     shared_secret_property attribute sized
     init_context send_client_hello receive_server_key_exchange
     send_client_key_exchange compute_shared_secret
     steps send receive_message validate_message process_message
     prepare_message send_message
     bind ret get put modify throw lift
     kind kind_eqb value Z.eqb Z.add Pos.eqb Pos.add Pos.succ Pos.add_carry
     andb negb orb Bool.eqb
     event_data event_size event_nonce event_key event_secret
     event_ephemeral_public_key event_group_public_key
     event_group_private_key event_public_key_encoded event_signature
     event_verified
     current maybeChild context
     class child_current child_maybeParent _step message
     public_key_encoded signature message_out
     set_current set_maybeChild set_context
     set_child_current set_child_maybeParent set__step set_message
     set_public_key_encoded set_signature set_message_out
     Child__init__
     protocol_version daa_group client_nonce client_ephemeral_private_key
     server_nonce server_ephemeral_public_key server_group_public_key
     client_group_private_key shared_secret
     set_daa_group set_client_nonce set_client_ephemeral_private_key
     set_server_nonce set_server_ephemeral_public_key
     set_server_group_public_key set_client_group_private_key
     set_shared_secret
     group_id server_public_key client_private_key
     mixed_receive SyncSocket_receive SyncCrypto_receive
     on_handshake on_entropy on_sock
     _sync_crypto_dispatch _sync_socket_dispatch
     create_nonce ephemeral_create_key ephemeral_compute_shared_secret
     ephemeral_decode_public_key ephemeral_encode_public_key
     group_decode_public_key group_decode_private_key
     group_sha256_sign_data group_sha256_verify_signature
     data_read data_write
     handshake entropy sock].

(** A handshake given by its parts, and its child likewise. *)
Ltac open_handshake h :=
  let cur := fresh "cur" in
  let mc := fresh "mc" in
  let ctx := fresh "ctx" in
  destruct h as [cur mc ctx]; cbn [current maybeChild context] in *.

Ltac open_child c :=
  destruct c as [? ? ? ? ? ? ? ?];
  cbn [class child_current child_maybeParent _step message
       public_key_encoded signature message_out] in *.

Ltac open_context ctx :=
  destruct ctx as [? ? ? ? ? ? ? ? ?];
  cbn [protocol_version daa_group client_nonce client_ephemeral_private_key
       server_nonce server_ephemeral_public_key server_group_public_key
       client_group_private_key shared_secret] in *.

Section HandshakeFacts.
Context {P : Platform}.
Local Open Scope Z_scope.

Lemma ne_refl (x : Z) : ne x x = false.
Proof. unfold ne. rewrite Z.eqb_refl. reflexivity. Qed.

Lemma bytes_eqb_refl (x : bytes) : bytes_eqb x x = true.
Proof.
  induction x as [ | c x IH]; [reflexivity | ].
  simpl. rewrite IH. unfold byte_eqb.
  rewrite (Byte.byte_dec_lb (x := c) (y := c) eq_refl). reflexivity.
Qed.

Lemma bytes_eqb_eq (x y : bytes) : bytes_eqb x y = true -> x = y.
Proof.
  revert y. induction x as [ | c x IH]; intros [ | d y] H; try discriminate H.
  - reflexivity.
  - simpl in H. apply andb_prop in H. destruct H as [Hc Hx].
    unfold byte_eqb in Hc. apply Byte.byte_dec_bl in Hc.
    rewrite Hc, (IH y Hx). reflexivity.
Qed.

Lemma bytes_eqb_neq (x y : bytes) : x <> y -> bytes_eqb x y = false.
Proof.
  intros Hxy. destruct (bytes_eqb x y) eqn:E; [ | reflexivity].
  exfalso. apply Hxy. apply bytes_eqb_eq. exact E.
Qed.

Lemma server_serialize_for_signature (key nonce : bytes) :
  ServerKeyExchangeMessage.serialize_for_signature key nonce = ok (key ++ nonce).
Proof.
  unfold ServerKeyExchangeMessage.serialize_for_signature. simpl scope.load.
  cbn [bind_result scope.pack_with]. apply pack_ss.
Qed.

Lemma client_serialize_for_signature (key nonce : bytes) :
  ClientKeyExchangeMessage.serialize_for_signature key nonce = raise NameError.
Proof. reflexivity. Qed.

(** What a parsed header and a parsed body carry. *)
Lemma ServerKeyExchange_parse_header_ok (header : bytes)
  (m : ServerKeyExchangeMessage.t) (L : Z) :
  ServerKeyExchangeMessage.parse_header header = ok (m, L) ->
  len header = 9 /\
  m.(ServerKeyExchangeMessage.version) = 0 /\
  L = m.(ServerKeyExchangeMessage.server_group_id_len) +
      m.(ServerKeyExchangeMessage.server_nonce_len) +
      m.(ServerKeyExchangeMessage.server_ecdhe_public_key_len) +
      m.(ServerKeyExchangeMessage.signature_len).
Proof.
  intros Hparse.
  destruct (Z.eq_dec (len header) 9) as [Hlen | Hlen].
  2: { rewrite ServerKeyExchange_parse_header_wrong_size in Hparse by exact Hlen.
       discriminate Hparse. }
  split; [exact Hlen | ].
  destruct header
    as [ | c0 [ | c1 [ | c2 [ | c3 [ | c4 [ | c5 [ | c6 [ | c7 [ | c8 [ | c9 rest]]]]]]]]]];
    try discriminate Hlen.
  2: { exfalso. repeat rewrite len_cons in Hlen. pose proof (len_nonneg rest). lia. }
  unfold ServerKeyExchangeMessage.parse_header, struct.unpack in Hparse.
  simpl in Hparse.
  destruct (ne (byte.unsigned c0) 0); [discriminate Hparse | ].
  injection Hparse as <- <-. simpl. auto.
Qed.

Lemma ServerKeyExchange_parse_body_ok (m m' : ServerKeyExchangeMessage.t)
  (body : bytes) :
  ServerKeyExchangeMessage.parse_body m body = ok m' ->
  m'.(ServerKeyExchangeMessage.version) = m.(ServerKeyExchangeMessage.version).
Proof.
  unfold ServerKeyExchangeMessage.parse_body, struct.unpack.
  destruct (struct.calcsize _) as [e | size]; simpl.
  - destruct (isinstance e struct_error); discriminate.
  - destruct (len body =? size); simpl; [ | discriminate].
    intros Hm. injection Hm as <-. reflexivity.
Qed.

(** The first byte of a serialized message is its version. *)
Lemma ServerKeyExchange_serialize_head (m : ServerKeyExchangeMessage.t)
  (data : bytes) :
  ServerKeyExchangeMessage.serialize m = ok data ->
  exists c1 c2 c3 c4 c5 c6 c7 c8 rest,
    data = byte.of_Z m.(ServerKeyExchangeMessage.version)
           :: c1 :: c2 :: c3 :: c4 :: c5 :: c6 :: c7 :: c8 :: rest.
Proof.
  unfold ServerKeyExchangeMessage.serialize. cbn [struct.pack struct.pack_one].
  destruct ((0 <=? _) && (_ <=? 255)); [ | discriminate].
  repeat (destruct ((0 <=? _) && (_ <=? 65535)); [ | discriminate]).
  cbn [bind_result].
  destruct (0 <=? _); [ | discriminate].
  destruct (0 <=? _); [ | discriminate].
  destruct (0 <=? _); [ | discriminate].
  destruct (0 <=? _); [ | discriminate].
  cbn [bind_result]. intros Hdata. injection Hdata as <-.
  unfold struct.pack_H. simpl. repeat eexists.
Qed.

Lemma version_byte_nonzero (k : Z) : 1 <= k <= 255 -> byte.of_Z k <> Byte.x00.
Proof.
  intros Hk Hzero. apply (f_equal byte.unsigned) in Hzero.
  rewrite byte.unsigned_of_Z in Hzero. unfold byte.wrap in Hzero.
  rewrite Z.mod_small in Hzero by (change (2 ^ 8) with 256; lia).
  change (byte.unsigned Byte.x00) with 0 in Hzero. lia.
Qed.

(** An exception of the plain handshake goes through [SyncCrypto.receive]. *)
Lemma SyncCrypto_receive_raises (fuel depth : nat) (event : Event) (w : World) (e : exn) :
  (1 <= fuel)%nat ->
  XDAAHandshake_receive depth event w.(handshake) = raise e ->
  SyncCrypto_receive fuel depth event w = raise e.
Proof.
  intros Hfuel Hraise. destruct fuel as [ | fuel]; [lia | ].
  cbn [SyncCrypto_receive]. unfold bind at 1. unfold on_handshake at 1.
  rewrite Hraise. reflexivity.
Qed.

(** The step of the machine behind C3. *)
Lemma header_with_bad_version (depth : nat) (h : XDAAHandshake) (header : bytes) :
  (3 <= depth)%nat ->
  awaiting_header h ->
  ServerKeyExchangeMessage.parse_header header = raise InvalidMessageError ->
  XDAAHandshake_receive depth (DataReadResult header) h = raise InvalidMessageError.
Proof.
  intros Hd (Hcur & c & Hc & Hclass & Hst & Hstep) Hparse.
  destruct depth as [ | [ | [ | depth]]]; try lia.
  open_handshake h. open_child c. subst.
  run_engine. rewrite Hparse. reflexivity.
Qed.

(** C3.  When the server sends a ServerKeyExchange message whose version
    byte is [k], for [k] from 1 to 255, the handshake fails while it parses
    the header, with the [InvalidMessageError] of [parse_header], which is
    not an [UnsupportedVersionError]; the specification and the package's
    own test expect [UnsupportedVersionError]. *)
Theorem server_version_mismatch_raises_InvalidMessageError :
  forall (depth fuel : nat) (w : World) (k : Z)
         (msg : ServerKeyExchangeMessage.t) (data : bytes),
    (3 <= depth)%nat -> (1 <= fuel)%nat ->
    awaiting_header w.(handshake) ->
    1 <= k <= 255 ->
    ServerKeyExchangeMessage.serialize
      (ServerKeyExchangeMessage.set_version k msg) = ok data ->
    let header := slice data 0 ServerKeyExchangeMessage.header_len in
    XDAAHandshake_receive depth (DataReadResult header) w.(handshake)
      = raise InvalidMessageError /\
    SyncCrypto_receive fuel depth (DataReadResult header) w
      = raise InvalidMessageError /\
    isinstance InvalidMessageError UnsupportedVersionError = false.
Proof.
  intros depth fuel w k msg data Hd Hfuel Hawait Hk Hdata header.
  assert (Hplain : XDAAHandshake_receive depth (DataReadResult header) w.(handshake)
                   = raise InvalidMessageError).
  { apply header_with_bad_version; try assumption.
    destruct (ServerKeyExchange_serialize_head _ _ Hdata)
      as (c1 & c2 & c3 & c4 & c5 & c6 & c7 & c8 & rest & ->).
    subst header. unfold slice, ServerKeyExchangeMessage.header_len. simpl.
    apply ServerKeyExchange_parse_header_version.
    apply version_byte_nonzero. exact Hk. }
  split; [exact Hplain | split; [ | reflexivity]].
  apply SyncCrypto_receive_raises; assumption.
Qed.

End HandshakeFacts.

Lemma server_version_mismatch_witness :
  XDAAHandshake_receive (P := sample.platform) 3
    (DataReadResult
       (slice (sample.wire (ServerKeyExchangeMessage.set_version 1
                              (sample.server_key_exchange sample.nonce_of_client)))
          0 ServerKeyExchangeMessage.header_len))
    sample.header_wanted
  = raise InvalidMessageError.
Proof.
  refine (proj1 (server_version_mismatch_raises_InvalidMessageError
                   (P := sample.platform) 3 1
                   (sample.world sample.header_wanted []) 1
                   (sample.server_key_exchange sample.nonce_of_client)
                   _ _ _ _ _ _)).
  - apply le_n.
  - apply le_n.
  - split; [reflexivity | ]. eexists. repeat split; reflexivity.
  - lia.
  - reflexivity.
Defined.

Section HandshakeClaims.
Context {P : Platform}.
Local Open Scope Z_scope.

(** The body arrives: the message is validated and the signature check is
    requested. *)
Lemma body_received (depth : nat) (h : XDAAHandshake)
  (m m' : ServerKeyExchangeMessage.t) (body nonce : bytes) (g : DAAGroup)
  (pub : secp256r1.public_key) :
  (4 <= depth)%nat ->
  awaiting_body h m ->
  ServerKeyExchangeMessage.parse_body m body = ok m' ->
  m'.(ServerKeyExchangeMessage.version) = h.(context).(protocol_version) ->
  h.(context).(daa_group) = Some g ->
  bytes_eqb m'.(ServerKeyExchangeMessage.server_group_id) g.(group_id) = true ->
  h.(context).(server_group_public_key) = Some pub ->
  h.(context).(client_nonce) = Some nonce ->
  exists c,
    c.(class) = ReceiveServerKeyExchange /\
    c.(child_current) = Some state.validate_message /\
    c.(_step) = Some 0 /\
    c.(message) = Some m' /\
    XDAAHandshake_receive depth (DataReadResult body) h
    = ok (Some (GroupSHA256VerifySignature pub
                  (m'.(ServerKeyExchangeMessage.server_ecdhe_public_key) ++ nonce)
                  m'.(ServerKeyExchangeMessage.signature)),
          set_maybeChild (Some c) h).
Proof.
  intros Hd (Hcur & c & Hc & Hclass & Hst & Hstep & Hmsg) Hbody Hv Hg Hgid Hpub Hn.
  destruct depth as [ | [ | [ | [ | depth]]]]; try lia.
  destruct g as [gid spk cpk]. cbn [group_id] in Hgid.
  open_handshake h. open_child c. open_context ctx. subst.
  run_engine. rewrite Hbody. run_engine.
  rewrite ne_refl, Hgid. run_engine.
  rewrite server_serialize_for_signature.
  eexists. split; [ | split; [ | split; [ | split; [ | reflexivity]]]]; reflexivity.
Qed.

(** A failed check ends the handshake. *)
Lemma signature_rejected (depth : nat) (h : XDAAHandshake) (c : Child) :
  (3 <= depth)%nat ->
  h.(maybeChild) = Some c ->
  c.(class) = ReceiveServerKeyExchange ->
  c.(child_current) = Some state.validate_message ->
  c.(_step) = Some 0 ->
  XDAAHandshake_receive depth (GroupSHA256VerifySignatureResult false) h
  = raise InvalidSignatureError.
Proof.
  intros Hd Hc Hclass Hst Hstep.
  destruct depth as [ | [ | [ | depth]]]; try lia.
  open_handshake h. open_child c. subst.
  run_engine. reflexivity.
Qed.

(** The requests of the engine from the end of the ClientHello write to the
    end of [ReceiveServerKeyExchange], for a message that passes the checks. *)
Lemma server_key_exchange_requests :
  forall (depth : nat) (h : XDAAHandshake) (header body nonce : bytes)
         (m m' : ServerKeyExchangeMessage.t) (L : Z) (g : DAAGroup)
         (pub : secp256r1.public_key) (peer : x25519.public_key),
    (6 <= depth)%nat ->
    awaiting_hello_written h ->
    ServerKeyExchangeMessage.parse_header header = ok (m, L) ->
    ServerKeyExchangeMessage.parse_body m body = ok m' ->
    h.(context).(protocol_version) = 0 ->
    h.(context).(daa_group) = Some g ->
    bytes_eqb m'.(ServerKeyExchangeMessage.server_group_id) g.(group_id) = true ->
    h.(context).(server_group_public_key) = Some pub ->
    h.(context).(client_nonce) = Some nonce ->
    exists outs h',
      feed depth
        [DataWriteResult; DataReadResult header; DataReadResult body;
         GroupSHA256VerifySignatureResult true;
         EphemeralDecodePublicKeyResult peer] h = ok (outs, h') /\
      outs = [Some (DataRead 9); Some (DataRead L);
              Some (GroupSHA256VerifySignature pub
                      (m'.(ServerKeyExchangeMessage.server_ecdhe_public_key) ++ nonce)
                      m'.(ServerKeyExchangeMessage.signature));
              Some (EphemeralDecodePublicKey
                      m'.(ServerKeyExchangeMessage.server_ecdhe_public_key));
              Some (EphemeralEncodePublicKey
                      h.(context).(client_ephemeral_private_key))] /\
      filter is_DataRead outs = [Some (DataRead 9); Some (DataRead L)] /\
      L = m.(ServerKeyExchangeMessage.server_group_id_len) +
          m.(ServerKeyExchangeMessage.server_nonce_len) +
          m.(ServerKeyExchangeMessage.server_ecdhe_public_key_len) +
          m.(ServerKeyExchangeMessage.signature_len) /\
      h'.(current) = Some state.send_client_key_exchange.
Proof.
  intros depth h header body nonce m m' L g pub peer Hd
    (Hcur & c & Hc & Hclass & Hst) Hheader Hbody Hpv Hg Hgid Hpub Hn.
  destruct (ServerKeyExchange_parse_header_ok _ _ _ Hheader) as (_ & Hv & HL).
  pose proof (ServerKeyExchange_parse_body_ok _ _ _ Hbody) as Hv'.
  rewrite Hv in Hv'.
  destruct depth as [ | [ | [ | [ | [ | [ | depth]]]]]]; try lia.
  destruct g as [gid spk cpk]. cbn [group_id] in Hgid.
  open_handshake h. open_child c. open_context ctx. subst.
  eexists. eexists. split; [ | split; [ | split; [ | split]]].
  - run_engine. rewrite Hheader. run_engine. rewrite Hbody. run_engine.
    rewrite Hv'. change (ne 0 0) with false. run_engine.
    rewrite Hgid. run_engine.
    rewrite server_serialize_for_signature. run_engine.
    unfold ServerKeyExchangeMessage.header_len. reflexivity.
  - reflexivity.
  - reflexivity.
  - reflexivity.
  - reflexivity.
Qed.

(** The ClientHello is written: the engine asks for the header. *)
Lemma hello_written (depth : nat) (h : XDAAHandshake) :
  (6 <= depth)%nat ->
  awaiting_hello_written h ->
  exists h1,
    XDAAHandshake_receive depth DataWriteResult h = ok (Some (DataRead 9), h1) /\
    awaiting_header h1 /\
    h1.(context) = h.(context).
Proof.
  intros Hd (Hcur & c & Hc & Hclass & Hst).
  destruct depth as [ | [ | [ | [ | [ | [ | depth]]]]]]; try lia.
  open_handshake h. open_child c. subst.
  eexists. split; [ | split].
  - run_engine. unfold ServerKeyExchangeMessage.header_len. reflexivity.
  - split; [reflexivity | ]. eexists. repeat split; reflexivity.
  - reflexivity.
Qed.

(** The header arrives: the engine asks for the body. *)
Lemma header_received (depth : nat) (h : XDAAHandshake) (header : bytes)
  (m : ServerKeyExchangeMessage.t) (L : Z) :
  (3 <= depth)%nat ->
  awaiting_header h ->
  ServerKeyExchangeMessage.parse_header header = ok (m, L) ->
  exists h2,
    XDAAHandshake_receive depth (DataReadResult header) h
    = ok (Some (DataRead L), h2) /\
    awaiting_body h2 m /\
    h2.(context) = h.(context).
Proof.
  intros Hd (Hcur & c & Hc & Hclass & Hst & Hstep) Hheader.
  destruct depth as [ | [ | [ | depth]]]; try lia.
  open_handshake h. open_child c. subst.
  eexists. split; [ | split].
  - run_engine. rewrite Hheader. run_engine. reflexivity.
  - split; [reflexivity | ]. eexists. repeat split; reflexivity.
  - reflexivity.
Qed.

(** The body arrives: whatever it holds, the engine does not ask for a
    third read. *)
Lemma no_read_after_body (depth : nat) (h : XDAAHandshake)
  (m : ServerKeyExchangeMessage.t) (body : bytes)
  (out : option Event) (h3 : XDAAHandshake) :
  (4 <= depth)%nat ->
  awaiting_body h m ->
  XDAAHandshake_receive depth (DataReadResult body) h = ok (out, h3) ->
  is_DataRead out = false.
Proof.
  intros Hd (Hcur & c & Hc & Hclass & Hst & Hstep & Hmsg).
  destruct depth as [ | [ | [ | [ | depth]]]]; try lia.
  open_handshake h. open_child c. open_context ctx. subst.
  run_engine.
  destruct (ServerKeyExchangeMessage.parse_body m body) as [e | m'];
    [discriminate | ].
  run_engine.
  destruct (ne _ _); [discriminate | ].
  destruct daa_group0 as [g | ]; [ | discriminate].
  destruct g as [gid spk cpk]. run_engine.
  destruct (bytes_eqb _ _); run_engine; [ | discriminate].
  destruct server_group_public_key0 as [pub | ]; [ | discriminate].
  destruct client_nonce0 as [nonce | ]; [ | discriminate].
  run_engine. rewrite server_serialize_for_signature.
  intros Hrun. injection Hrun as <- _. reflexivity.
Qed.

(** A message whose header was parsed has version 0, as the context has:
    the engine's own version check never fails, so no run of the handshake
    raises [UnsupportedVersionError] on the body. *)
Lemma version_check_never_fails (depth : nat) (h : XDAAHandshake)
  (m : ServerKeyExchangeMessage.t) (body : bytes) :
  (4 <= depth)%nat ->
  awaiting_body h m ->
  m.(ServerKeyExchangeMessage.version) = 0 ->
  h.(context).(protocol_version) = 0 ->
  XDAAHandshake_receive depth (DataReadResult body) h
  <> raise UnsupportedVersionError.
Proof.
  intros Hd (Hcur & c & Hc & Hclass & Hst & Hstep & Hmsg) Hv Hpv.
  destruct depth as [ | [ | [ | [ | depth]]]]; try lia.
  open_handshake h. open_child c. open_context ctx. subst.
  run_engine.
  destruct (ServerKeyExchangeMessage.parse_body m body) as [e | m'] eqn:Hbody.
  - unfold ServerKeyExchangeMessage.parse_body, struct.unpack in Hbody.
    match type of Hbody with
    | context [struct.calcsize ?f] =>
        destruct (calcsize_cases f) as [Hf | Hf]; rewrite Hf in Hbody
    end; simpl in Hbody.
    + injection Hbody as <-. discriminate.
    + destruct (len body =? _); simpl in Hbody;
        [discriminate Hbody | injection Hbody as <-; discriminate].
  - pose proof (ServerKeyExchange_parse_body_ok _ _ _ Hbody) as Hv'.
    rewrite Hv in Hv'. run_engine. rewrite Hv'. change (ne 0 0) with false.
    run_engine.
    destruct daa_group0 as [g | ]; [ | discriminate].
    destruct g as [gid spk cpk]. run_engine.
    destruct (bytes_eqb _ _); run_engine; [ | discriminate].
    destruct server_group_public_key0 as [pub | ]; [ | discriminate].
    destruct client_nonce0 as [nonce | ]; [ | discriminate].
    run_engine. rewrite server_serialize_for_signature. discriminate.
Qed.

(** C8.  For an inbound ServerKeyExchange message the engine asks for
    exactly two reads: 9 bytes for the header, then as many bytes as the
    four lengths in the parsed header add up to, whatever that number is.
    The answer to the second read never makes it ask for a third one, and
    for a message that passes the checks what it asks for until
    [ReceiveServerKeyExchange] is over are the signature check and the
    decoding of the server's key. *)
Theorem two_reads_per_server_key_exchange :
  forall (depth : nat) (h : XDAAHandshake) (header body : bytes)
         (m : ServerKeyExchangeMessage.t) (L : Z),
    (6 <= depth)%nat ->
    awaiting_hello_written h ->
    ServerKeyExchangeMessage.parse_header header = ok (m, L) ->
    exists h1 h2,
      XDAAHandshake_receive depth DataWriteResult h
      = ok (Some (DataRead 9), h1) /\
      XDAAHandshake_receive depth (DataReadResult header) h1
      = ok (Some (DataRead L), h2) /\
      L = m.(ServerKeyExchangeMessage.server_group_id_len) +
          m.(ServerKeyExchangeMessage.server_nonce_len) +
          m.(ServerKeyExchangeMessage.server_ecdhe_public_key_len) +
          m.(ServerKeyExchangeMessage.signature_len) /\
      (forall out h3,
         XDAAHandshake_receive depth (DataReadResult body) h2 = ok (out, h3) ->
         is_DataRead out = false) /\
      (forall (m' : ServerKeyExchangeMessage.t) (g : DAAGroup)
              (pub : secp256r1.public_key) (nonce : bytes)
              (peer : x25519.public_key),
         ServerKeyExchangeMessage.parse_body m body = ok m' ->
         h.(context).(protocol_version) = 0 ->
         h.(context).(daa_group) = Some g ->
         bytes_eqb m'.(ServerKeyExchangeMessage.server_group_id) g.(group_id)
         = true ->
         h.(context).(server_group_public_key) = Some pub ->
         h.(context).(client_nonce) = Some nonce ->
         exists outs h',
           feed depth
             [DataWriteResult; DataReadResult header; DataReadResult body;
              GroupSHA256VerifySignatureResult true;
              EphemeralDecodePublicKeyResult peer] h = ok (outs, h') /\
           outs = [Some (DataRead 9); Some (DataRead L);
                   Some (GroupSHA256VerifySignature pub
                           (m'.(ServerKeyExchangeMessage.server_ecdhe_public_key)
                            ++ nonce)
                           m'.(ServerKeyExchangeMessage.signature));
                   Some (EphemeralDecodePublicKey
                           m'.(ServerKeyExchangeMessage.server_ecdhe_public_key));
                   Some (EphemeralEncodePublicKey
                           h.(context).(client_ephemeral_private_key))] /\
           filter is_DataRead outs = [Some (DataRead 9); Some (DataRead L)] /\
           h'.(current) = Some state.send_client_key_exchange).
Proof.
  intros depth h header body m L Hd Hhello Hheader.
  destruct (hello_written depth h Hd Hhello) as (h1 & Hrun1 & Hawait1 & Hctx1).
  destruct (header_received depth h1 header m L) as (h2 & Hrun2 & Hawait2 & Hctx2);
    try assumption; try lia.
  destruct (ServerKeyExchange_parse_header_ok _ _ _ Hheader) as (_ & _ & HL).
  exists h1, h2. split; [exact Hrun1 | split; [exact Hrun2 | split; [exact HL | ]]].
  split.
  - intros out h3 Hrun3.
    apply (no_read_after_body depth h2 m body out h3); try assumption. lia.
  - intros m' g pub nonce peer Hbody Hpv Hg Hgid Hpub Hn.
    destruct (server_key_exchange_requests depth h header body nonce m m' L g pub peer)
      as (outs & h' & Hfeed & Houts & Hreads & _ & Hcur); try assumption.
    exists outs, h'. repeat split; assumption.
Qed.

(** C10.  In the synchronous transport, a read of size 0 raises the
    transport error: [recvexactly] returns the empty byte string without
    touching the socket, and [data_read] takes the empty string for a
    connection closed by the peer.  So a ServerKeyExchange whose header
    declares lengths that add up to 0 is never received: the handshake fails
    on the read of its body. *)
Theorem zero_size_read_raises_socket_error :
  forall (depth fuel : nat) (w : World) (header : bytes)
         (m : ServerKeyExchangeMessage.t),
    (3 <= depth)%nat -> (1 <= fuel)%nat ->
    recvexactly w.(sock) 0 = ok ([], w.(sock)) /\
    data_read (DataRead 0) w = raise socket_error /\
    (awaiting_header w.(handshake) ->
     ServerKeyExchangeMessage.parse_header header = ok (m, 0) ->
     mixed_receive fuel depth (DataReadResult header) w = raise socket_error).
Proof.
  intros depth fuel w header m Hd Hfuel.
  split; [reflexivity | split; [reflexivity | ]].
  intros (Hcur & c & Hc & Hclass & Hst & Hstep) Hheader.
  destruct depth as [ | [ | [ | depth]]]; try lia.
  destruct fuel as [ | fuel]; try lia.
  destruct w as [h e s]. cbn [handshake] in *.
  open_handshake h. open_child c. subst.
  run_engine. rewrite Hheader. run_engine. reflexivity.
Qed.

End HandshakeClaims.

(** ** The loop of [recvexactly] ends *)
Section RecvExactly.
Context {P : Platform}.
Local Open Scope Z_scope.

(** With as many turns as bytes still to read, the loop never stops for
    lack of turns. *)
Lemma recv_loop_total (fuel : nat) :
  forall (size flags pos : Z) (buffer : bytes) (s : socket),
    (forall n f s', recv_into n f s' <> raise OutOfFuel) ->
    (Z.to_nat (size - pos) <= fuel)%nat ->
    recv_loop fuel size flags pos buffer s <> raise OutOfFuel.
Proof.
  induction fuel as [ | fuel IH]; intros size flags pos buffer s Hrecv Hfuel.
  - cbn [recv_loop]. destruct (Z.ltb_spec pos size) as [Hlt | Hge].
    + lia.
    + discriminate.
  - cbn [recv_loop]. destruct (Z.ltb_spec pos size) as [Hlt | Hge].
    + destruct (recv_into (size - pos) flags s) as [e | [data s']] eqn:Hr.
      * cbn [bind_result]. intros Heq. injection Heq as ->.
        exact (Hrecv _ _ _ Hr).
      * cbn [bind_result].
        destruct (Z.eqb_spec (len (firstn (Z.to_nat (size - pos)) data)) 0)
          as [Hzero | Hread].
        -- discriminate.
        -- apply IH; [exact Hrecv | ].
           pose proof (len_nonneg (firstn (Z.to_nat (size - pos)) data)). lia.
    + discriminate.
Qed.

Lemma recvexactly_total (s : socket) (size : Z) :
  (forall n f s', recv_into n f s' <> raise OutOfFuel) ->
  recvexactly s size <> raise OutOfFuel.
Proof.
  intros Hrecv. unfold recvexactly. apply recv_loop_total; [exact Hrecv | ].
  rewrite Z.sub_0_r. apply le_n.
Qed.

End RecvExactly.

(** ** Key provisioning *)
Section Provisioning.
Local Open Scope Z_scope.

Variable A : Type.
Variable eqb : A -> A -> bool.
Hypothesis eqb_spec : forall x y, eqb x y = true <-> x = y.

Lemma eqb_same (x : A) : eqb x x = true.
Proof. apply eqb_spec. reflexivity. Qed.

Lemma eqb_other (x y : A) : x <> y -> eqb x y = false.
Proof.
  intros Hxy. destruct (eqb x y) eqn:E; [ | reflexivity].
  exfalso. apply Hxy. apply eqb_spec. exact E.
Qed.

Lemma split_nonempty (sep : A) (x : list A) : split eqb sep x <> [].
Proof.
  destruct x as [ | c x]; cbn [split]; [discriminate | ].
  destruct (eqb c sep); [discriminate | ].
  destruct (split eqb sep x); discriminate.
Qed.

(** Without a separator there is one piece. *)
Lemma split_without_sep (sep : A) (x : list A) :
  ~ In sep x -> split eqb sep x = [x].
Proof.
  induction x as [ | c x IH]; intros Hnot; [reflexivity | ].
  cbn [split]. rewrite eqb_other.
  - rewrite IH; [reflexivity | ]. intros Hin. apply Hnot. right. exact Hin.
  - intros Hc. apply Hnot. left. exact Hc.
Qed.

(** The first piece ends at the first separator. *)
Lemma split_at_first_sep (sep : A) (x y : list A) :
  ~ In sep x -> split eqb sep (x ++ sep :: y) = x :: split eqb sep y.
Proof.
  induction x as [ | c x IH]; intros Hnot.
  - cbn [app split]. rewrite eqb_same. reflexivity.
  - cbn [app split]. rewrite eqb_other.
    + rewrite IH; [reflexivity | ]. intros Hin. apply Hnot. right. exact Hin.
    + intros Hc. apply Hnot. left. exact Hc.
Qed.

(** A separator makes at least two pieces. *)
Lemma split_with_sep (sep : A) (x : list A) :
  In sep x -> exists p q r, split eqb sep x = p :: q :: r.
Proof.
  induction x as [ | c x IH]; intros Hin; [contradiction | ].
  cbn [split]. destruct (eqb c sep) eqn:E.
  - destruct (split eqb sep x) as [ | q r] eqn:Hs.
    + exfalso. exact (split_nonempty sep x Hs).
    + exists [], q, r. reflexivity.
  - destruct Hin as [Hc | Hin].
    + rewrite Hc, eqb_same in E. discriminate E.
    + destruct (IH Hin) as (p & q & r & ->). exists (c :: p), q, r. reflexivity.
Qed.

End Provisioning.

Section ProvisioningClaims.
Context {P : Platform}.
Local Open Scope Z_scope.

Lemma byte_eqb_spec (x y : byte) : byte_eqb x y = true <-> x = y.
Proof.
  unfold byte_eqb. split.
  - apply Byte.byte_dec_bl.
  - apply Byte.byte_dec_lb.
Qed.

(** C7, as stated: on a string with three commas the parser does not give
    the three fields cut at the first two commas, it fails. *)
Lemma from_csv_with_further_comma :
  Keys.from_csv (text "a,b,c,d") = raise TypeError /\
  Keys.from_csv (text "a,b,c,d")
  <> ok {| Keys.group_id := bstr "a";
           Keys.server_public_key := bstr "b";
           Keys.client_private_key := bstr "c,d" |}.
Proof.
  split; [reflexivity | ]. intros H. vm_compute in H. discriminate H.
Qed.

(** C7, amended.  The key-provisioning parser splits the string
    [<group_id>,<server_public_key_hex>,<client_private_key_hex>] at every
    comma: it gives exactly the three fields when what follows the second
    comma has no comma, and fails with a [TypeError] when it has one.
    [negotiate_secret] splits its key string the same way. *)
Theorem from_csv_splits_on_every_comma :
  forall (g p k : str) (gb pb kb : bytes),
    ~ In comma g -> ~ In comma p ->
    encode_ascii g = ok gb -> encode_ascii p = ok pb -> encode_ascii k = ok kb ->
    (~ In comma k ->
     Keys.from_csv (g ++ comma :: p ++ comma :: k)
     = ok {| Keys.group_id := gb;
             Keys.server_public_key := pb;
             Keys.client_private_key := kb |}) /\
    (In comma k ->
     Keys.from_csv (g ++ comma :: p ++ comma :: k) = raise TypeError) /\
    (~ In (byte.of_Z 44) gb -> ~ In (byte.of_Z 44) pb -> In (byte.of_Z 44) kb ->
     forall (fuel depth : nat) (s : socket) (e : Entropy),
       negotiate_secret fuel depth s
         (gb ++ byte.of_Z 44 :: pb ++ byte.of_Z 44 :: kb) e = raise TypeError).
Proof.
  intros g p k gb pb kb Hg Hp Egb Epb Ekb. split; [ | split].
  - intros Hk. unfold Keys.from_csv.
    rewrite (split_at_first_sep N N.eqb N.eqb_eq) by exact Hg.
    rewrite (split_at_first_sep N N.eqb N.eqb_eq) by exact Hp.
    rewrite (split_without_sep N N.eqb N.eqb_eq) by exact Hk.
    cbn [Keys.__init__]. rewrite Egb, Epb, Ekb. reflexivity.
  - intros Hk. unfold Keys.from_csv.
    rewrite (split_at_first_sep N N.eqb N.eqb_eq) by exact Hg.
    rewrite (split_at_first_sep N N.eqb N.eqb_eq) by exact Hp.
    destruct (split_with_sep N N.eqb N.eqb_eq comma k Hk) as (x & y & r & ->).
    reflexivity.
  - intros Hgb Hpb Hkb fuel depth s e. unfold negotiate_secret.
    rewrite (split_at_first_sep byte byte_eqb byte_eqb_spec) by exact Hgb.
    rewrite (split_at_first_sep byte byte_eqb byte_eqb_spec) by exact Hpb.
    destruct (split_with_sep byte byte_eqb byte_eqb_spec _ kb Hkb)
      as (x & y & r & ->).
    reflexivity.
Qed.

End ProvisioningClaims.

Lemma from_csv_splits_witness :
  Keys.from_csv (text "123456789,04DD,3FEA")
  = ok {| Keys.group_id := bstr "123456789";
          Keys.server_public_key := bstr "04DD";
          Keys.client_private_key := bstr "3FEA" |}.
Proof.
  refine (proj1 (from_csv_splits_on_every_comma (P := sample.platform)
                   (text "123456789") (text "04DD") (text "3FEA")
                   (bstr "123456789") (bstr "04DD") (bstr "3FEA")
                   _ _ _ _ _) _).
  - intros H. vm_compute in H. intuition discriminate.
  - intros H. vm_compute in H. intuition discriminate.
  - reflexivity.
  - reflexivity.
  - reflexivity.
  - intros H. vm_compute in H. intuition discriminate.
Defined.

(** ** Runs on the small platform *)
Section SampleRuns.
#[local] Existing Instance sample.platform.
Local Open Scope Z_scope.

(** The states used as examples below are states of a run. *)
Example hello_sent_is_reached :
  exists outs,
    feed 6 sample.initialisation (XDAAHandshake__init__ sample.group)
    = ok (outs, sample.hello_sent).
Proof. eexists. reflexivity. Qed.

Example header_wanted_is_reached :
  feed 6 [DataWriteResult] sample.hello_sent
  = ok ([Some (DataRead 9)], sample.header_wanted).
Proof. reflexivity. Qed.

Example body_wanted_is_reached :
  feed 6 [DataReadResult (slice (sample.wire sample.honest) 0 9)] sample.header_wanted
  = ok ([Some (DataRead 137)], sample.body_wanted sample.honest).
Proof. reflexivity. Qed.

(** With an honest server, [negotiate_secret] gets as far as the signature
    of the ClientKeyExchange and stops on the unbound name. *)
Example negotiate_secret_stops_with_NameError :
  negotiate_secret 20 6
    {| sample.to_read := sample.wire sample.honest; sample.written := [] |}
    (bstr "123456789,04DD,3FEA") 5
  = raise NameError.
Proof. reflexivity. Qed.

End SampleRuns.

Lemma two_reads_witness :
  exists h1 h2,
    XDAAHandshake_receive (P := sample.platform) 6 DataWriteResult sample.hello_sent
    = ok (Some (DataRead 9), h1) /\
    XDAAHandshake_receive (P := sample.platform) 6
      (DataReadResult (slice (sample.wire sample.honest) 0 9)) h1
    = ok (Some (DataRead 137), h2).
Proof.
  destruct (two_reads_per_server_key_exchange (P := sample.platform) 6
              sample.hello_sent
              (slice (sample.wire sample.honest) 0 9)
              (slice (sample.wire sample.honest) 9 146)
              (sample.parsed_header sample.honest) 137)
    as (h1 & h2 & Hrun1 & Hrun2 & _).
  - apply le_n.
  - split; [reflexivity | ]. eexists. repeat split; reflexivity.
  - reflexivity.
  - exists h1, h2. split; [exact Hrun1 | exact Hrun2].
Defined.

Lemma zero_size_read_witness :
  mixed_receive (P := sample.platform) 1 3
    (DataReadResult (repeat Byte.x00 9))
    (sample.world sample.header_wanted []) = raise socket_error.
Proof.
  refine (proj2 (proj2
    (zero_size_read_raises_socket_error (P := sample.platform) 3 1
       (sample.world sample.header_wanted []) (repeat Byte.x00 9)
       (ServerKeyExchangeMessage.__init__ [] [] [] []) _ _)) _ _).
  - apply le_n.
  - apply le_n.
  - split; [reflexivity | ]. eexists. repeat split; reflexivity.
  - reflexivity.
Defined.


(** * Further properties of the message codec *)
Section CodecInversion.
Local Open Scope Z_scope.

Lemma unpack_H_range (hi lo : byte) : 0 <= struct.unpack_H hi lo <= 65535.
Proof.
  unfold struct.unpack_H.
  pose proof (byte.unsigned_range hi) as Hhi.
  pose proof (byte.unsigned_range lo) as Hlo.
  change (2 ^ 8) with 256 in Hhi, Hlo. lia.
Qed.

(** Packing the number two bytes stand for gives the two bytes back. *)
Lemma pack_H_unpack_H (hi lo : byte) :
  struct.pack_H (struct.unpack_H hi lo) = [hi; lo].
Proof.
  unfold struct.pack_H, struct.unpack_H.
  pose proof (byte.unsigned_range hi) as Hhi.
  pose proof (byte.unsigned_range lo) as Hlo.
  change (2 ^ 8) with 256 in Hhi, Hlo.
  assert (Hq : (256 * byte.unsigned hi + byte.unsigned lo) / 256 = byte.unsigned hi).
  { rewrite Z.mul_comm, Z.div_add_l by lia.
    rewrite (Z.div_small (byte.unsigned lo)) by lia. lia. }
  rewrite Hq, byte.of_Z_unsigned. f_equal. f_equal.
  apply byte.unsigned_inj. rewrite byte.unsigned_of_Z. unfold byte.wrap.
  change (2 ^ 8) with 256.
  rewrite Z.add_comm, Z.mul_comm, Z.mod_add by lia.
  apply Z.mod_small. lia.
Qed.

Lemma version_byte_zero (c : byte) : ne (byte.unsigned c) 0 = false -> c = byte.of_Z 0.
Proof.
  unfold ne. intros H. apply negb_false_iff, Z.eqb_eq in H.
  apply byte.unsigned_inj. rewrite H. reflexivity.
Qed.

Lemma pack_s_fits (n : Z) (v : bytes) : len v = n -> struct.pack_s n v = v.
Proof. intros <-. apply pack_s_exact. Qed.

Lemma len_firstn {A} (n : Z) (x : list A) :
  0 <= n <= len x -> len (firstn (Z.to_nat n) x) = n.
Proof. intros Hn. unfold len in *. rewrite length_firstn. lia. Qed.

Lemma len_skipn {A} (n : Z) (x : list A) :
  0 <= n <= len x -> len (skipn (Z.to_nat n) x) = len x - n.
Proof. intros Hn. unfold len in *. rewrite length_skipn. lia. Qed.

Lemma firstn_to_len {A} (n : Z) (x : list A) :
  n = len x -> firstn (Z.to_nat n) x = x.
Proof. intros ->. apply firstn_len. Qed.

(** What [unpack] returns for byte-string codes: the buffer cut at the
    counts, which are not negative and add up to its size. *)
Lemma unpack_ss_inv (g n : Z) (body : bytes) (fields : list struct.value) :
  struct.unpack [struct.s g; struct.s n] body = ok fields ->
  0 <= g /\ 0 <= n /\ len body = g + n /\
  fields = [struct.Bytes (firstn (Z.to_nat g) body);
            struct.Bytes (skipn (Z.to_nat g) body)].
Proof.
  unfold struct.unpack, struct.calcsize. cbn [forallb struct.code_ok].
  destruct (Z.leb_spec 0 g) as [Hg | Hg]; [ | discriminate].
  destruct (Z.leb_spec 0 n) as [Hn | Hn]; [ | discriminate].
  cbn [andb bind_result fold_right struct.size_of].
  destruct (Z.eqb_spec (len body) (g + (n + 0))) as [Hlen | Hlen]; [ | discriminate].
  intros Hf. injection Hf as <-. cbn [struct.unpack_from].
  repeat split; try lia.
  do 2 f_equal. f_equal. apply firstn_to_len. rewrite len_skipn; lia.
Qed.

Lemma unpack_ssss_inv (g n p s : Z) (body : bytes) (fields : list struct.value) :
  struct.unpack [struct.s g; struct.s n; struct.s p; struct.s s] body = ok fields ->
  0 <= g /\ 0 <= n /\ 0 <= p /\ 0 <= s /\ len body = g + n + p + s /\
  fields = [struct.Bytes (firstn (Z.to_nat g) body);
            struct.Bytes (firstn (Z.to_nat n) (skipn (Z.to_nat g) body));
            struct.Bytes (firstn (Z.to_nat p)
                            (skipn (Z.to_nat n) (skipn (Z.to_nat g) body)));
            struct.Bytes (skipn (Z.to_nat p)
                            (skipn (Z.to_nat n) (skipn (Z.to_nat g) body)))].
Proof.
  unfold struct.unpack, struct.calcsize. cbn [forallb struct.code_ok].
  destruct (Z.leb_spec 0 g) as [Hg | Hg]; [ | discriminate].
  destruct (Z.leb_spec 0 n) as [Hn | Hn]; [ | discriminate].
  destruct (Z.leb_spec 0 p) as [Hp | Hp]; [ | discriminate].
  destruct (Z.leb_spec 0 s) as [Hs | Hs]; [ | discriminate].
  cbn [andb bind_result fold_right struct.size_of].
  destruct (Z.eqb_spec (len body) (g + (n + (p + (s + 0))))) as [Hlen | Hlen];
    [ | discriminate].
  intros Hf. injection Hf as <-. cbn [struct.unpack_from].
  repeat split; try lia.
  do 4 f_equal. f_equal. apply firstn_to_len.
  assert (H1 : len (skipn (Z.to_nat g) body) = len body - g)
    by (apply len_skipn; lia).
  assert (H2 : len (skipn (Z.to_nat n) (skipn (Z.to_nat g) body)) = len body - g - n)
    by (rewrite len_skipn; lia).
  rewrite len_skipn; lia.
Qed.

(** A header that parses is the version byte 0 followed by the lengths,
    two bytes each. *)
Lemma ClientHello_parse_header_inv (header : bytes)
  (m : ClientHelloMessage.t) (L : Z) :
  ClientHelloMessage.parse_header header = ok (m, L) ->
  exists g1 g0 n1 n0,
    header = [byte.of_Z 0; g1; g0; n1; n0] /\
    m = {| ClientHelloMessage.version := 0;
           ClientHelloMessage.client_group_id_len := struct.unpack_H g1 g0;
           ClientHelloMessage.client_nonce_len := struct.unpack_H n1 n0;
           ClientHelloMessage.client_group_id := [];
           ClientHelloMessage.client_nonce := [] |} /\
    L = struct.unpack_H g1 g0 + struct.unpack_H n1 n0.
Proof.
  intros Hparse.
  destruct (Z.eq_dec (len header) 5) as [Hlen | Hlen].
  2: { rewrite ClientHello_parse_header_wrong_size in Hparse by exact Hlen.
       discriminate Hparse. }
  destruct header as [ | c0 [ | g1 [ | g0 [ | n1 [ | n0 [ | c5 rest]]]]]];
    try discriminate Hlen.
  2: { exfalso. repeat rewrite len_cons in Hlen. pose proof (len_nonneg rest). lia. }
  unfold ClientHelloMessage.parse_header, struct.unpack in Hparse.
  simpl in Hparse.
  destruct (ne (byte.unsigned c0) 0) eqn:Hv; [discriminate Hparse | ].
  injection Hparse as <- <-. apply version_byte_zero in Hv. subst c0.
  exists g1, g0, n1, n0. repeat split.
Qed.

Lemma ClientKeyExchange_parse_header_inv (header : bytes)
  (m : ClientKeyExchangeMessage.t) (L : Z) :
  ClientKeyExchangeMessage.parse_header header = ok (m, L) ->
  exists p1 p0 s1 s0,
    header = [byte.of_Z 0; p1; p0; s1; s0] /\
    m = {| ClientKeyExchangeMessage.version := 0;
           ClientKeyExchangeMessage.client_ecdhe_public_key_len := struct.unpack_H p1 p0;
           ClientKeyExchangeMessage.signature_len := struct.unpack_H s1 s0;
           ClientKeyExchangeMessage.client_ecdhe_public_key := [];
           ClientKeyExchangeMessage.signature := [] |} /\
    L = struct.unpack_H p1 p0 + struct.unpack_H s1 s0.
Proof.
  intros Hparse.
  destruct (Z.eq_dec (len header) 5) as [Hlen | Hlen].
  2: { rewrite ClientKeyExchange_parse_header_wrong_size in Hparse by exact Hlen.
       discriminate Hparse. }
  destruct header as [ | c0 [ | p1 [ | p0 [ | s1 [ | s0 [ | c5 rest]]]]]];
    try discriminate Hlen.
  2: { exfalso. repeat rewrite len_cons in Hlen. pose proof (len_nonneg rest). lia. }
  unfold ClientKeyExchangeMessage.parse_header, struct.unpack in Hparse.
  simpl in Hparse.
  destruct (ne (byte.unsigned c0) 0) eqn:Hv; [discriminate Hparse | ].
  injection Hparse as <- <-. apply version_byte_zero in Hv. subst c0.
  exists p1, p0, s1, s0. repeat split.
Qed.

Lemma ServerKeyExchange_parse_header_inv (header : bytes)
  (m : ServerKeyExchangeMessage.t) (L : Z) :
  ServerKeyExchangeMessage.parse_header header = ok (m, L) ->
  exists g1 g0 n1 n0 p1 p0 s1 s0,
    header = [byte.of_Z 0; g1; g0; n1; n0; p1; p0; s1; s0] /\
    m = {| ServerKeyExchangeMessage.version := 0;
           ServerKeyExchangeMessage.server_group_id_len := struct.unpack_H g1 g0;
           ServerKeyExchangeMessage.server_nonce_len := struct.unpack_H n1 n0;
           ServerKeyExchangeMessage.server_ecdhe_public_key_len :=
             struct.unpack_H p1 p0;
           ServerKeyExchangeMessage.signature_len := struct.unpack_H s1 s0;
           ServerKeyExchangeMessage.server_group_id := [];
           ServerKeyExchangeMessage.server_nonce := [];
           ServerKeyExchangeMessage.server_ecdhe_public_key := [];
           ServerKeyExchangeMessage.signature := [] |} /\
    L = struct.unpack_H g1 g0 + struct.unpack_H n1 n0 +
        struct.unpack_H p1 p0 + struct.unpack_H s1 s0.
Proof.
  intros Hparse.
  destruct (Z.eq_dec (len header) 9) as [Hlen | Hlen].
  2: { rewrite ServerKeyExchange_parse_header_wrong_size in Hparse by exact Hlen.
       discriminate Hparse. }
  destruct header
    as [ | c0 [ | g1 [ | g0 [ | n1 [ | n0 [ | p1 [ | p0 [ | s1 [ | s0 [ | c9 rest]]]]]]]]]];
    try discriminate Hlen.
  2: { exfalso. repeat rewrite len_cons in Hlen. pose proof (len_nonneg rest). lia. }
  unfold ServerKeyExchangeMessage.parse_header, struct.unpack in Hparse.
  simpl in Hparse.
  destruct (ne (byte.unsigned c0) 0) eqn:Hv; [discriminate Hparse | ].
  injection Hparse as <- <-. apply version_byte_zero in Hv. subst c0.
  exists g1, g0, n1, n0, p1, p0, s1, s0. repeat split.
Qed.

(** The error of a failed [unpack] is [struct.error]. *)
Lemma unpack_cases (f : struct.format) (data : bytes) :
  struct.unpack f data = raise struct_error \/
  exists fields, struct.unpack f data = ok fields.
Proof.
  unfold struct.unpack. destruct (calcsize_cases f) as [Hf | Hf]; rewrite Hf.
  - left. reflexivity.
  - cbn [bind_result]. destruct (len data =? _); [right; eexists | left]; reflexivity.
Qed.

(** What a parsed body is: the lengths of the header, and the body cut at
    them. *)
Lemma ClientHello_parse_body_inv (m m' : ClientHelloMessage.t) (body : bytes) :
  ClientHelloMessage.parse_body m body = ok m' ->
  let g := m.(ClientHelloMessage.client_group_id_len) in
  let n := m.(ClientHelloMessage.client_nonce_len) in
  0 <= g /\ 0 <= n /\ len body = g + n /\
  m' = {| ClientHelloMessage.version := m.(ClientHelloMessage.version);
          ClientHelloMessage.client_group_id_len := g;
          ClientHelloMessage.client_nonce_len := n;
          ClientHelloMessage.client_group_id := firstn (Z.to_nat g) body;
          ClientHelloMessage.client_nonce := skipn (Z.to_nat g) body |}.
Proof.
  intros Hparse. cbv zeta. unfold ClientHelloMessage.parse_body in Hparse.
  destruct (unpack_cases
              [struct.s m.(ClientHelloMessage.client_group_id_len);
               struct.s m.(ClientHelloMessage.client_nonce_len)] body)
    as [Hu | [fields Hu]]; rewrite Hu in Hparse; [discriminate Hparse | ].
  destruct (unpack_ss_inv _ _ _ _ Hu) as (Hg & Hn & Hlen & ->).
  cbn [reraise bind_result] in Hparse. injection Hparse as <-.
  repeat split; assumption.
Qed.

Lemma ClientKeyExchange_parse_body_inv (m m' : ClientKeyExchangeMessage.t)
  (body : bytes) :
  ClientKeyExchangeMessage.parse_body m body = ok m' ->
  let p := m.(ClientKeyExchangeMessage.client_ecdhe_public_key_len) in
  let s := m.(ClientKeyExchangeMessage.signature_len) in
  0 <= p /\ 0 <= s /\ len body = p + s /\
  m' = {| ClientKeyExchangeMessage.version := m.(ClientKeyExchangeMessage.version);
          ClientKeyExchangeMessage.client_ecdhe_public_key_len := p;
          ClientKeyExchangeMessage.signature_len := s;
          ClientKeyExchangeMessage.client_ecdhe_public_key := firstn (Z.to_nat p) body;
          ClientKeyExchangeMessage.signature := skipn (Z.to_nat p) body |}.
Proof.
  intros Hparse. cbv zeta. unfold ClientKeyExchangeMessage.parse_body in Hparse.
  destruct (unpack_cases
              [struct.s m.(ClientKeyExchangeMessage.client_ecdhe_public_key_len);
               struct.s m.(ClientKeyExchangeMessage.signature_len)] body)
    as [Hu | [fields Hu]]; rewrite Hu in Hparse; [discriminate Hparse | ].
  destruct (unpack_ss_inv _ _ _ _ Hu) as (Hp & Hs & Hlen & ->).
  cbn [reraise bind_result] in Hparse. injection Hparse as <-.
  repeat split; assumption.
Qed.

Lemma ServerKeyExchange_parse_body_inv (m m' : ServerKeyExchangeMessage.t)
  (body : bytes) :
  ServerKeyExchangeMessage.parse_body m body = ok m' ->
  let g := m.(ServerKeyExchangeMessage.server_group_id_len) in
  let n := m.(ServerKeyExchangeMessage.server_nonce_len) in
  let p := m.(ServerKeyExchangeMessage.server_ecdhe_public_key_len) in
  let s := m.(ServerKeyExchangeMessage.signature_len) in
  0 <= g /\ 0 <= n /\ 0 <= p /\ 0 <= s /\ len body = g + n + p + s /\
  m' = {| ServerKeyExchangeMessage.version := m.(ServerKeyExchangeMessage.version);
          ServerKeyExchangeMessage.server_group_id_len := g;
          ServerKeyExchangeMessage.server_nonce_len := n;
          ServerKeyExchangeMessage.server_ecdhe_public_key_len := p;
          ServerKeyExchangeMessage.signature_len := s;
          ServerKeyExchangeMessage.server_group_id := firstn (Z.to_nat g) body;
          ServerKeyExchangeMessage.server_nonce :=
            firstn (Z.to_nat n) (skipn (Z.to_nat g) body);
          ServerKeyExchangeMessage.server_ecdhe_public_key :=
            firstn (Z.to_nat p) (skipn (Z.to_nat n) (skipn (Z.to_nat g) body));
          ServerKeyExchangeMessage.signature :=
            skipn (Z.to_nat p) (skipn (Z.to_nat n) (skipn (Z.to_nat g) body)) |}.
Proof.
  intros Hparse. cbv zeta. unfold ServerKeyExchangeMessage.parse_body in Hparse.
  destruct (unpack_cases
              [struct.s m.(ServerKeyExchangeMessage.server_group_id_len);
               struct.s m.(ServerKeyExchangeMessage.server_nonce_len);
               struct.s m.(ServerKeyExchangeMessage.server_ecdhe_public_key_len);
               struct.s m.(ServerKeyExchangeMessage.signature_len)] body)
    as [Hu | [fields Hu]]; rewrite Hu in Hparse; [discriminate Hparse | ].
  destruct (unpack_ssss_inv _ _ _ _ _ _ Hu) as (Hg & Hn & Hp & Hs & Hlen & ->).
  cbn [reraise bind_result] in Hparse. injection Hparse as <-.
  repeat split; assumption.
Qed.

End CodecInversion.

Section Decoding.
Local Open Scope Z_scope.

Lemma decode_message_inv (T : Type) `{MessageClass T} (data : bytes) (m : T) :
  decode_message T data = ok m ->
  exists m0 L,
    parse_header (slice data 0 header_len) = ok (m0, L) /\
    parse_body m0 (slice data header_len (header_len + L)) = ok m /\
    header_len + L = len data.
Proof.
  unfold decode_message.
  destruct (parse_header (slice data 0 header_len)) as [e | [m0 L]] eqn:Hh;
    [discriminate | ].
  cbn [bind_result].
  destruct (parse_body m0 (slice data header_len (header_len + L)))
    as [e | m1] eqn:Hb; [discriminate | ].
  cbn [bind_result].
  destruct (Z.eqb_spec (header_len + L) (len data)) as [Hlen | Hlen];
    [ | discriminate].
  intros Hm. injection Hm as <-. exists m0, L. repeat split; assumption.
Qed.

(** Data whose first [n] bytes are [header] and that has [L] more bytes. *)
Lemma split_at_header (data header : bytes) (n L : Z) :
  slice data 0 n = header -> len header = n -> n + L = len data ->
  data = header ++ slice data n (n + L) /\ len (slice data n (n + L)) = L.
Proof.
  unfold slice. intros Hh Hn HL. pose proof (len_nonneg header).
  rewrite Z.sub_0_r in Hh. change (Z.to_nat 0) with 0%nat in Hh.
  cbn [skipn] in Hh.
  assert (Hle : n <= len data).
  { rewrite <- Hn, <- Hh. unfold len. rewrite length_firstn. lia. }
  replace (n + L - n) with (len (skipn (Z.to_nat n) data))
    by (rewrite len_skipn; lia).
  rewrite firstn_len. split.
  - rewrite <- Hh. symmetry. apply firstn_skipn.
  - rewrite len_skipn; lia.
Qed.

(** The data that decodes as a client hello: the message built from two
    fields of at most 65535 bytes, and the data its header followed by the
    fields. *)
Lemma ClientHello_decode_inv (data : bytes) (m : ClientHelloMessage.t) :
  decode_message ClientHelloMessage.t data = ok m ->
  exists a b,
    len a <= 65535 /\ len b <= 65535 /\
    m = ClientHelloMessage.__init__ a b /\
    data = (byte.of_Z 0 :: struct.pack_H (len a) ++ struct.pack_H (len b)) ++ a ++ b.
Proof.
  intros Hd. apply decode_message_inv in Hd as (m0 & L & Hh & Hb & Hlen).
  cbn [header_len parse_header parse_body ClientHello_class] in Hh, Hb, Hlen.
  unfold ClientHelloMessage.header_len in *.
  apply ClientHello_parse_header_inv in Hh as (g1 & g0 & n1 & n0 & Hh & -> & ->).
  apply ClientHello_parse_body_inv in Hb.
  cbn [ClientHelloMessage.client_group_id_len ClientHelloMessage.client_nonce_len
       ClientHelloMessage.version] in Hb.
  destruct Hb as (Hg & Hn & Hbody & ->).
  destruct (split_at_header data _ 5 _ Hh eq_refl Hlen) as (Hdata & _).
  set (body := slice data 5 (5 + (struct.unpack_H g1 g0 + struct.unpack_H n1 n0))) in *.
  pose proof (unpack_H_range g1 g0). pose proof (unpack_H_range n1 n0).
  assert (Ha : len (firstn (Z.to_nat (struct.unpack_H g1 g0)) body)
               = struct.unpack_H g1 g0) by (apply len_firstn; lia).
  assert (Hb : len (skipn (Z.to_nat (struct.unpack_H g1 g0)) body)
               = struct.unpack_H n1 n0) by (rewrite len_skipn; lia).
  exists (firstn (Z.to_nat (struct.unpack_H g1 g0)) body),
         (skipn (Z.to_nat (struct.unpack_H g1 g0)) body).
  split; [lia | split; [lia | split]].
  - unfold ClientHelloMessage.__init__. rewrite Ha, Hb. reflexivity.
  - rewrite Ha, Hb, !pack_H_unpack_H, firstn_skipn. exact Hdata.
Qed.

Lemma ClientKeyExchange_decode_inv (data : bytes) (m : ClientKeyExchangeMessage.t) :
  decode_message ClientKeyExchangeMessage.t data = ok m ->
  exists a b,
    len a <= 65535 /\ len b <= 65535 /\
    m = ClientKeyExchangeMessage.__init__ a b /\
    data = (byte.of_Z 0 :: struct.pack_H (len a) ++ struct.pack_H (len b)) ++ a ++ b.
Proof.
  intros Hd. apply decode_message_inv in Hd as (m0 & L & Hh & Hb & Hlen).
  cbn [header_len parse_header parse_body ClientKeyExchange_class] in Hh, Hb, Hlen.
  unfold ClientKeyExchangeMessage.header_len in *.
  apply ClientKeyExchange_parse_header_inv in Hh as (g1 & g0 & n1 & n0 & Hh & -> & ->).
  apply ClientKeyExchange_parse_body_inv in Hb.
  cbn [ClientKeyExchangeMessage.client_ecdhe_public_key_len
       ClientKeyExchangeMessage.signature_len
       ClientKeyExchangeMessage.version] in Hb.
  destruct Hb as (Hg & Hn & Hbody & ->).
  destruct (split_at_header data _ 5 _ Hh eq_refl Hlen) as (Hdata & _).
  set (body := slice data 5 (5 + (struct.unpack_H g1 g0 + struct.unpack_H n1 n0))) in *.
  pose proof (unpack_H_range g1 g0). pose proof (unpack_H_range n1 n0).
  assert (Ha : len (firstn (Z.to_nat (struct.unpack_H g1 g0)) body)
               = struct.unpack_H g1 g0) by (apply len_firstn; lia).
  assert (Hb : len (skipn (Z.to_nat (struct.unpack_H g1 g0)) body)
               = struct.unpack_H n1 n0) by (rewrite len_skipn; lia).
  exists (firstn (Z.to_nat (struct.unpack_H g1 g0)) body),
         (skipn (Z.to_nat (struct.unpack_H g1 g0)) body).
  split; [lia | split; [lia | split]].
  - unfold ClientKeyExchangeMessage.__init__. rewrite Ha, Hb. reflexivity.
  - rewrite Ha, Hb, !pack_H_unpack_H, firstn_skipn. exact Hdata.
Qed.

Lemma ServerKeyExchange_decode_inv (data : bytes) (m : ServerKeyExchangeMessage.t) :
  decode_message ServerKeyExchangeMessage.t data = ok m ->
  exists a b c d,
    len a <= 65535 /\ len b <= 65535 /\ len c <= 65535 /\ len d <= 65535 /\
    m = ServerKeyExchangeMessage.__init__ a b c d /\
    data = (byte.of_Z 0 :: struct.pack_H (len a) ++ struct.pack_H (len b) ++
            struct.pack_H (len c) ++ struct.pack_H (len d)) ++ a ++ b ++ c ++ d.
Proof.
  intros Hd. apply decode_message_inv in Hd as (m0 & L & Hh & Hb & Hlen).
  cbn [header_len parse_header parse_body ServerKeyExchange_class] in Hh, Hb, Hlen.
  unfold ServerKeyExchangeMessage.header_len in *.
  apply ServerKeyExchange_parse_header_inv in Hh
    as (g1 & g0 & n1 & n0 & p1 & p0 & s1 & s0 & Hh & -> & ->).
  apply ServerKeyExchange_parse_body_inv in Hb.
  cbn [ServerKeyExchangeMessage.server_group_id_len
       ServerKeyExchangeMessage.server_nonce_len
       ServerKeyExchangeMessage.server_ecdhe_public_key_len
       ServerKeyExchangeMessage.signature_len
       ServerKeyExchangeMessage.version] in Hb.
  destruct Hb as (Hg & Hn & Hp & Hs & Hbody & ->).
  destruct (split_at_header data _ 9 _ Hh eq_refl Hlen) as (Hdata & _).
  set (body := slice data 9 _) in *.
  set (g := struct.unpack_H g1 g0) in *. set (n := struct.unpack_H n1 n0) in *.
  set (p := struct.unpack_H p1 p0) in *. set (s := struct.unpack_H s1 s0) in *.
  pose proof (unpack_H_range g1 g0). pose proof (unpack_H_range n1 n0).
  pose proof (unpack_H_range p1 p0). pose proof (unpack_H_range s1 s0).
  assert (Hk1 : len (skipn (Z.to_nat g) body) = len body - g)
    by (apply len_skipn; lia).
  assert (Hk2 : len (skipn (Z.to_nat n) (skipn (Z.to_nat g) body))
                = len body - g - n)
    by (rewrite len_skipn; lia).
  assert (Ha : len (firstn (Z.to_nat g) body) = g) by (apply len_firstn; lia).
  assert (Hb : len (firstn (Z.to_nat n) (skipn (Z.to_nat g) body)) = n)
    by (apply len_firstn; lia).
  assert (Hc : len (firstn (Z.to_nat p)
                      (skipn (Z.to_nat n) (skipn (Z.to_nat g) body))) = p)
    by (apply len_firstn; lia).
  assert (Hd : len (skipn (Z.to_nat p)
                      (skipn (Z.to_nat n) (skipn (Z.to_nat g) body))) = s)
    by (rewrite len_skipn; lia).
  exists (firstn (Z.to_nat g) body),
         (firstn (Z.to_nat n) (skipn (Z.to_nat g) body)),
         (firstn (Z.to_nat p) (skipn (Z.to_nat n) (skipn (Z.to_nat g) body))),
         (skipn (Z.to_nat p) (skipn (Z.to_nat n) (skipn (Z.to_nat g) body))).
  split; [lia | split; [lia | split; [lia | split; [lia | split]]]].
  - unfold ServerKeyExchangeMessage.__init__. rewrite Ha, Hb, Hc, Hd. reflexivity.
  - rewrite Ha, Hb, Hc, Hd. subst g n p s.
    rewrite !pack_H_unpack_H, !firstn_skipn. exact Hdata.
Qed.

(** X1. Whatever [decode_message] accepts, [serialize] turns back into
    the very same bytes: for each of the three message types, if the data
    decodes to a message, serializing the message succeeds and returns the
    data. *)
Theorem serialize_inverts_decode_message :
  (forall data m, decode_message ClientHelloMessage.t data = ok m ->
                  ClientHelloMessage.serialize m = ok data) /\
  (forall data m, decode_message ServerKeyExchangeMessage.t data = ok m ->
                  ServerKeyExchangeMessage.serialize m = ok data) /\
  (forall data m, decode_message ClientKeyExchangeMessage.t data = ok m ->
                  ClientKeyExchangeMessage.serialize m = ok data).
Proof.
  split; [ | split]; intros data m Hd.
  - apply ClientHello_decode_inv in Hd as (a & b & Ha & Hb & -> & ->).
    apply ClientHello_serialize_ok; assumption.
  - apply ServerKeyExchange_decode_inv in Hd
      as (a & b & c & d & Ha & Hb & Hc & Hd & -> & ->).
    apply (ServerKeyExchange_serialize_ok 0 a b c d); try assumption. lia.
  - apply ClientKeyExchange_decode_inv in Hd as (a & b & Ha & Hb & -> & ->).
    apply ClientKeyExchange_serialize_ok; assumption.
Qed.

(** X2. A decoded message is consistent: its version is 0, every length
    attribute is the length of the field it belongs to and is at most
    65535, and the data is exactly the header plus the fields (5 or 9 bytes
    more than the fields together). *)
Theorem decoded_message_is_consistent :
  (forall data m, decode_message ClientHelloMessage.t data = ok m ->
     m = ClientHelloMessage.__init__ m.(ClientHelloMessage.client_group_id)
                                     m.(ClientHelloMessage.client_nonce) /\
     len m.(ClientHelloMessage.client_group_id) <= 65535 /\
     len m.(ClientHelloMessage.client_nonce) <= 65535 /\
     len data = 5 + len m.(ClientHelloMessage.client_group_id)
                  + len m.(ClientHelloMessage.client_nonce)) /\
  (forall data m, decode_message ServerKeyExchangeMessage.t data = ok m ->
     m = ServerKeyExchangeMessage.__init__
           m.(ServerKeyExchangeMessage.server_group_id)
           m.(ServerKeyExchangeMessage.server_nonce)
           m.(ServerKeyExchangeMessage.server_ecdhe_public_key)
           m.(ServerKeyExchangeMessage.signature) /\
     len m.(ServerKeyExchangeMessage.server_group_id) <= 65535 /\
     len m.(ServerKeyExchangeMessage.server_nonce) <= 65535 /\
     len m.(ServerKeyExchangeMessage.server_ecdhe_public_key) <= 65535 /\
     len m.(ServerKeyExchangeMessage.signature) <= 65535 /\
     len data = 9 + len m.(ServerKeyExchangeMessage.server_group_id)
                  + len m.(ServerKeyExchangeMessage.server_nonce)
                  + len m.(ServerKeyExchangeMessage.server_ecdhe_public_key)
                  + len m.(ServerKeyExchangeMessage.signature)) /\
  (forall data m, decode_message ClientKeyExchangeMessage.t data = ok m ->
     m = ClientKeyExchangeMessage.__init__
           m.(ClientKeyExchangeMessage.client_ecdhe_public_key)
           m.(ClientKeyExchangeMessage.signature) /\
     len m.(ClientKeyExchangeMessage.client_ecdhe_public_key) <= 65535 /\
     len m.(ClientKeyExchangeMessage.signature) <= 65535 /\
     len data = 5 + len m.(ClientKeyExchangeMessage.client_ecdhe_public_key)
                  + len m.(ClientKeyExchangeMessage.signature)).
Proof.
  split; [ | split]; intros data m Hd.
  - apply ClientHello_decode_inv in Hd as (a & b & Ha & Hb & -> & ->).
    cbn [ClientHelloMessage.__init__ ClientHelloMessage.client_group_id
         ClientHelloMessage.client_nonce].
    repeat split; try assumption.
    rewrite len_app, len_cons, !len_app. unfold struct.pack_H.
    rewrite !len_cons. change (len (@nil byte)) with 0. lia.
  - apply ServerKeyExchange_decode_inv in Hd
      as (a & b & c & d & Ha & Hb & Hc & Hd & -> & ->).
    cbn [ServerKeyExchangeMessage.__init__
         ServerKeyExchangeMessage.server_group_id
         ServerKeyExchangeMessage.server_nonce
         ServerKeyExchangeMessage.server_ecdhe_public_key
         ServerKeyExchangeMessage.signature].
    repeat split; try assumption.
    rewrite len_app, len_cons, !len_app. unfold struct.pack_H.
    rewrite !len_cons. change (len (@nil byte)) with 0. lia.
  - apply ClientKeyExchange_decode_inv in Hd as (a & b & Ha & Hb & -> & ->).
    cbn [ClientKeyExchangeMessage.__init__
         ClientKeyExchangeMessage.client_ecdhe_public_key
         ClientKeyExchangeMessage.signature].
    repeat split; try assumption.
    rewrite len_app, len_cons, !len_app. unfold struct.pack_H.
    rewrite !len_cons. change (len (@nil byte)) with 0. lia.
Qed.

End Decoding.

Section MoreCodec.
Local Open Scope Z_scope.

(** X3.  [parse_header] accepts exactly the headers of the fixed length
    whose first byte is 0.  What it returns then holds the lengths, each the
    big-endian number of its two bytes, no field yet, and the sum of the
    lengths as the size of the body. *)
Theorem parse_header_accepts_exactly :
  (forall header m L,
     ClientHelloMessage.parse_header header = ok (m, L) <->
     exists g1 g0 n1 n0,
       header = [Byte.x00; g1; g0; n1; n0] /\
       m = {| ClientHelloMessage.version := 0;
              ClientHelloMessage.client_group_id_len := struct.unpack_H g1 g0;
              ClientHelloMessage.client_nonce_len := struct.unpack_H n1 n0;
              ClientHelloMessage.client_group_id := [];
              ClientHelloMessage.client_nonce := [] |} /\
       L = struct.unpack_H g1 g0 + struct.unpack_H n1 n0) /\
  (forall header m L,
     ServerKeyExchangeMessage.parse_header header = ok (m, L) <->
     exists g1 g0 n1 n0 p1 p0 s1 s0,
       header = [Byte.x00; g1; g0; n1; n0; p1; p0; s1; s0] /\
       m = {| ServerKeyExchangeMessage.version := 0;
              ServerKeyExchangeMessage.server_group_id_len := struct.unpack_H g1 g0;
              ServerKeyExchangeMessage.server_nonce_len := struct.unpack_H n1 n0;
              ServerKeyExchangeMessage.server_ecdhe_public_key_len :=
                struct.unpack_H p1 p0;
              ServerKeyExchangeMessage.signature_len := struct.unpack_H s1 s0;
              ServerKeyExchangeMessage.server_group_id := [];
              ServerKeyExchangeMessage.server_nonce := [];
              ServerKeyExchangeMessage.server_ecdhe_public_key := [];
              ServerKeyExchangeMessage.signature := [] |} /\
       L = struct.unpack_H g1 g0 + struct.unpack_H n1 n0 +
           struct.unpack_H p1 p0 + struct.unpack_H s1 s0) /\
  (forall header m L,
     ClientKeyExchangeMessage.parse_header header = ok (m, L) <->
     exists p1 p0 s1 s0,
       header = [Byte.x00; p1; p0; s1; s0] /\
       m = {| ClientKeyExchangeMessage.version := 0;
              ClientKeyExchangeMessage.client_ecdhe_public_key_len :=
                struct.unpack_H p1 p0;
              ClientKeyExchangeMessage.signature_len := struct.unpack_H s1 s0;
              ClientKeyExchangeMessage.client_ecdhe_public_key := [];
              ClientKeyExchangeMessage.signature := [] |} /\
       L = struct.unpack_H p1 p0 + struct.unpack_H s1 s0).
Proof.
  split; [ | split]; intros header m L; split.
  - apply ClientHello_parse_header_inv.
  - intros (g1 & g0 & n1 & n0 & -> & -> & ->). reflexivity.
  - apply ServerKeyExchange_parse_header_inv.
  - intros (g1 & g0 & n1 & n0 & p1 & p0 & s1 & s0 & -> & -> & ->). reflexivity.
  - apply ClientKeyExchange_parse_header_inv.
  - intros (p1 & p0 & s1 & s0 & -> & -> & ->). reflexivity.
Qed.

(** X4.  No two kinds of events have the same number, across the two
    enumerations: the comparison [event.kind == K] of the states holds for
    the events of kind [K] and for no other. *)
Theorem kind_eqb_spec :
  forall k1 k2 : Events, kind_eqb k1 k2 = true <-> k1 = k2.
Proof.
  intros k1 k2. split.
  - destruct k1, k2; intros H; try reflexivity; discriminate H.
  - intros ->. destruct k2; reflexivity.
Qed.

End MoreCodec.

Section EngineExtras.
Context {P : Platform}.
Local Open Scope Z_scope.

(** One turn of the loop of [SyncCrypto.receive]. *)
Lemma SyncCrypto_receive_turn (fuel depth : nat) (event : Event) (w : World) :
  SyncCrypto_receive (S fuel) depth event w
  = match XDAAHandshake_receive depth event w.(handshake) with
    | inl e => inl e
    | inr (None, _) => raise AttributeError
    | inr (Some out, h') =>
        let w1 := {| handshake := h'; entropy := w.(entropy); sock := w.(sock) |} in
        match _sync_crypto_dispatch (kind out) with
        | Some handler =>
            match handler out w1 with
            | inl e => inl e
            | inr (result, w2) => SyncCrypto_receive fuel depth result w2
            end
        | None => ok (Some out, w1)
        end
    end.
Proof.
  cbn [SyncCrypto_receive]. unfold bind at 1. unfold on_handshake at 1.
  destruct (XDAAHandshake_receive depth event w.(handshake)) as [e | [[out | ] h']];
    try reflexivity.
  cbv zeta. destruct (_sync_crypto_dispatch (kind out)) as [handler | ];
    reflexivity.
Qed.

(** One turn of the loop of [SyncSocket.receive]. *)
Lemma SyncSocket_receive_turn (super_receive : Event -> M World (option Event))
  (fuel : nat) (event : Event) (w : World) :
  SyncSocket_receive super_receive (S fuel) event w
  = match super_receive event w with
    | inl e => inl e
    | inr (None, _) => raise AttributeError
    | inr (Some out, w1) =>
        match _sync_socket_dispatch (kind out) with
        | Some handler =>
            match handler out w1 with
            | inl e => inl e
            | inr (result, w2) => SyncSocket_receive super_receive fuel result w2
            end
        | None => ok (Some out, w1)
        end
    end.
Proof.
  cbn [SyncSocket_receive]. unfold bind at 1.
  destruct (super_receive event w) as [e | [[out | ] w1]]; try reflexivity.
  destruct (_sync_socket_dispatch (kind out)) as [handler | ]; reflexivity.
Qed.

(** An exception of the plain handshake goes through both mixins. *)
Lemma mixed_receive_raises (fuel depth : nat) (event : Event) (w : World) (e : exn) :
  (1 <= fuel)%nat ->
  XDAAHandshake_receive depth event w.(handshake) = raise e ->
  mixed_receive fuel depth event w = raise e.
Proof.
  intros Hfuel Hraise. destruct fuel as [ | fuel]; [lia | ].
  unfold mixed_receive. rewrite SyncSocket_receive_turn, SyncCrypto_receive_turn.
  rewrite Hraise. reflexivity.
Qed.

(** An event that no backend serves goes through both mixins. *)
Lemma mixed_receive_returns (fuel depth : nat) (event out : Event) (w : World)
  (h' : XDAAHandshake) :
  (1 <= fuel)%nat ->
  XDAAHandshake_receive depth event w.(handshake) = ok (Some out, h') ->
  _sync_crypto_dispatch (kind out) = None ->
  _sync_socket_dispatch (kind out) = None ->
  mixed_receive fuel depth event w
  = ok (Some out, {| handshake := h'; entropy := w.(entropy); sock := w.(sock) |}).
Proof.
  intros Hfuel Hrun Hc Hs. destruct fuel as [ | fuel]; [lia | ].
  unfold mixed_receive. rewrite SyncSocket_receive_turn, SyncCrypto_receive_turn.
  rewrite Hrun. cbv zeta. rewrite Hc, Hs. reflexivity.
Qed.

(** X5.  Whatever arrives in answer to the read of the header, the engine
    either raises or asks for one more read, of at least 0 and at most
    4 * 65535 = 262140 bytes; it does so for headers of 9 bytes only. *)
Theorem body_read_size_is_bounded :
  forall (depth : nat) (h h' : XDAAHandshake) (header : bytes) (out : option Event),
    (3 <= depth)%nat ->
    awaiting_header h ->
    XDAAHandshake_receive depth (DataReadResult header) h = ok (out, h') ->
    exists L, out = Some (DataRead L) /\ 0 <= L <= 262140 /\ len header = 9.
Proof.
  intros depth h h' header out Hd (Hcur & c & Hc & Hclass & Hst & Hstep).
  destruct depth as [ | [ | [ | depth]]]; try lia.
  open_handshake h. open_child c. subst.
  run_engine.
  destruct (ServerKeyExchangeMessage.parse_header header) as [e | [m L]] eqn:Hh;
    [discriminate | ].
  run_engine. intros Hrun. injection Hrun as <- _.
  apply ServerKeyExchange_parse_header_inv in Hh
    as (g1 & g0 & n1 & n0 & p1 & p0 & s1 & s0 & -> & _ & ->).
  pose proof (unpack_H_range g1 g0). pose proof (unpack_H_range n1 n0).
  pose proof (unpack_H_range p1 p0). pose proof (unpack_H_range s1 s0).
  eexists. split; [reflexivity | split; [lia | reflexivity]].
Qed.

(** X6.  A message of another group ends the handshake: when the body of
    the ServerKeyExchange parses and its group id is not the client's, the
    engine raises [IncorrectGroupError], and so does the handshake with the
    synchronous backends, before any signature is checked. *)
Theorem foreign_group_raises_IncorrectGroupError :
  forall (depth fuel : nat) (w : World) (m m' : ServerKeyExchangeMessage.t)
         (body : bytes) (g : DAAGroup),
    (4 <= depth)%nat -> (1 <= fuel)%nat ->
    awaiting_body w.(handshake) m ->
    ServerKeyExchangeMessage.parse_body m body = ok m' ->
    m'.(ServerKeyExchangeMessage.version)
      = w.(handshake).(context).(protocol_version) ->
    w.(handshake).(context).(daa_group) = Some g ->
    m'.(ServerKeyExchangeMessage.server_group_id) <> g.(group_id) ->
    XDAAHandshake_receive depth (DataReadResult body) w.(handshake)
    = raise IncorrectGroupError /\
    mixed_receive fuel depth (DataReadResult body) w = raise IncorrectGroupError.
Proof.
  intros depth fuel w m m' body g Hd Hfuel
    (Hcur & c & Hc & Hclass & Hst & Hstep & Hmsg) Hbody Hv Hg Hgid.
  assert (Hplain : XDAAHandshake_receive depth (DataReadResult body) w.(handshake)
                   = raise IncorrectGroupError).
  { destruct depth as [ | [ | [ | [ | depth]]]]; try lia.
    destruct w as [h e s]. cbn [handshake] in *.
    destruct g as [gid spk cpk]. cbn [group_id] in Hgid.
    apply bytes_eqb_neq in Hgid.
    open_handshake h. open_child c. open_context ctx. subst.
    run_engine. rewrite Hbody. run_engine. rewrite ne_refl, Hgid. reflexivity. }
  split; [exact Hplain | ].
  apply mixed_receive_raises; assumption.
Qed.

(** X7.  After a signature check that succeeded, the engine stores the
    server's nonce of the message in the context and asks for the decoding
    of the server's ephemeral key; given the decoded key it stores it too,
    leaves [ReceiveServerKeyExchange] for [SendClientKeyExchange] and asks
    for the encoding of the client's own ephemeral public key.  Nothing
    else of the context changes. *)
Theorem verified_message_is_stored :
  forall (depth : nat) (h : XDAAHandshake) (m : ServerKeyExchangeMessage.t)
         (peer : x25519.public_key),
    (6 <= depth)%nat ->
    awaiting_verification h m ->
    exists h1 h2,
      XDAAHandshake_receive depth (GroupSHA256VerifySignatureResult true) h
      = ok (Some (EphemeralDecodePublicKey
                    m.(ServerKeyExchangeMessage.server_ecdhe_public_key)), h1) /\
      h1.(context)
      = set_server_nonce m.(ServerKeyExchangeMessage.server_nonce) h.(context) /\
      XDAAHandshake_receive depth (EphemeralDecodePublicKeyResult peer) h1
      = ok (Some (EphemeralEncodePublicKey
                    h.(context).(client_ephemeral_private_key)), h2) /\
      h2.(context)
      = set_server_ephemeral_public_key (Some peer)
          (set_server_nonce m.(ServerKeyExchangeMessage.server_nonce) h.(context)) /\
      awaiting_encoded_key h2.
Proof.
  intros depth h m peer Hd (Hcur & c & Hc & Hclass & Hst & Hstep & Hmsg).
  destruct depth as [ | [ | [ | [ | [ | [ | depth]]]]]]; try lia.
  open_handshake h. open_child c. open_context ctx. subst.
  eexists. eexists. split; [ | split; [ | split; [ | split]]].
  - run_engine. reflexivity.
  - reflexivity.
  - run_engine. reflexivity.
  - reflexivity.
  - split; [reflexivity | ]. eexists. repeat split; reflexivity.
Qed.

(** X8.  [SendClientKeyExchange] never gets to sign: whatever encoding of
    the client's key it is given, the engine raises [NameError] when the
    context holds the server's nonce, and [TypeError] when it holds none.
    No [GroupSHA256SignData] request is ever made. *)
Theorem client_key_exchange_is_never_signed :
  forall (depth : nat) (h : XDAAHandshake) (encoded : bytes),
    (3 <= depth)%nat ->
    awaiting_encoded_key h ->
    XDAAHandshake_receive depth (EphemeralEncodePublicKeyResult encoded) h
    = raise (match h.(context).(server_nonce) with
             | Some _ => NameError
             | None => TypeError
             end).
Proof.
  intros depth h encoded Hd (Hcur & c & Hc & Hclass & Hst & Hstep).
  destruct depth as [ | [ | [ | depth]]]; try lia.
  open_handshake h. open_child c. open_context ctx. subst.
  run_engine.
  match goal with |- context [match ?n with Some _ => _ | None => _ end] =>
    is_var n; destruct n as [nonce | ] end.
  - run_engine. rewrite client_serialize_for_signature. reflexivity.
  - reflexivity.
Qed.

(** X9.  A handshake in its final state answers [Entry] with [Terminated]
    and rejects every other event with [TerminatedError], with or without
    the synchronous backends; its state does not change. *)
Theorem terminated_handshake_rejects_events :
  forall (depth fuel : nat) (w : World) (event : Event),
    (2 <= depth)%nat -> (1 <= fuel)%nat ->
    terminated w.(handshake) ->
    (kind event = ENTRY ->
     XDAAHandshake_receive depth event w.(handshake)
     = ok (Some Terminated, w.(handshake)) /\
     mixed_receive fuel depth event w = ok (Some Terminated, w)) /\
    (kind event <> ENTRY ->
     XDAAHandshake_receive depth event w.(handshake) = raise TerminatedError /\
     mixed_receive fuel depth event w = raise TerminatedError).
Proof.
  intros depth fuel w event Hd Hfuel (Hcur & Hc).
  split; intros Hk.
  - assert (Hplain : XDAAHandshake_receive depth event w.(handshake)
                     = ok (Some Terminated, w.(handshake))).
    { destruct depth as [ | [ | depth]]; try lia.
      destruct w as [h e s]. cbn [handshake] in *.
      open_handshake h. subst.
      destruct event; try discriminate Hk. reflexivity. }
    split; [exact Hplain | ].
    rewrite (mixed_receive_returns fuel depth event Terminated w w.(handshake));
      try assumption; try reflexivity.
    destruct w; reflexivity.
  - assert (Hplain : XDAAHandshake_receive depth event w.(handshake)
                     = raise TerminatedError).
    { destruct depth as [ | [ | depth]]; try lia.
      destruct w as [h e s]. cbn [handshake] in *.
      open_handshake h. subst.
      destruct event; try (exfalso; apply Hk; reflexivity); reflexivity. }
    split; [exact Hplain | ].
    apply mixed_receive_raises; assumption.
Qed.

End EngineExtras.

Section EngineRuns.
Context {P : Platform}.
Local Open Scope Z_scope.

(** X10.  From a new handshake, [InitContext] asks in this order for the
    decoding of the group's public key, the decoding of the client's private
    key, a nonce of 32 bytes and an ephemeral key, and stores each answer
    in the context.  [SendClientHello] then asks for the write of the
    ClientHello made of the group id and of the nonce it was given; when
    one of the two is longer than 65535 bytes the handshake raises
    [struct.error] instead. *)
Theorem initialisation_ends_with_client_hello :
  forall (depth : nat) (g : DAAGroup) (pub : secp256r1.public_key)
         (priv : secp256r1.private_key) (nonce : bytes) (key : x25519.key_pair),
    (6 <= depth)%nat ->
    exists h4,
      feed depth
        [Start; GroupDecodePublicKeyResult pub; GroupDecodePrivateKeyResult priv;
         CreateNonceResult nonce] (XDAAHandshake__init__ g)
      = ok ([Some (GroupDecodePublicKey g.(server_public_key));
             Some (GroupDecodePrivateKey g.(client_private_key));
             Some (CreateNonce 32);
             Some EphemeralCreateKey], h4) /\
      (len g.(group_id) <= 65535 -> len nonce <= 65535 ->
       exists hello h5,
         XDAAHandshake_receive depth (EphemeralCreateKeyResult key) h4
         = ok (Some (DataWrite hello), h5) /\
         ClientHelloMessage.serialize
           (ClientHelloMessage.__init__ g.(group_id) nonce) = ok hello /\
         awaiting_hello_written h5 /\
         h5.(context)
         = {| protocol_version := 0;
              daa_group := Some g;
              client_nonce := Some nonce;
              client_ephemeral_private_key := Some key;
              server_nonce := None;
              server_ephemeral_public_key := None;
              server_group_public_key := Some pub;
              client_group_private_key := Some priv;
              shared_secret := None |}) /\
      (65535 < len g.(group_id) \/ 65535 < len nonce ->
       XDAAHandshake_receive depth (EphemeralCreateKeyResult key) h4
       = raise struct_error).
Proof.
  intros depth g pub priv nonce key Hd.
  destruct depth as [ | [ | [ | [ | [ | [ | depth]]]]]]; try lia.
  destruct g as [gid spk cpk]. cbn [group_id server_public_key client_private_key].
  unfold XDAAHandshake__init__, XDAAContext__init__.
  eexists. split; [ | split].
  - run_engine. reflexivity.
  - intros Hg Hn. eexists. eexists. split; [ | split; [ | split]].
    + run_engine. rewrite ClientHello_serialize_ok by assumption. reflexivity.
    + apply ClientHello_serialize_ok; assumption.
    + split; [reflexivity | ]. eexists. repeat split; reflexivity.
    + reflexivity.
  - intros Hlong. run_engine. rewrite ClientHello_serialize_long by assumption.
    reflexivity.
Qed.

(** X11.  An event that a state does not expect is not treated alike in all
    states.  While [InitContext] waits for the group's public key, any
    event other than that result, [Entry], [Exit] and [Terminated] raises
    [UnsupportedEventError].  While [ReceiveServerKeyExchange] waits for
    the header, any event other than [DataReadResult], [Entry] and
    [Terminated] raises [AttributeError]: the state of the handshake has no
    last branch and returns [None], of which [_receive_child] reads
    [kind]. *)
Theorem out_of_order_event_errors :
  forall (depth : nat) (h : XDAAHandshake) (event : Event),
    (4 <= depth)%nat ->
    child_has_parent h ->
    kind event <> ENTRY -> kind event <> TERMINATED ->
    (awaiting_group_public_key h ->
     kind event <> EXIT -> kind event <> GROUP_DECODE_PUBLIC_KEY_RESULT ->
     XDAAHandshake_receive depth event h = raise UnsupportedEventError) /\
    (awaiting_header h ->
     kind event <> DATA_READ_RESULT ->
     XDAAHandshake_receive depth event h = raise AttributeError).
Proof.
  intros depth h event Hd (c' & Hc' & Hparent) Hentry Hterm.
  destruct depth as [ | [ | [ | [ | depth]]]]; try lia.
  split.
  - intros (Hcur & c & Hc & Hclass & Hst & Hstep) Hexit Hexp.
    rewrite Hc in Hc'. injection Hc' as <-.
    open_handshake h. open_child c. subst.
    destruct event; try contradiction; reflexivity.
  - intros (Hcur & c & Hc & Hclass & Hst & Hstep) Hexp.
    rewrite Hc in Hc'. injection Hc' as <-.
    open_handshake h. open_child c. subst.
    destruct event; try contradiction; reflexivity.
Qed.

End EngineRuns.

Section NewHandshake.
Context {P : Platform}.
Local Open Scope Z_scope.

(** X12.  A new handshake accepts nothing but [Start]: [Start] makes it
    ask for the decoding of the group's public key, [Entry] and [Exit] are
    ignored with [None] for an answer, and every other event raises
    [UnsupportedEventError]. *)
Theorem new_handshake_accepts_only_Start :
  forall (depth : nat) (g : DAAGroup) (event : Event),
    (6 <= depth)%nat ->
    let h := XDAAHandshake__init__ g in
    (kind event = START ->
     exists h',
       XDAAHandshake_receive depth event h
       = ok (Some (GroupDecodePublicKey g.(server_public_key)), h') /\
       awaiting_group_public_key h' /\ child_has_parent h' /\
       h'.(context) = h.(context)) /\
    (kind event = ENTRY \/ kind event = EXIT ->
     XDAAHandshake_receive depth event h = ok (None, h)) /\
    (kind event <> START -> kind event <> ENTRY -> kind event <> EXIT ->
     XDAAHandshake_receive depth event h = raise UnsupportedEventError).
Proof.
  intros depth g event Hd h. subst h.
  destruct depth as [ | [ | [ | [ | [ | [ | depth]]]]]]; try lia.
  destruct g as [gid spk cpk]. cbn [server_public_key].
  unfold XDAAHandshake__init__, XDAAContext__init__.
  split; [ | split].
  - intros Hk. destruct event; try discriminate Hk.
    eexists. split; [run_engine; reflexivity | ].
    split; [ | split; [ | reflexivity]].
    + split; [reflexivity | ]. eexists. repeat split; reflexivity.
    + eexists. split; reflexivity.
  - intros [Hk | Hk]; destruct event; try discriminate Hk; reflexivity.
  - intros Hs He Hx. destruct event; try contradiction; reflexivity.
Qed.

End NewHandshake.

(** * Properties of the synchronous transport *)
Section Transport.
Context {P : Platform}.
Local Open Scope Z_scope.



(** Storing inside the buffer keeps its size. *)
Lemma len_store_at (buffer data : bytes) (pos : Z) :
  0 <= pos -> pos + len data <= len buffer ->
  len (store_at buffer pos data) = len buffer.
Proof.
  intros Hpos Hfit. pose proof (len_nonneg data). unfold store_at.
  rewrite !len_app, len_firstn, len_skipn by lia. lia.
Qed.


Lemma recv_loop_shape (fuel : nat) :
  forall (size flags pos : Z) (buffer data : bytes) (s s' : socket),
    len buffer = size -> 0 <= pos ->
    recv_loop fuel size flags pos buffer s = ok (data, s') ->
    data = [] \/ len data = size.
Proof.
  induction fuel as [ | fuel IH]; intros size flags pos buffer data s s' Hlen Hpos;
    cbn [recv_loop]; destruct (Z.ltb_spec pos size) as [Hlt | Hge].
  - discriminate.
  - intros Hr. injection Hr as <- _. right. exact Hlen.
  - destruct (recv_into (size - pos) flags s) as [e | [d s1]]; [discriminate | ].
    cbn [bind_result].
    set (d' := firstn (Z.to_nat (size - pos)) d).
    assert (Hd' : len d' <= size - pos).
    { unfold d', len. rewrite length_firstn. lia. }
    destruct (Z.eqb_spec (len d') 0) as [Hzero | Hread].
    + intros Hr. injection Hr as <- _. left. reflexivity.
    + pose proof (len_nonneg d'). apply IH; [ | lia].
      rewrite len_store_at; lia.
  - intros Hr. injection Hr as <- _. right. exact Hlen.
Qed.

(** X13.  [recvexactly] returns all or nothing: for a size that is not
    negative, the bytes it returns are either none or exactly [size] many.
    So [data_read] never hands a short read to the handshake: the
    [DataReadResult] it returns carries exactly the [size] of the request,
    which is then positive, and neither the handshake nor the randomness
    are touched. *)
Theorem data_read_returns_exactly_size :
  forall (size : Z), 0 <= size ->
    (forall (s s' : socket) (data : bytes),
       recvexactly s size = ok (data, s') -> data = [] \/ len data = size) /\
    (forall (w w' : World) (event : Event),
       data_read (DataRead size) w = ok (event, w') ->
       exists data,
         event = DataReadResult data /\ len data = size /\ 0 < size /\
         recvexactly w.(sock) size = ok (data, w'.(sock)) /\
         w'.(handshake) = w.(handshake) /\ w'.(entropy) = w.(entropy)).
Proof.
  intros size Hsize.
  assert (Hshape : forall (s s' : socket) (data : bytes),
             recvexactly s size = ok (data, s') -> data = [] \/ len data = size).
  { intros s s' data Hr. unfold recvexactly in Hr.
    apply recv_loop_shape in Hr; [exact Hr | | lia].
    apply len_repeat. exact Hsize. }
  split; [exact Hshape | ].
  intros w w' event. unfold data_read, bind, lift, on_sock, event_size, ret, throw.
  destruct (recvexactly w.(sock) size) as [e | [data s']] eqn:Hr; [discriminate | ].
  destruct (bytes_eqb data []) eqn:Hempty; [discriminate | ].
  intros Hrun. injection Hrun as <- <-. exists data.
  destruct (Hshape _ _ _ Hr) as [-> | Hlen]; [discriminate Hempty | ].
  assert (Hne : data <> []) by (intros ->; discriminate Hempty).
  assert (0 < len data).
  { destruct data; [contradiction | ]. rewrite len_cons.
    pose proof (len_nonneg data). lia. }
  repeat split; try assumption; try reflexivity. lia.
Qed.





End Transport.

(** * The mock socket of the package's tests *)
Section MockSocket.
#[local] Existing Instance sample.platform.
Local Open Scope Z_scope.




End MockSocket.

(** * Properties of the synchronous backends *)
Section Backends.
Context {P : Platform}.
Local Open Scope Z_scope.

Lemma SyncCrypto_receive_result (fuel : nat) :
  forall (depth : nat) (event : Event) (w w' : World) (r : option Event),
    SyncCrypto_receive fuel depth event w = ok (r, w') ->
    exists out, r = Some out /\ _sync_crypto_dispatch (kind out) = None.
Proof.
  induction fuel as [ | fuel IH]; intros depth event w w' r; [discriminate | ].
  rewrite SyncCrypto_receive_turn.
  destruct (XDAAHandshake_receive depth event w.(handshake)) as [e | [[out | ] h']];
    try discriminate.
  cbv zeta. destruct (_sync_crypto_dispatch (kind out)) as [handler | ] eqn:Hk.
  - destruct (handler out _) as [e | [result w2]]; [discriminate | ]. apply IH.
  - intros Hr. injection Hr as <- _. exists out. split; [reflexivity | exact Hk].
Qed.

Lemma SyncSocket_receive_result
  (super_receive : Event -> M World (option Event)) (Q : Event -> Prop) :
  (forall event w w' r,
     super_receive event w = ok (r, w') -> exists out, r = Some out /\ Q out) ->
  forall (fuel : nat) (event : Event) (w w' : World) (r : option Event),
    SyncSocket_receive super_receive fuel event w = ok (r, w') ->
    exists out, r = Some out /\ Q out /\ _sync_socket_dispatch (kind out) = None.
Proof.
  intros Hsuper fuel.
  induction fuel as [ | fuel IH]; intros event w w' r; [discriminate | ].
  rewrite SyncSocket_receive_turn.
  destruct (super_receive event w) as [e | [r1 w1]] eqn:Hs; [discriminate | ].
  destruct (Hsuper _ _ _ _ Hs) as (out & -> & HQ).
  destruct (_sync_socket_dispatch (kind out)) as [handler | ] eqn:Hk.
  - destruct (handler out w1) as [e | [result w2]]; [discriminate | ]. apply IH.
  - intros Hr. injection Hr as <- _. exists out.
    split; [reflexivity | split; [exact HQ | exact Hk]].
Qed.

(** X16.  The handshake with both synchronous backends hands no request
    back to its caller: whatever it is in and whatever it receives, what
    [receive] returns is an event, never [None], and an event of a kind
    that neither backend serves, so none of the two socket requests and of
    the nine crypto requests. *)
Theorem mixins_serve_every_request :
  forall (fuel depth : nat) (event : Event) (w w' : World) (r : option Event),
    mixed_receive fuel depth event w = ok (r, w') ->
    exists out,
      r = Some out /\
      _sync_crypto_dispatch (kind out) = None /\
      _sync_socket_dispatch (kind out) = None /\
      ~ In (kind out)
          [DATA_WRITE; DATA_READ; CREATE_NONCE; EPHEMERAL_CREATE_KEY;
           EPHEMERAL_COMPUTE_SHARED_SECRET; EPHEMERAL_DECODE_PUBLIC_KEY;
           EPHEMERAL_ENCODE_PUBLIC_KEY; GROUP_DECODE_PUBLIC_KEY;
           GROUP_DECODE_PRIVATE_KEY; GROUP_SHA256_SIGN_DATA;
           GROUP_SHA256_VERIFY_SIGNATURE].
Proof.
  intros fuel depth event w w' r Hrun. unfold mixed_receive in Hrun.
  apply (SyncSocket_receive_result _
           (fun out => _sync_crypto_dispatch (kind out) = None)) in Hrun.
  - destruct Hrun as (out & -> & Hc & Hs). exists out.
    split; [reflexivity | split; [exact Hc | split; [exact Hs | ]]].
    intros Hin. cbn [In] in Hin.
    destruct (kind out); try discriminate Hc; try discriminate Hs;
      repeat (destruct Hin as [Hin | Hin]; [discriminate Hin | ]);
      contradiction.
  - intros event0 w0 w0' r0. apply SyncCrypto_receive_result.
Qed.

End Backends.

(** * Properties of the key provisioning *)
Section ProvisioningExtras.
Local Open Scope Z_scope.

Section Split.
Variable A : Type.
Variable eqb : A -> A -> bool.
Hypothesis eqb_spec : forall x y, eqb x y = true <-> x = y.

(** The first piece holds no separator, and what follows it in the string
    is a separator and the string of the other pieces. *)
Lemma split_inv (sep : A) (x : list A) :
  forall (p : list A) (ps : list (list A)),
    split eqb sep x = p :: ps ->
    ~ In sep p /\
    ((ps = [] /\ x = p) \/
     (exists y, x = p ++ sep :: y /\ split eqb sep y = ps)).
Proof.
  induction x as [ | c x IH]; intros p ps; cbn [split].
  - intros Hs. injection Hs as <- <-. split; [intros [] | left; split; reflexivity].
  - destruct (eqb c sep) eqn:E.
    + intros Hs. injection Hs as <- <-. apply eqb_spec in E. subst c.
      split; [intros [] | right; exists x; split; reflexivity].
    + destruct (split eqb sep x) as [ | piece pieces] eqn:Hx.
      * exfalso. exact (split_nonempty A eqb sep x Hx).
      * intros Hs. injection Hs as <- <-.
        destruct (IH piece pieces eq_refl) as (Hnot & Hrest).
        split.
        -- intros [Hc | Hin]; [ | exact (Hnot Hin)].
           subst c. rewrite (eqb_same A eqb eqb_spec) in E. discriminate E.
        -- destruct Hrest as [(-> & ->) | (y & -> & Hy)].
           ++ left. split; reflexivity.
           ++ right. exists y. split; [reflexivity | exact Hy].
Qed.

End Split.

Lemma encode_ascii_inv (x : str) :
  forall b, encode_ascii x = ok b ->
    Forall (fun c => (c < 128)%N) x /\
    b = map (fun c => byte.of_Z (Z.of_N c)) x.
Proof.
  induction x as [ | c x IH]; intros b; cbn [encode_ascii].
  - intros Hb. injection Hb as <-. split; [constructor | reflexivity].
  - destruct (N.ltb_spec c 128) as [Hc | Hc]; [ | discriminate].
    destruct (encode_ascii x) as [e | rest]; [discriminate | ].
    cbn [bind_result]. intros Hb. injection Hb as <-.
    destruct (IH rest eq_refl) as (Hall & ->).
    split; [constructor; assumption | reflexivity].
Qed.

(** X17.  [Keys.from_csv] accepts nothing but three ASCII fields: when it
    returns keys, the string is three pieces without a comma, separated by
    two commas, every character of it is below 128, and each key is the
    byte string of its piece, character by character. *)
Theorem from_csv_accepts_only_three_ascii_fields :
  forall (csv : str) (k : Keys.t),
    Keys.from_csv csv = ok k ->
    exists g p c,
      csv = g ++ comma :: p ++ comma :: c /\
      ~ In comma g /\ ~ In comma p /\ ~ In comma c /\
      Forall (fun ch => (ch < 128)%N) csv /\
      k.(Keys.group_id) = map (fun ch => byte.of_Z (Z.of_N ch)) g /\
      k.(Keys.server_public_key) = map (fun ch => byte.of_Z (Z.of_N ch)) p /\
      k.(Keys.client_private_key) = map (fun ch => byte.of_Z (Z.of_N ch)) c.
Proof.
  intros csv k. unfold Keys.from_csv.
  destruct (split N.eqb comma csv) as [ | g [ | p [ | c [ | d rest]]]] eqn:Hs;
    try discriminate.
  cbn [Keys.__init__].
  destruct (encode_ascii g) as [e | gb] eqn:Hg; [discriminate | ].
  destruct (encode_ascii p) as [e | pb] eqn:Hp; [discriminate | ].
  destruct (encode_ascii c) as [e | cb] eqn:Hc; [discriminate | ].
  cbn [bind_result]. intros Hk. injection Hk as <-.
  cbn [Keys.group_id Keys.server_public_key Keys.client_private_key].
  apply encode_ascii_inv in Hg as (Hga & ->).
  apply encode_ascii_inv in Hp as (Hpa & ->).
  apply encode_ascii_inv in Hc as (Hca & ->).
  apply (split_inv N N.eqb N.eqb_eq) in Hs
    as (Hng & [(Hnil & _) | (y & -> & Hy)]); [discriminate Hnil | ].
  apply (split_inv N N.eqb N.eqb_eq) in Hy
    as (Hnp & [(Hnil & _) | (z & -> & Hz)]); [discriminate Hnil | ].
  apply (split_inv N N.eqb N.eqb_eq) in Hz
    as (Hnc & [(_ & ->) | (t & _ & Ht)]).
  - exists g, p, c. repeat split; try assumption.
    apply Forall_app. split; [exact Hga | ].
    constructor; [reflexivity | ].
    apply Forall_app. split; [exact Hpa | ].
    constructor; [reflexivity | exact Hca].
  - exfalso. exact (split_nonempty N N.eqb comma t Ht).
Qed.

End ProvisioningExtras.

(** * The whole negotiation *)
Section Negotiation.
Context {P : Platform}.
Local Open Scope Z_scope.

Lemma ServerKeyExchange_parse_header_error (header : bytes) (err : exn) :
  ServerKeyExchangeMessage.parse_header header = raise err ->
  err = InvalidMessageError.
Proof.
  intros Hparse.
  destruct (Z.eq_dec (len header) 9) as [Hlen | Hlen].
  2: { rewrite ServerKeyExchange_parse_header_wrong_size in Hparse by exact Hlen.
       injection Hparse as <-. reflexivity. }
  destruct header
    as [ | c0 [ | g1 [ | g0 [ | n1 [ | n0 [ | p1 [ | p0 [ | s1 [ | s0 [ | c9 rest]]]]]]]]]];
    try discriminate Hlen.
  2: { exfalso. repeat rewrite len_cons in Hlen. pose proof (len_nonneg rest). lia. }
  unfold ServerKeyExchangeMessage.parse_header, struct.unpack in Hparse.
  simpl in Hparse.
  destruct (ne (byte.unsigned c0) 0); [ | discriminate Hparse].
  injection Hparse as <-. reflexivity.
Qed.

Lemma ServerKeyExchange_parse_body_error (m : ServerKeyExchangeMessage.t)
  (body : bytes) (err : exn) :
  ServerKeyExchangeMessage.parse_body m body = raise err ->
  err = InvalidMessageError.
Proof.
  unfold ServerKeyExchangeMessage.parse_body. intros Hparse.
  match type of Hparse with
  | context [struct.unpack ?f body] =>
      destruct (unpack_cases f body) as [Hu | [fields Hu]]; rewrite Hu in Hparse
  end.
  - injection Hparse as <-. reflexivity.
  - destruct (unpack_ssss_inv _ _ _ _ _ _ Hu) as (_ & _ & _ & _ & _ & ->).
    discriminate Hparse.
Qed.

Lemma ClientHello_serialize_error (a b : bytes) (err : exn) :
  ClientHelloMessage.serialize (ClientHelloMessage.__init__ a b) = raise err ->
  err = struct_error.
Proof.
  intros Hs.
  destruct (Z_le_gt_dec (len a) 65535) as [Ha | Ha];
    [destruct (Z_le_gt_dec (len b) 65535) as [Hb | Hb] | ].
  - rewrite ClientHello_serialize_ok in Hs by assumption. discriminate Hs.
  - rewrite ClientHello_serialize_long in Hs by lia. injection Hs as <-. reflexivity.
  - rewrite ClientHello_serialize_long in Hs by lia. injection Hs as <-. reflexivity.
Qed.

Lemma fails_bind {A B} (m : result A) (k : A -> result B) :
  fails m -> fails (bind_result m k).
Proof. destruct m as [err | x]; [exact (fun H => H) | intros []]. Qed.

End Negotiation.

(** The backends and the crypto wrappers, unfolded down to the calls of the
    platform; the engine stays folded. *)
Ltac run_backends :=
  lazy beta iota zeta delta
    [fails kind _sync_crypto_dispatch _sync_socket_dispatch
     handshake entropy sock
     create_nonce ephemeral_create_key ephemeral_compute_shared_secret
     ephemeral_decode_public_key ephemeral_encode_public_key
     group_decode_public_key group_decode_private_key
     group_sha256_sign_data group_sha256_verify_signature
     data_read data_write
     bind ret lift throw on_entropy on_sock bind_result
     event_size event_data
     secp256r1.public_key_from_encoded_point_hex
     secp256r1.public_key_from_encoded_point
     secp256r1.private_key_from_int_hex secp256r1.private_key_from_int
     secp256r1.verify_sha256 secp256r1._verify secp256r1._public
     x25519.key_pair__init__ x25519.public_key_from_bytes_be
     x25519.public_key_from_bytes_le x25519.to_bytes_be x25519.to_bytes_le
     x25519.public].

(** The call of the plain handshake in the goal, run. *)
Ltac run_plain :=
  match goal with
  | |- context [XDAAHandshake_receive ?d ?ev ?h] =>
      let H := fresh "Hplain" in
      let r := fresh "r" in
      evar (r : result (option Event * XDAAHandshake));
      assert (H : XDAAHandshake_receive d ev h = r)
        by (subst r; run_engine; reflexivity);
      subst r; rewrite H; clear H
  end.

(** One turn of [SyncCrypto.receive], up to the call of the platform. *)
Ltac crypto_turn :=
  rewrite SyncCrypto_receive_turn; cbn [handshake]; run_plain; run_backends.

Section NegotiationRun.
Context {P : Platform}.
Local Open Scope Z_scope.

Hypothesis Hplatform : platform_never_raises OutOfFuel.

(** Once the body of the ServerKeyExchange is read, the handshake with the
    crypto backend fails, whatever the body and the context. *)
Lemma body_is_fatal (fuel depth : nat) (w : World)
  (m : ServerKeyExchangeMessage.t) (body : bytes) :
  (4 <= fuel)%nat -> (6 <= depth)%nat ->
  awaiting_body w.(handshake) m ->
  fails (SyncCrypto_receive fuel depth (DataReadResult body) w).
Proof.
  intros Hfuel Hd (Hcur & c & Hc & Hclass & Hst & Hstep & Hmsg).
  destruct Hplatform
    as (Hhex & Hint & Hdonna & Hpoint & Hderive & Hverify & Hrecv & Hsend).
  destruct fuel as [ | [ | [ | [ | fuel]]]]; try lia.
  destruct depth as [ | [ | [ | [ | [ | [ | depth]]]]]]; try lia.
  destruct w as [h e s]. cbn [handshake] in *.
  open_handshake h. open_child c.
  destruct ctx as [version group nonce_c key_c nonce_s key_s pub_g priv_g secret].
  subst.
  crypto_turn.
  destruct (ServerKeyExchangeMessage.parse_body m body) as [err | m'] eqn:Hbody;
    run_backends.
  { apply ServerKeyExchange_parse_body_error in Hbody. subst err. discriminate. }
  destruct (ne _ _); run_backends; [discriminate | ].
  destruct group as [[gid spk cpk] | ]; run_backends; [ | discriminate].
  destruct (bytes_eqb _ _); run_backends; [ | discriminate].
  destruct pub_g as [pub | ]; run_backends; [ | discriminate].
  destruct nonce_c as [nonce | ]; run_backends; [ | discriminate].
  rewrite server_serialize_for_signature. run_backends.
  assert (Hend : forall w1 : World,
    awaiting_verification w1.(handshake) m' ->
    fails (SyncCrypto_receive (S (S (S fuel))) (S (S (S (S (S (S depth))))))
             (GroupSHA256VerifySignatureResult true) w1)).
  { intros [h1 e1 s1] (Hcur & c & Hc & Hclass & Hst & Hstep & Hmsg).
    cbn [handshake] in *. open_handshake h1. open_child c. open_context ctx. subst.
    crypto_turn.
    destruct (donna_PublicKey_of_bytes _) as [err | peer] eqn:Hpeer; run_backends.
    { intros ->. exact (Hdonna _ Hpeer). }
    crypto_turn.
    match goal with
    | |- context [match ?k with Some _ => _ | None => _ end] =>
        is_var k; destruct k as [key | ]
    end; run_backends; [ | discriminate].
    crypto_turn. rewrite client_serialize_for_signature. run_backends.
    discriminate. }
  destruct (ec_verify _ _ _) as [err | []] eqn:Hv; run_backends.
  - destruct (isinstance err InvalidSignature); run_backends.
    + crypto_turn. discriminate.
    + intros ->. exact (Hverify _ _ _ Hv).
  - apply Hend. split; [reflexivity | ]. eexists. repeat split; reflexivity.
Qed.

(** From a new handshake, the crypto backend either fails or comes back
    with the request to write the ClientHello. *)
Lemma start_asks_for_hello_write (fuel depth : nat) (g : DAAGroup) (e : Entropy)
  (s : socket) :
  (5 <= fuel)%nat -> (6 <= depth)%nat ->
  match SyncCrypto_receive fuel depth Start
          {| handshake := XDAAHandshake__init__ g; entropy := e; sock := s |} with
  | inl err => err <> OutOfFuel
  | inr (r, w1) =>
      exists hello,
        r = Some (DataWrite hello) /\ awaiting_hello_written w1.(handshake)
  end.
Proof.
  intros Hfuel Hd.
  destruct Hplatform
    as (Hhex & Hint & Hdonna & Hpoint & Hderive & Hverify & Hrecv & Hsend).
  destruct fuel as [ | [ | [ | [ | [ | fuel]]]]]; try lia.
  destruct depth as [ | [ | [ | [ | [ | [ | depth]]]]]]; try lia.
  destruct g as [gid spk cpk].
  unfold XDAAHandshake__init__, XDAAContext__init__.
  crypto_turn.
  destruct (hex_decode spk) as [err | point] eqn:Hpt; run_backends.
  { intros ->. exact (Hhex _ Hpt). }
  destruct (ec_public_key_of_point point) as [err | pub] eqn:Hpub; run_backends.
  { intros ->. exact (Hpoint _ Hpub). }
  crypto_turn.
  destruct (int_base16 cpk) as [err | n] eqn:Hn; run_backends.
  { intros ->. exact (Hint _ Hn). }
  destruct (ec_derive_private_key n) as [err | priv] eqn:Hpriv; run_backends.
  { intros ->. exact (Hderive _ Hpriv). }
  crypto_turn.
  destruct (urandom 32 e) as [nonce e1]. run_backends.
  crypto_turn.
  destruct (donna_PrivateKey_new e1) as [key e2]. run_backends.
  rewrite SyncCrypto_receive_turn. cbn [handshake].
  destruct (ClientHelloMessage.serialize (ClientHelloMessage.__init__ gid nonce))
    as [err | hello] eqn:Hhello.
  - apply ClientHello_serialize_error in Hhello as Herr. subst err.
    match goal with
    | |- context [XDAAHandshake_receive ?d ?ev ?h] =>
        assert (Hplain : XDAAHandshake_receive d ev h = raise struct_error)
          by (run_engine; rewrite Hhello; reflexivity);
        rewrite Hplain; clear Hplain
    end.
    discriminate.
  - match goal with
    | |- context [XDAAHandshake_receive ?d ?ev ?h] =>
        let r := fresh "r" in
        evar (r : result (option Event * XDAAHandshake));
        assert (Hplain : XDAAHandshake_receive d ev h = r)
          by (subst r; run_engine; rewrite Hhello; run_engine; reflexivity);
        subst r; rewrite Hplain; clear Hplain
    end.
    run_backends. exists hello. split; [reflexivity | ].
    split; [reflexivity | ]. eexists. repeat split; reflexivity.
Qed.

(** The handshake with both backends, started on a new context, fails. *)
Lemma socket_loop_from_Start_fails (F fuel depth : nat) (g : DAAGroup)
  (e : Entropy) (s : socket) :
  (5 <= F)%nat -> (4 <= fuel)%nat -> (6 <= depth)%nat ->
  fails (SyncSocket_receive (SyncCrypto_receive F depth) fuel Start
           {| handshake := XDAAHandshake__init__ g; entropy := e; sock := s |}).
Proof.
  intros HF Hfuel Hd.
  pose proof (start_asks_for_hello_write F depth g e s HF Hd) as Hstart.
  assert (Hbody : forall w m body,
            awaiting_body w.(handshake) m ->
            fails (SyncCrypto_receive F depth (DataReadResult body) w)).
  { intros w m body. apply body_is_fatal; [lia | exact Hd]. }
  destruct Hplatform
    as (Hhex & Hint & Hdonna & Hpoint & Hderive & Hverify & Hrecv & Hsend).
  destruct fuel as [ | [ | [ | [ | fuel]]]]; try lia.
  destruct F as [ | F]; [lia | ].
  rewrite SyncSocket_receive_turn.
  destruct (SyncCrypto_receive (S F) depth Start _) as [err | [r w1]];
    [exact Hstart | ].
  destruct Hstart as (hello & -> & Hawait1).
  destruct w1 as [h1 e1 s1]. cbn [handshake] in Hawait1. run_backends.
  destruct (sendall hello s1) as [err | s2] eqn:Hs; run_backends.
  { intros ->. exact (Hsend _ _ Hs). }
  rewrite SyncSocket_receive_turn, SyncCrypto_receive_turn.
  cbn [handshake].
  destruct (hello_written depth h1 Hd Hawait1) as (h2 & Hrun2 & Hawait2 & _).
  rewrite Hrun2. run_backends.
  destruct (recvexactly s2 9) as [err | [header s3]] eqn:Hr; run_backends.
  { intros ->. exact (recvexactly_total _ _ Hrecv Hr). }
  destruct (bytes_eqb header []); run_backends; [discriminate | ].
  rewrite SyncSocket_receive_turn, SyncCrypto_receive_turn. cbn [handshake].
  destruct (ServerKeyExchangeMessage.parse_header header) as [err | [m L]] eqn:Hh.
  { apply ServerKeyExchange_parse_header_error in Hh as Herr. subst err.
    rewrite (header_with_bad_version depth h2 header) by (assumption || lia).
    discriminate. }
  destruct (header_received depth h2 header m L) as (h3 & Hrun3 & Hawait3 & _);
    try assumption; try lia.
  rewrite Hrun3. run_backends.
  destruct (recvexactly s3 L) as [err | [body s4]] eqn:Hr'; run_backends.
  { intros ->. exact (recvexactly_total _ _ Hrecv Hr'). }
  destruct (bytes_eqb body []); run_backends; [discriminate | ].
  rewrite SyncSocket_receive_turn.
  specialize (Hbody {| handshake := h3; entropy := e1; sock := s4 |} m body Hawait3).
  destruct (SyncCrypto_receive _ _ (DataReadResult body) _) as [err | x];
    [exact Hbody | destruct Hbody].
Qed.

End NegotiationRun.

Section NegotiationNeverReturns.
Context {P : Platform}.
Local Open Scope Z_scope.

(** X18.  [negotiate_secret] never returns a secret.  Whatever the socket
    delivers, whatever the key string and the randomness are and whatever
    the crypto library answers, a run that is given enough turns ends with
    an exception, and not for lack of turns of the model: the last state
    that can be reached is the one that must sign the ClientKeyExchange,
    which raises [NameError]. *)
Theorem negotiate_secret_never_returns :
  forall (fuel depth : nat) (s : socket) (group : bytes) (e : Entropy),
    (5 <= fuel)%nat -> (6 <= depth)%nat ->
    platform_never_raises OutOfFuel ->
    exists err,
      negotiate_secret fuel depth s group e = raise err /\ err <> OutOfFuel.
Proof.
  intros fuel depth s group e Hfuel Hd Hplatform.
  assert (Hfails : fails (negotiate_secret fuel depth s group e)).
  { unfold negotiate_secret.
    destruct (split byte_eqb (byte.of_Z 44) group)
      as [ | a [ | b [ | c [ | d rest]]]]; cbn [DAAGroup__init__ bind_result];
      try (cbn [fails]; discriminate).
    apply fails_bind. unfold mixed_receive.
    apply socket_loop_from_Start_fails; try assumption. lia. }
  destruct (negotiate_secret fuel depth s group e) as [err | secret].
  - exists err. split; [reflexivity | exact Hfails].
  - destruct Hfails.
Qed.

End NegotiationNeverReturns.

(** * The server's signature and the shared secret *)
Section SignatureAndSecret.
Context {P : Platform}.
Local Open Scope Z_scope.

(** An event that the crypto backend does not serve goes through it. *)
Lemma SyncCrypto_receive_returns (fuel depth : nat) (event out : Event) (w : World)
  (h' : XDAAHandshake) :
  (1 <= fuel)%nat ->
  XDAAHandshake_receive depth event w.(handshake) = ok (Some out, h') ->
  _sync_crypto_dispatch (kind out) = None ->
  SyncCrypto_receive fuel depth event w
  = ok (Some out, {| handshake := h'; entropy := w.(entropy); sock := w.(sock) |}).
Proof.
  intros Hfuel Hrun Hc. destruct fuel as [ | fuel]; [lia | ].
  rewrite SyncCrypto_receive_turn, Hrun. cbv zeta. rewrite Hc. reflexivity.
Qed.

(** A check that succeeded lets the handshake go on to the server's key. *)
Lemma signature_accepted (depth : nat) (h : XDAAHandshake) (c : Child)
  (m : ServerKeyExchangeMessage.t) :
  (4 <= depth)%nat ->
  h.(maybeChild) = Some c ->
  c.(class) = ReceiveServerKeyExchange ->
  c.(child_current) = Some state.validate_message ->
  c.(_step) = Some 0 ->
  c.(message) = Some m ->
  exists h2,
    XDAAHandshake_receive depth (GroupSHA256VerifySignatureResult true) h
    = ok (Some (EphemeralDecodePublicKey
                  m.(ServerKeyExchangeMessage.server_ecdhe_public_key)), h2).
Proof.
  intros Hd Hc Hclass Hst Hstep Hmsg.
  destruct depth as [ | [ | [ | [ | depth]]]]; try lia.
  open_handshake h. open_child c. subst.
  eexists. run_engine. reflexivity.
Qed.

(** With the crypto backend, a signature that the library rejects on the
    server's key followed by the client's nonce ends the handshake. *)
Lemma rejected_signature_ends_handshake (depth fuel : nat) (w : World)
  (m m' : ServerKeyExchangeMessage.t) (body nonce : bytes) (g : DAAGroup)
  (pub : secp256r1.public_key) :
  (4 <= depth)%nat -> (2 <= fuel)%nat ->
  awaiting_body w.(handshake) m ->
  ServerKeyExchangeMessage.parse_body m body = ok m' ->
  m'.(ServerKeyExchangeMessage.version)
    = w.(handshake).(context).(protocol_version) ->
  w.(handshake).(context).(daa_group) = Some g ->
  bytes_eqb m'.(ServerKeyExchangeMessage.server_group_id) g.(group_id) = true ->
  w.(handshake).(context).(server_group_public_key) = Some pub ->
  w.(handshake).(context).(client_nonce) = Some nonce ->
  ec_verify pub.(secp256r1._public) m'.(ServerKeyExchangeMessage.signature)
    (m'.(ServerKeyExchangeMessage.server_ecdhe_public_key) ++ nonce)
  = raise InvalidSignature ->
  SyncCrypto_receive fuel depth (DataReadResult body) w = raise InvalidSignatureError.
Proof.
  intros Hd Hfuel Hawait Hbody Hv Hg Hgid Hpub Hn Hverify.
  destruct (body_received depth w.(handshake) m m' body nonce g pub)
    as (c & Hclass & Hst & Hstep & Hmsg & Hrun); try assumption.
  assert (Hreject :
    XDAAHandshake_receive depth (GroupSHA256VerifySignatureResult false)
      (set_maybeChild (Some c) w.(handshake)) = raise InvalidSignatureError).
  { apply (signature_rejected depth _ c); try assumption; try reflexivity. lia. }
  destruct fuel as [ | [ | fuel]]; try lia.
  rewrite SyncCrypto_receive_turn, Hrun. cbv zeta.
  cbn [kind _sync_crypto_dispatch]. unfold group_sha256_verify_signature.
  unfold bind at 1. unfold lift at 1.
  unfold secp256r1.verify_sha256, secp256r1._verify. rewrite Hverify.
  cbn [isinstance issubclass_upto exn_eqb exn_beq orb ret].
  unfold ret. rewrite SyncCrypto_receive_turn. cbn [handshake].
  rewrite Hreject. reflexivity.
Qed.

(** What the client reads of a message that a server serialized. *)
Lemma served_message_is_parsed (a b c d data : bytes) :
  ServerKeyExchangeMessage.serialize (ServerKeyExchangeMessage.__init__ a b c d)
  = ok data ->
  exists m0 m,
    ServerKeyExchangeMessage.parse_header (slice data 0 9)
    = ok (m0, len data - 9) /\
    ServerKeyExchangeMessage.parse_body m0 (slice data 9 (len data)) = ok m /\
    m.(ServerKeyExchangeMessage.version) = 0 /\
    m.(ServerKeyExchangeMessage.server_group_id) = a /\
    m.(ServerKeyExchangeMessage.server_ecdhe_public_key) = c /\
    m.(ServerKeyExchangeMessage.signature) = d.
Proof.
  intros Hdata.
  assert (Hshort : len a <= 65535 /\ len b <= 65535 /\
                   len c <= 65535 /\ len d <= 65535).
  { destruct (Z_le_gt_dec (len a) 65535), (Z_le_gt_dec (len b) 65535),
      (Z_le_gt_dec (len c) 65535), (Z_le_gt_dec (len d) 65535);
      try (repeat split; assumption);
      rewrite ServerKeyExchange_serialize_long in Hdata by lia;
      discriminate Hdata. }
  destruct Hshort as (Ha & Hb & Hc & Hd).
  destruct (ServerKeyExchange_roundtrip_bounded a b c d Ha Hb Hc Hd)
    as (data' & m & Hdata' & Hdecode & Hv & Hga & _ & Hgc & Hgd).
  rewrite Hdata in Hdata'. injection Hdata' as <-.
  apply decode_message_inv in Hdecode as (m0 & L & Hh & Hbody & Hlen).
  cbn [header_len parse_header parse_body ServerKeyExchange_class] in Hh, Hbody, Hlen.
  unfold ServerKeyExchangeMessage.header_len in *.
  replace (len data - 9) with L by lia. rewrite <- Hlen.
  exists m0, m. repeat split; assumption.
Qed.

(** C4.  In [ReceiveServerKeyExchange], once the version and group checks
    pass, the engine requests [GroupSHA256VerifySignature] on the server's
    ephemeral key followed by the client's nonce, against the signature of
    the message.  A result [false] ends the handshake with
    [InvalidSignatureError]; a result [true] lets it go on to the decoding
    of the server's key.  With the synchronous crypto backend the result is
    the verdict of the library on these very bytes, so a signature that
    [verify] rejects on them ends the handshake with
    [InvalidSignatureError].  This is the case of a server that signed its
    key with a 32-byte nonce other than the client's and sent the message:
    the bytes it signed are not the bytes the client checks, and the client,
    having written its ClientHello, asks for the 9 bytes of the header, then
    for the body, and fails on the body with [InvalidSignatureError], the
    library rejecting that signature on the bytes checked. *)
Theorem bad_server_signature_raises_InvalidSignatureError :
  forall (depth fuel : nat) (w : World) (m m' : ServerKeyExchangeMessage.t)
         (body nonce : bytes) (g : DAAGroup) (pub : secp256r1.public_key),
    (4 <= depth)%nat -> (2 <= fuel)%nat ->
    awaiting_body w.(handshake) m ->
    ServerKeyExchangeMessage.parse_body m body = ok m' ->
    m'.(ServerKeyExchangeMessage.version)
      = w.(handshake).(context).(protocol_version) ->
    w.(handshake).(context).(daa_group) = Some g ->
    bytes_eqb m'.(ServerKeyExchangeMessage.server_group_id) g.(group_id) = true ->
    w.(handshake).(context).(server_group_public_key) = Some pub ->
    w.(handshake).(context).(client_nonce) = Some nonce ->
    let key := m'.(ServerKeyExchangeMessage.server_ecdhe_public_key) in
    let sig := m'.(ServerKeyExchangeMessage.signature) in
    (exists h1,
       XDAAHandshake_receive depth (DataReadResult body) w.(handshake)
       = ok (Some (GroupSHA256VerifySignature pub (key ++ nonce) sig), h1) /\
       XDAAHandshake_receive depth (GroupSHA256VerifySignatureResult false) h1
       = raise InvalidSignatureError /\
       exists h2,
         XDAAHandshake_receive depth (GroupSHA256VerifySignatureResult true) h1
         = ok (Some (EphemeralDecodePublicKey key), h2)) /\
    (ec_verify pub.(secp256r1._public) sig (key ++ nonce) = raise InvalidSignature ->
     SyncCrypto_receive fuel depth (DataReadResult body) w
     = raise InvalidSignatureError) /\
    (forall (w0 : World) (sk : ec_PrivateKey) (e e' : Entropy)
            (random_nonce server_nonce server_key signature data : bytes),
       (6 <= depth)%nat ->
       awaiting_hello_written w0.(handshake) ->
       w0.(handshake).(context).(protocol_version) = 0 ->
       w0.(handshake).(context).(daa_group) = Some g ->
       w0.(handshake).(context).(server_group_public_key) = Some pub ->
       w0.(handshake).(context).(client_nonce) = Some nonce ->
       len random_nonce = 32 ->
       random_nonce <> nonce ->
       ec_sign sk (server_key ++ random_nonce) e = (ok signature, e') ->
       ServerKeyExchangeMessage.serialize
         (ServerKeyExchangeMessage.__init__ g.(group_id) server_nonce server_key
            signature) = ok data ->
       ec_verify pub.(secp256r1._public) signature (server_key ++ nonce)
       = raise InvalidSignature ->
       server_key ++ random_nonce <> server_key ++ nonce /\
       exists w1 w2,
         SyncCrypto_receive fuel depth DataWriteResult w0
         = ok (Some (DataRead 9), w1) /\
         SyncCrypto_receive fuel depth (DataReadResult (slice data 0 9)) w1
         = ok (Some (DataRead (len data - 9)), w2) /\
         SyncCrypto_receive fuel depth (DataReadResult (slice data 9 (len data))) w2
         = raise InvalidSignatureError).
Proof.
  intros depth fuel w m m' body nonce g pub Hd Hfuel Hawait Hbody Hv Hg Hgid
    Hpub Hn key sig.
  split; [ | split].
  - destruct (body_received depth w.(handshake) m m' body nonce g pub)
      as (c & Hclass & Hst & Hstep & Hmsg & Hrun); try assumption.
    exists (set_maybeChild (Some c) w.(handshake)).
    split; [exact Hrun | split].
    + apply (signature_rejected depth _ c); try assumption; try reflexivity. lia.
    + apply (signature_accepted depth _ c m'); try assumption; reflexivity.
  - apply (rejected_signature_ends_handshake depth fuel w m m' body nonce g pub);
      assumption.
  - intros w0 sk e e' random_nonce server_nonce server_key signature data
      Hd6 Hhello Hpv Hg0 Hpub0 Hn0 Hlen Hdiff Hsigned Hdata Hverify.
    split.
    { intros Heq. apply app_inv_head in Heq. exact (Hdiff Heq). }
    destruct (served_message_is_parsed _ _ _ _ _ Hdata)
      as (m0 & m1 & Hh & Hb & Hv1 & Hgid1 & Hkey1 & Hsig1).
    destruct (hello_written depth w0.(handshake) Hd6 Hhello)
      as (h1 & Hrun1 & Hawait1 & Hctx1).
    destruct (header_received depth h1 (slice data 0 9) m0 (len data - 9))
      as (h2 & Hrun2 & Hawait2 & Hctx2); try assumption; try lia.
    exists {| handshake := h1; entropy := w0.(entropy); sock := w0.(sock) |},
           {| handshake := h2; entropy := w0.(entropy); sock := w0.(sock) |}.
    split; [ | split].
    + apply SyncCrypto_receive_returns; [lia | exact Hrun1 | reflexivity].
    + apply (SyncCrypto_receive_returns fuel depth _ _
               {| handshake := h1; entropy := w0.(entropy); sock := w0.(sock) |});
        [lia | exact Hrun2 | reflexivity].
    + apply (rejected_signature_ends_handshake depth fuel _ m0 m1 _ nonce g pub);
        cbn [handshake]; try assumption.
      * rewrite Hctx2, Hctx1, Hv1, Hpv. reflexivity.
      * rewrite Hctx2, Hctx1. exact Hg0.
      * rewrite Hgid1. apply bytes_eqb_refl.
      * rewrite Hctx2, Hctx1. exact Hpub0.
      * rewrite Hctx2, Hctx1. exact Hn0.
      * rewrite Hsig1, Hkey1. exact Hverify.
Qed.

(** C5.  The code computes the secret as stated and never returns it.
    The crypto backend answers [EphemeralComputeSharedSecret] with the
    output of the X25519 exchange of the client's ephemeral private key with
    the server's ephemeral public key, its bytes in reverse order; when the
    write of the ClientKeyExchange is done, the handshake enters
    [compute_shared_secret], stores that value as [context.shared_secret]
    and terminates, and the [shared_secret] property reads it.  But no run
    gets there: whatever the socket, the key string, the randomness and the
    answers of the library are, [negotiate_secret] ends with an exception
    and returns no secret. *)
Theorem shared_secret_is_reversed_but_never_returned :
  forall (depth fuel : nat),
    (6 <= depth)%nat -> (5 <= fuel)%nat ->
    (forall (w : World) (key : x25519.key_pair) (peer : x25519.public_key),
       ephemeral_compute_shared_secret
         (EphemeralComputeSharedSecret (Some key) (Some peer)) w
       = ok (EphemeralComputeSharedSecretResult
               (rev (donna_do_exchange key.(x25519.kp_private)
                       peer.(x25519._public))), w)) /\
    (forall (w : World) (key : x25519.key_pair) (peer : x25519.public_key),
       awaiting_key_exchange_written w.(handshake) ->
       w.(handshake).(context).(client_ephemeral_private_key) = Some key ->
       w.(handshake).(context).(server_ephemeral_public_key) = Some peer ->
       let secret :=
         rev (donna_do_exchange key.(x25519.kp_private) peer.(x25519._public)) in
       exists w',
         mixed_receive fuel depth DataWriteResult w = ok (Some Terminated, w') /\
         w'.(handshake).(current) = Some state.final /\
         w'.(handshake).(context).(shared_secret) = Some secret /\
         on_handshake shared_secret_property w' = ok (secret, w')) /\
    (platform_never_raises OutOfFuel ->
     forall (s : socket) (group : bytes) (e : Entropy),
       (exists err,
          negotiate_secret fuel depth s group e = raise err /\ err <> OutOfFuel) /\
       (forall secret : bytes,
          negotiate_secret fuel depth s group e <> ok secret)).
Proof.
  intros depth fuel Hd Hfuel. split; [ | split].
  - intros w key peer. reflexivity.
  - intros w key peer (Hcur & c & Hc & Hclass & Hst) Hkey Hpeer secret.
    destruct depth as [ | [ | [ | [ | depth]]]]; try lia.
    destruct fuel as [ | [ | fuel]]; try lia.
    destruct w as [h e s]. cbn [handshake] in *.
    open_handshake h. open_child c.
    destruct ctx as [version group nonce_c key_c nonce_s key_s pub_g priv_g secret0].
    cbn [client_ephemeral_private_key server_ephemeral_public_key] in *. subst.
    eexists. split; [ | split; [ | split]].
    + run_engine. unfold x25519.compute_shared. reflexivity.
    + reflexivity.
    + reflexivity.
    + reflexivity.
  - intros Hplatform s group e.
    assert (Hfails : fails (negotiate_secret fuel depth s group e)).
    { unfold negotiate_secret.
      destruct (split byte_eqb (byte.of_Z 44) group)
        as [ | a [ | b [ | c [ | d rest]]]]; cbn [DAAGroup__init__ bind_result];
        try (cbn [fails]; discriminate).
      apply fails_bind. unfold mixed_receive.
      apply socket_loop_from_Start_fails; try assumption. lia. }
    destruct (negotiate_secret fuel depth s group e) as [err | secret].
    + split; [ | discriminate]. exists err. split; [reflexivity | exact Hfails].
    + destruct Hfails.
Qed.

End SignatureAndSecret.

Lemma bad_server_signature_witness :
  exists w1 w2,
    SyncCrypto_receive (P := sample.platform) 2 6 DataWriteResult
      (sample.world sample.hello_sent [])
    = ok (Some (DataRead 9), w1) /\
    SyncCrypto_receive (P := sample.platform) 2 6
      (DataReadResult
         (slice (sample.wire (sample.server_key_exchange (repeat Byte.x06 32))) 0 9))
      w1
    = ok (Some (DataRead
                  (len (sample.wire (sample.server_key_exchange (repeat Byte.x06 32)))
                   - 9)), w2) /\
    SyncCrypto_receive (P := sample.platform) 2 6
      (DataReadResult
         (slice (sample.wire (sample.server_key_exchange (repeat Byte.x06 32))) 9
            (len (sample.wire (sample.server_key_exchange (repeat Byte.x06 32))))))
      w2
    = raise InvalidSignatureError.
Proof.
  refine (proj2 (proj2 (proj2
    (bad_server_signature_raises_InvalidSignatureError (P := sample.platform) 6 2
       (sample.world
          (sample.body_wanted (sample.server_key_exchange (repeat Byte.x06 32))) [])
       (sample.parsed_header (sample.server_key_exchange (repeat Byte.x06 32)))
       (sample.server_key_exchange (repeat Byte.x06 32))
       (slice (sample.wire (sample.server_key_exchange (repeat Byte.x06 32))) 9 146)
       sample.nonce_of_client sample.group
       sample.group_public_key
       _ _ _ _ _ _ _ _ _))
    (sample.world sample.hello_sent []) 0 0 0 (repeat Byte.x06 32)
    sample.nonce_of_server sample.key_of_server
    (sample.key_of_server ++ repeat Byte.x06 32)
    (sample.wire (sample.server_key_exchange (repeat Byte.x06 32)))
    _ _ _ _ _ _ _ _ _ _ _)).
  - repeat constructor.
  - apply le_n.
  - split; [reflexivity | ]. eexists. repeat split; reflexivity.
  - reflexivity.
  - reflexivity.
  - reflexivity.
  - reflexivity.
  - reflexivity.
  - reflexivity.
  - apply le_n.
  - split; [reflexivity | ]. eexists. repeat split; reflexivity.
  - reflexivity.
  - reflexivity.
  - reflexivity.
  - reflexivity.
  - reflexivity.
  - intros H. vm_compute in H. discriminate H.
  - reflexivity.
  - reflexivity.
  - reflexivity.
Defined.

Lemma shared_secret_never_returned_witness :
  (exists w',
     mixed_receive (P := sample.platform) 5 6 DataWriteResult
       (sample.world sample.key_exchange_sent []) = ok (Some Terminated, w') /\
     w'.(handshake).(context).(shared_secret)
     = Some (rev (donna_do_exchange (Platform := sample.platform) 6
                    (rev sample.key_of_server)))) /\
  (exists err,
     negotiate_secret (P := sample.platform) 5 6
       (sample_states.holding (sample.wire sample.honest))
       (bstr "123456789,04DD,3FEA") 5 = raise err /\
     err <> OutOfFuel).
Proof.
  destruct (shared_secret_is_reversed_but_never_returned (P := sample.platform) 6 5
              (le_n 6) (le_n 5)) as (_ & Hstate & Hrun).
  split.
  - destruct (Hstate (sample.world sample.key_exchange_sent [])
                sample.key_of_client sample.peer_key)
      as (w' & Hreceive & _ & Hsecret & _).
    + split; [reflexivity | ]. eexists. repeat split; reflexivity.
    + reflexivity.
    + reflexivity.
    + exists w'. split; [exact Hreceive | exact Hsecret].
  - refine (proj1 (Hrun _ (sample_states.holding (sample.wire sample.honest))
                     (bstr "123456789,04DD,3FEA") 5)).
    unfold platform_never_raises.
    cbn [hex_decode int_base16 donna_PublicKey_of_bytes ec_public_key_of_point
         ec_derive_private_key ec_verify recv_into sendall sample.platform].
    unfold sample.MockSock_recv_into, sample.MockSock_sendall.
    repeat split; intros; try discriminate.
    + destruct (len b =? 32); discriminate.
    + destruct (bytes_eqb s m); discriminate.
Defined.

Section MoreRuns.
Context {P : Platform}.
Local Open Scope Z_scope.

(** X19.  Started on a new context, the handshake with the crypto backend
    decodes the two keys of the group, draws the client's nonce as 32 bytes
    of [os.urandom] and only then generates the ephemeral key pair; it comes
    back with the request to write the ClientHello that carries the group
    id and that very nonce, and nothing was sent or received meanwhile. *)
Theorem start_draws_nonce_then_key :
  forall (fuel depth : nat) (g : DAAGroup) (e e1 e2 : Entropy) (s : socket)
         (point nonce : bytes) (pub : ec_PublicKey) (n : Z) (priv : ec_PrivateKey)
         (k : donna_PrivateKey),
    (5 <= fuel)%nat -> (6 <= depth)%nat ->
    hex_decode g.(server_public_key) = ok point ->
    ec_public_key_of_point point = ok pub ->
    int_base16 g.(client_private_key) = ok n ->
    ec_derive_private_key n = ok priv ->
    urandom 32 e = (nonce, e1) ->
    donna_PrivateKey_new e1 = (k, e2) ->
    len g.(group_id) <= 65535 -> len nonce <= 65535 ->
    exists hello h1,
      SyncCrypto_receive fuel depth Start
        {| handshake := XDAAHandshake__init__ g; entropy := e; sock := s |}
      = ok (Some (DataWrite hello),
            {| handshake := h1; entropy := e2; sock := s |}) /\
      ClientHelloMessage.serialize
        (ClientHelloMessage.__init__ g.(group_id) nonce) = ok hello /\
      awaiting_hello_written h1 /\
      h1.(context)
      = {| protocol_version := 0;
           daa_group := Some g;
           client_nonce := Some nonce;
           client_ephemeral_private_key :=
             Some {| x25519.kp_private := k;
                     x25519.kp_public := donna_get_public k |};
           server_nonce := None;
           server_ephemeral_public_key := None;
           server_group_public_key := Some {| secp256r1._public := pub |};
           client_group_private_key := Some {| secp256r1._private := priv |};
           shared_secret := None |}.
Proof.
  intros fuel depth g e e1 e2 s point nonce pub n priv k Hfuel Hd
    Hpoint Hpub Hn Hpriv Hnonce Hkey Hgid Hlen.
  destruct fuel as [ | [ | [ | [ | [ | fuel]]]]]; try lia.
  destruct depth as [ | [ | [ | [ | [ | [ | depth]]]]]]; try lia.
  destruct g as [gid spk cpk].
  cbn [group_id server_public_key client_private_key] in *.
  unfold XDAAHandshake__init__, XDAAContext__init__.
  pose proof (ClientHello_serialize_ok gid nonce Hgid Hlen) as Hhello.
  eexists. eexists. split; [ | split; [ | split]].
  - crypto_turn. rewrite Hpoint. run_backends. rewrite Hpub. run_backends.
    crypto_turn. rewrite Hn. run_backends. rewrite Hpriv. run_backends.
    crypto_turn. rewrite Hnonce. run_backends.
    crypto_turn. rewrite Hkey. run_backends.
    rewrite SyncCrypto_receive_turn. cbn [handshake].
    match goal with
    | |- context [XDAAHandshake_receive ?d ?ev ?h] =>
        let r := fresh "r" in
        evar (r : result (option Event * XDAAHandshake));
        assert (Hplain : XDAAHandshake_receive d ev h = r)
          by (subst r; run_engine; rewrite Hhello; run_engine; reflexivity);
        subst r; rewrite Hplain; clear Hplain
    end.
    run_backends. reflexivity.
  - exact Hhello.
  - split; [reflexivity | ]. eexists. repeat split; reflexivity.
  - reflexivity.
Qed.

(** X20.  An event [Terminated] that comes from outside is taken for the
    end of the child: while [ReceiveServerKeyExchange] waits for the header,
    it makes the handshake drop that child and enter
    [SendClientKeyExchange], which asks for the encoding of the client's
    key.  No message was read and no signature checked; the context is as
    before. *)
Theorem outside_Terminated_skips_the_server_message :
  forall (depth : nat) (h : XDAAHandshake),
    (8 <= depth)%nat ->
    awaiting_header h ->
    child_has_parent h ->
    exists h',
      XDAAHandshake_receive depth Terminated h
      = ok (Some (EphemeralEncodePublicKey
                    h.(context).(client_ephemeral_private_key)), h') /\
      awaiting_encoded_key h' /\
      h'.(context) = h.(context).
Proof.
  intros depth h Hd (Hcur & c & Hc & Hclass & Hst & Hstep) (c' & Hc' & Hparent).
  rewrite Hc in Hc'. injection Hc' as <-.
  do 8 (destruct depth as [ | depth]; [lia | ]).
  open_handshake h. open_child c. open_context ctx. subst.
  eexists. split; [ | split].
  - run_engine. reflexivity.
  - split; [reflexivity | ]. eexists. repeat split; reflexivity.
  - reflexivity.
Qed.

(** X21.  [verify_sha256] turns the outcome of the library's [verify] into
    a truth value: it returns [True] exactly when [verify] returns, [False]
    exactly when [verify] raises [InvalidSignature], and never raises
    [InvalidSignature] itself; any other exception of [verify] goes
    through. *)
Theorem verify_sha256_outcomes :
  forall (key : secp256r1.public_key) (signature message : bytes),
    let library := ec_verify key.(secp256r1._public) signature message in
    let outcome := secp256r1.verify_sha256 key signature message in
    (outcome = ok true <-> library = ok tt) /\
    (outcome = ok false <-> library = raise InvalidSignature) /\
    outcome <> raise InvalidSignature /\
    (forall err, err <> InvalidSignature ->
                 (outcome = raise err <-> library = raise err)).
Proof.
  intros key signature message library outcome.
  unfold outcome, secp256r1.verify_sha256, secp256r1._verify. fold library.
  destruct library as [e0 | []].
  - destruct (exn_eq_dec e0 InvalidSignature) as [-> | Hne].
    + cbn. split; [split; discriminate | ].
      split; [split; reflexivity | ].
      split; [discriminate | ].
      intros err Herr. split; intros Heq; [discriminate Heq | congruence].
    + replace (isinstance e0 InvalidSignature) with false
        by (destruct e0; try reflexivity; contradiction).
      split; [split; discriminate | ].
      split; [split; [discriminate | congruence] | ].
      split; [congruence | ].
      intros err Herr. split; intros Heq; injection Heq as ->; reflexivity.
  - split; [split; reflexivity | ].
    split; [split; discriminate | ].
    split; [discriminate | ].
    intros err Herr. split; intros Heq; discriminate Heq.
Qed.

End MoreRuns.

(** * The further properties at work on the small platform *)

Lemma serialize_inverts_decode_message_witness :
  ClientHelloMessage.serialize (ClientHelloMessage.__init__ (bstr "ab") (bstr "c"))
  = ok ([Byte.x00; Byte.x00; Byte.x02; Byte.x00; Byte.x01] ++ bstr "abc").
Proof.
  apply (proj1 serialize_inverts_decode_message). reflexivity.
Defined.

Lemma decoded_message_is_consistent_witness :
  len (ClientKeyExchangeMessage.client_ecdhe_public_key
         (ClientKeyExchangeMessage.__init__ (bstr "ab") (bstr "c"))) <= 65535.
Proof.
  refine (proj1 (proj2 (proj2 (proj2 decoded_message_is_consistent)
            ([Byte.x00; Byte.x00; Byte.x02; Byte.x00; Byte.x01] ++ bstr "abc")
            (ClientKeyExchangeMessage.__init__ (bstr "ab") (bstr "c")) _))).
  reflexivity.
Defined.

Lemma body_read_size_is_bounded_witness :
  exists L, Some (DataRead 137) = Some (DataRead (P := sample.platform) L) /\
            0 <= L <= 262140 /\
            len (slice (sample.wire sample.honest) 0 9) = 9.
Proof.
  refine (body_read_size_is_bounded (P := sample.platform) 3 sample.header_wanted
            (sample.body_wanted sample.honest)
            (slice (sample.wire sample.honest) 0 9) (Some (DataRead 137)) _ _ _).
  - apply le_n.
  - split; [reflexivity | ]. eexists. repeat split; reflexivity.
  - reflexivity.
Defined.

Lemma foreign_group_witness :
  mixed_receive (P := sample.platform) 1 4
    (DataReadResult (slice (sample.wire sample_states.foreign) 9 146))
    (sample.world (sample.body_wanted sample_states.foreign) [])
  = raise IncorrectGroupError.
Proof.
  refine (proj2 (foreign_group_raises_IncorrectGroupError (P := sample.platform) 4 1
            (sample.world (sample.body_wanted sample_states.foreign) [])
            (sample.parsed_header sample_states.foreign) sample_states.foreign
            (slice (sample.wire sample_states.foreign) 9 146) sample.group
            _ _ _ _ _ _ _)).
  - apply le_n.
  - apply le_n.
  - split; [reflexivity | ]. eexists. repeat split; reflexivity.
  - reflexivity.
  - reflexivity.
  - reflexivity.
  - intros H. vm_compute in H. discriminate H.
Defined.

Lemma verified_message_is_stored_witness :
  exists h1 h2,
    XDAAHandshake_receive (P := sample.platform) 6
      (GroupSHA256VerifySignatureResult true) sample_states.verification_wanted
    = ok (Some (EphemeralDecodePublicKey sample.key_of_server), h1) /\
    h1.(context) = set_server_nonce sample.nonce_of_server sample.initialised /\
    XDAAHandshake_receive (P := sample.platform) 6
      (EphemeralDecodePublicKeyResult sample.peer_key) h1
    = ok (Some (EphemeralEncodePublicKey (Some sample.key_of_client)), h2) /\
    h2.(context)
    = set_server_ephemeral_public_key (Some sample.peer_key)
        (set_server_nonce sample.nonce_of_server sample.initialised) /\
    awaiting_encoded_key h2.
Proof.
  refine (verified_message_is_stored (P := sample.platform) 6
            sample_states.verification_wanted sample.honest sample.peer_key _ _).
  - apply le_n.
  - split; [reflexivity | ]. eexists. repeat split; reflexivity.
Defined.

Lemma client_key_exchange_is_never_signed_witness :
  XDAAHandshake_receive (P := sample.platform) 3
    (EphemeralEncodePublicKeyResult (repeat Byte.x06 32))
    sample_states.encoding_wanted
  = raise NameError.
Proof.
  refine (client_key_exchange_is_never_signed (P := sample.platform) 3
            sample_states.encoding_wanted (repeat Byte.x06 32) _ _).
  - apply le_n.
  - split; [reflexivity | ]. eexists. repeat split; reflexivity.
Defined.

Lemma terminated_handshake_witness :
  mixed_receive (P := sample.platform) 1 2 DataWriteResult
    (sample.world sample_states.finished [])
  = raise TerminatedError.
Proof.
  refine (proj2 (proj2 (terminated_handshake_rejects_events (P := sample.platform)
                          2 1 (sample.world sample_states.finished [])
                          DataWriteResult _ _ _) _)).
  - apply le_n.
  - apply le_n.
  - split; reflexivity.
  - discriminate.
Defined.

Lemma initialisation_witness :
  exists h4,
    feed (P := sample.platform) 6
      [Start; GroupDecodePublicKeyResult sample.group_public_key;
       GroupDecodePrivateKeyResult sample.group_private_key;
       CreateNonceResult sample.nonce_of_client]
      (XDAAHandshake__init__ sample.group)
    = ok ([Some (GroupDecodePublicKey (bstr "04DD"));
           Some (GroupDecodePrivateKey (bstr "3FEA"));
           Some (CreateNonce 32);
           Some EphemeralCreateKey], h4).
Proof.
  destruct (initialisation_ends_with_client_hello (P := sample.platform) 6
              sample.group sample.group_public_key sample.group_private_key
              sample.nonce_of_client sample.key_of_client (le_n 6))
    as (h4 & Hfeed & _).
  exists h4. exact Hfeed.
Defined.

Lemma out_of_order_event_witness :
  XDAAHandshake_receive (P := sample.platform) 4 DataWriteResult sample.header_wanted
  = raise AttributeError.
Proof.
  refine (proj2 (out_of_order_event_errors (P := sample.platform) 4
                   sample.header_wanted DataWriteResult _ _ _ _) _ _).
  - apply le_n.
  - eexists. split; reflexivity.
  - discriminate.
  - discriminate.
  - split; [reflexivity | ]. eexists. repeat split; reflexivity.
  - discriminate.
Defined.

Lemma data_read_exact_size_witness :
  bstr "abc" = [] \/ len (bstr "abc") = 3.
Proof.
  refine (proj1 (data_read_returns_exactly_size (P := sample.platform) 3 _)
            (sample_states.holding (bstr "abcd"))
            {| sample.to_read := bstr "d"; sample.written := [] |}
            (bstr "abc") _).
  - lia.
  - reflexivity.
Defined.


Lemma mixins_serve_every_request_witness :
  exists out : Event (P := sample.platform),
    Some Terminated = Some out /\
    _sync_crypto_dispatch (P := sample.platform) (kind out) = None /\
    _sync_socket_dispatch (P := sample.platform) (kind out) = None /\
    ~ In (kind out)
        [DATA_WRITE; DATA_READ; CREATE_NONCE; EPHEMERAL_CREATE_KEY;
         EPHEMERAL_COMPUTE_SHARED_SECRET; EPHEMERAL_DECODE_PUBLIC_KEY;
         EPHEMERAL_ENCODE_PUBLIC_KEY; GROUP_DECODE_PUBLIC_KEY;
         GROUP_DECODE_PRIVATE_KEY; GROUP_SHA256_SIGN_DATA;
         GROUP_SHA256_VERIFY_SIGNATURE].
Proof.
  refine (mixins_serve_every_request (P := sample.platform) 1 2 Entry
            (sample.world sample_states.finished [])
            (sample.world sample_states.finished []) (Some Terminated) _).
  reflexivity.
Defined.

Lemma from_csv_accepts_witness :
  exists g p c,
    text "123456789,04DD,3FEA" = g ++ comma :: p ++ comma :: c /\
    ~ In comma g /\ ~ In comma p /\ ~ In comma c /\
    Forall (fun ch => (ch < 128)%N) (text "123456789,04DD,3FEA") /\
    bstr "123456789" = map (fun ch => byte.of_Z (Z.of_N ch)) g /\
    bstr "04DD" = map (fun ch => byte.of_Z (Z.of_N ch)) p /\
    bstr "3FEA" = map (fun ch => byte.of_Z (Z.of_N ch)) c.
Proof.
  refine (from_csv_accepts_only_three_ascii_fields (text "123456789,04DD,3FEA")
            {| Keys.group_id := bstr "123456789";
               Keys.server_public_key := bstr "04DD";
               Keys.client_private_key := bstr "3FEA" |} _).
  reflexivity.
Defined.

Lemma negotiate_secret_never_returns_witness :
  exists err,
    negotiate_secret (P := sample.platform) 5 6
      (sample_states.holding (sample.wire sample.honest))
      (bstr "123456789,04DD,3FEA") 5 = raise err /\
    err <> OutOfFuel.
Proof.
  refine (negotiate_secret_never_returns (P := sample.platform) 5 6
            (sample_states.holding (sample.wire sample.honest))
            (bstr "123456789,04DD,3FEA") 5 _ _ _).
  - apply le_n.
  - apply le_n.
  - unfold platform_never_raises.
    cbn [hex_decode int_base16 donna_PublicKey_of_bytes ec_public_key_of_point
         ec_derive_private_key ec_verify recv_into sendall sample.platform].
    unfold sample.MockSock_recv_into, sample.MockSock_sendall.
    repeat split; intros; try discriminate.
    + destruct (len b =? 32); discriminate.
    + destruct (bytes_eqb s m); discriminate.
Defined.

Lemma start_draws_nonce_then_key_witness :
  exists hello h1,
    SyncCrypto_receive (P := sample.platform) 5 6 Start
      (sample_states.at_entropy (XDAAHandshake__init__ sample.group) 5 [])
    = ok (Some (DataWrite hello), sample_states.at_entropy h1 7 []) /\
    ClientHelloMessage.serialize
      (ClientHelloMessage.__init__ (bstr "123456789") sample.nonce_of_client)
    = ok hello.
Proof.
  destruct (start_draws_nonce_then_key (P := sample.platform) 5 6 sample.group
              5 6 7 (sample_states.holding []) (bstr "04DD") sample.nonce_of_client
              (bstr "04DD") 4 4 6)
    as (hello & h1 & Hrun & Hhello & _).
  - apply le_n.
  - apply le_n.
  - reflexivity.
  - reflexivity.
  - reflexivity.
  - reflexivity.
  - reflexivity.
  - reflexivity.
  - change (len (group_id sample.group)) with 9. lia.
  - change (len sample.nonce_of_client) with 32. lia.
  - exists hello, h1. split; [exact Hrun | exact Hhello].
Defined.

Lemma outside_Terminated_witness :
  exists h',
    XDAAHandshake_receive (P := sample.platform) 8 Terminated sample.header_wanted
    = ok (Some (EphemeralEncodePublicKey (Some sample.key_of_client)), h') /\
    awaiting_encoded_key h' /\
    h'.(context) = sample.initialised.
Proof.
  refine (outside_Terminated_skips_the_server_message (P := sample.platform) 8
            sample.header_wanted _ _ _).
  - apply le_n.
  - split; [reflexivity | ]. eexists. repeat split; reflexivity.
  - eexists. split; reflexivity.
Defined.


Lemma new_handshake_witness :
  XDAAHandshake_receive (P := sample.platform) 6 DataWriteResult
    (XDAAHandshake__init__ sample.group)
  = raise UnsupportedEventError.
Proof.
  refine (proj2 (proj2 (new_handshake_accepts_only_Start (P := sample.platform) 6
                          sample.group DataWriteResult _)) _ _ _).
  - apply le_n.
  - discriminate.
  - discriminate.
  - discriminate.
Defined.
